(** * MindsDB: integration data node and OpenBB table translator

    A shallow embedding of

    - [mindsdb/api/executor/datahub/datanodes/integration_datanode.py]
      (class [IntegrationDataNode]) and
    - [mindsdb/integrations/handlers/openbb_handler/openbb_tables.py]
      (function [create_table_class], class [AnyTable])

    together with the properties of their natural-language specification.

    Layout: Part I holds the definitions (Python data, calendar dates, the two
    embedded classes and the concrete instances used to run them); Part II
    holds the lemmas and theorems. *)

From Stdlib Require Import ZArith List String Ascii Bool Lia.
From Stdlib Require Import DecimalString.
From Stdlib Require Import Floats.PrimFloat Floats.SpecFloat Floats.FloatOps.
Import ListNotations.

Local Open Scope string_scope.
Local Open Scope Z_scope.

(* ================================================================== *)
(** * Part I.  Definitions *)
(* ================================================================== *)

(** ** Python strings

    Python [str] values are modelled by [string]; the texts that occur in the
    two classes are ASCII, and the character classes below are the ASCII part
    of Python's. *)

Module PyStr.

Definition char_code (c : ascii) : Z := Z.of_nat (nat_of_ascii c).

(** [c.isspace()] on ASCII: TAB, LF, VT, FF, CR, FS, GS, RS, US and SPACE. *)
Definition is_space (c : ascii) : bool :=
  let n := char_code c in
  ((9 <=? n) && (n <=? 13)) || ((28 <=? n) && (n <=? 32)).

Definition is_upper (c : ascii) : bool :=
  let n := char_code c in (65 <=? n) && (n <=? 90).

Definition lower_char (c : ascii) : ascii :=
  if is_upper c then ascii_of_nat (nat_of_ascii c + 32) else c.

(** [s.lower()] *)
Fixpoint lower (s : string) : string :=
  match s with
  | EmptyString => EmptyString
  | String c s' => String (lower_char c) (lower s')
  end.

(** [s.lstrip()], [s.rstrip()], [s.strip()] *)
Fixpoint lstrip (s : string) : string :=
  match s with
  | EmptyString => EmptyString
  | String c s' => if is_space c then lstrip s' else s
  end.

Fixpoint rstrip (s : string) : string :=
  match s with
  | EmptyString => EmptyString
  | String c s' =>
      let r := rstrip s' in
      if is_space c && String.eqb r EmptyString then EmptyString
      else String c r
  end.

Definition strip (s : string) : string := rstrip (lstrip s).

(** [needle in hay] *)
Fixpoint contains (needle hay : string) : bool :=
  prefix needle hay ||
  match hay with
  | EmptyString => false
  | String _ hay' => contains needle hay'
  end.

(** [s.replace(old, new)]: the non-overlapping occurrences of [old], read
    from the left, are replaced.  [skip] counts the characters of an
    occurrence that are still to be dropped. *)
Fixpoint replace_from (old new : string) (skip : nat) (s : string) : string :=
  match s with
  | EmptyString => EmptyString
  | String c s' =>
      match skip with
      | S k => replace_from old new k s'
      | O =>
          if prefix old s
          then new ++ replace_from old new (Nat.pred (String.length old)) s'
          else String c (replace_from old new O s')
      end
  end.

(** For the empty [old] Python inserts [new] before every character and at
    the end. *)
Fixpoint intersperse (new s : string) : string :=
  match s with
  | EmptyString => new
  | String c s' => new ++ String c (intersperse new s')
  end.

Definition replace (old new s : string) : string :=
  match old with
  | EmptyString => intersperse new s
  | _ => replace_from old new O s
  end.

(** [sep.join(l)] *)
Definition join (sep : string) (l : list string) : string :=
  String.concat sep l.

(** The decimal text of an integer *)
Definition of_Z (z : Z) : string :=
  match z with
  | Z0 => "0"
  | _ => NilEmpty.string_of_int (Z.to_int z)
  end.

(** The decimal text of [z] padded with zeros on the left to [width]
    characters, as [%02d] and [%04d] do for a natural number. *)
Fixpoint zeros (n : nat) : string :=
  match n with
  | O => EmptyString
  | S k => String "0" (zeros k)
  end.

Definition zero_pad (width : nat) (z : Z) : string :=
  let digits := of_Z z in
  zeros (width - String.length digits) ++ digits.

Definition mem (x : string) (l : list string) : bool :=
  existsb (String.eqb x) l.

End PyStr.

(** ** Python values *)

Module PyVal.

(** An object of any other class is known through the methods the code
    reaches: [__int__], [__float__] and [__str__], each of which may raise
    ([None]). *)
Record pyobj : Type := mk_pyobj
  { obj_class : string;
    obj_int : option Z;
    obj_float : option float;
    obj_str : option string }.

Inductive value : Type :=
| VNone
| VBool (b : bool)
| VInt (z : Z)
| VFloat (f : float)
| VStr (s : string)
| VObj (o : pyobj).

Definition is_none (v : value) : bool :=
  match v with VNone => true | _ => false end.

(** Truth value of an object, as [not v] and [if v] test it. *)
Definition truthy (v : value) : bool :=
  match v with
  | VNone => false
  | VBool b => b
  | VInt z => negb (z =? 0)
  | VFloat f => negb (PrimFloat.eqb f PrimFloat.zero)
  | VStr s => negb (String.eqb s EmptyString)
  | VObj _ => true
  end.

(** *** [int(x)] *)

Definition digit_of (c : ascii) : option Z :=
  let n := PyStr.char_code c in
  if (48 <=? n) && (n <=? 57) then Some (n - 48) else None.

(** Decimal digits, single underscores allowed between two digits. *)
Fixpoint parse_digits (s : string) (acc : Z) (after_digit : bool) : option Z :=
  match s with
  | EmptyString => if after_digit then Some acc else None
  | String c s' =>
      match digit_of c with
      | Some d => parse_digits s' (10 * acc + d) true
      | None =>
          if Ascii.eqb c "_" && after_digit
          then match s' with
               | EmptyString => None
               | _ => parse_digits s' acc false
               end
          else None
      end
  end.

(** The conversions between [int] and [str] raise [ValueError] for more
    than [sys.int_max_str_digits] decimal digits, 4300 unless it is set
    otherwise. *)
Definition int_max_str_digits : nat := 4300.

Fixpoint count_digits (s : string) : nat :=
  match s with
  | EmptyString => O
  | String c s' =>
      match digit_of c with
      | Some _ => S (count_digits s')
      | None => count_digits s'
      end
  end.

Definition int_of_string (s : string) : option Z :=
  let t := PyStr.strip s in
  if (int_max_str_digits <? count_digits t)%nat then None
  else
    match t with
    | String "+" r => parse_digits r 0 false
    | String "-" r => option_map Z.opp (parse_digits r 0 false)
    | _ => parse_digits t 0 false
    end.

(** [str(n)] for an [int] *)
Definition int_text (z : Z) : option string :=
  if (int_max_str_digits <? String.length (PyStr.of_Z (Z.abs z)))%nat then None
  else Some (PyStr.of_Z z).

(** [int(f)] truncates towards zero and raises on infinities and NaN. *)
Definition float_trunc (f : float) : option Z :=
  match Prim2SF f with
  | S754_zero _ => Some 0
  | S754_finite s m e =>
      let mag := if 0 <=? e then Z.pos m * 2 ^ e else Z.pos m / 2 ^ (- e) in
      Some (if s then - mag else mag)
  | S754_infinity _ | S754_nan => None
  end.

(** [float(n)] rounds to the nearest double and raises [OverflowError] when
    there is none. *)
Definition float_of_Z (z : Z) : option float :=
  match binary_normalize prec emax z 0 false with
  | S754_infinity _ | S754_nan => None
  | sf => Some (SF2Prim sf)
  end.

(** The decimal reading and printing of doubles ([float(s)] and [str(f)])
    are taken as given. *)
Record float_text : Type := mk_float_text
  { float_of_string : string -> option float;
    string_of_float : float -> string }.

Section Conversions.
Variable ft : float_text.

(** Each conversion returns [None] where Python raises. *)
Definition py_int (v : value) : option value :=
  match v with
  | VNone => None
  | VBool b => Some (VInt (if b then 1 else 0))
  | VInt z => Some (VInt z)
  | VFloat f => option_map VInt (float_trunc f)
  | VStr s => option_map VInt (int_of_string s)
  | VObj o => option_map VInt (obj_int o)
  end.

Definition py_float (v : value) : option value :=
  match v with
  | VNone => None
  | VBool b => Some (VFloat (if b then PrimFloat.one else PrimFloat.zero))
  | VInt z => option_map VFloat (float_of_Z z)
  | VFloat f => Some (VFloat f)
  | VStr s => option_map VFloat (float_of_string ft s)
  | VObj o => option_map VFloat (obj_float o)
  end.

Definition py_str (v : value) : option value :=
  match v with
  | VNone => Some (VStr "None")
  | VBool b => Some (VStr (if b then "True" else "False"))
  | VInt z => option_map VStr (int_text z)
  | VFloat f => Some (VStr (string_of_float ft f))
  | VStr s => Some (VStr s)
  | VObj o => option_map VStr (obj_str o)
  end.
End Conversions.

End PyVal.

(** ** Python dicts

    A [dict] keeps its keys in insertion order; assigning to a key that is
    present replaces the value in place. *)

Module PyDict.

Definition dict (V : Type) : Type := list (string * V).

Section Ops.
Context {V : Type}.

Fixpoint get (d : dict V) (k : string) : option V :=
  match d with
  | [] => None
  | (k', v) :: d' => if String.eqb k k' then Some v else get d' k
  end.

(** [d.get(k, default)] *)
Definition get_default (d : dict V) (k : string) (default : V) : V :=
  match get d k with
  | Some v => v
  | None => default
  end.

(** [k in d] *)
Definition has (d : dict V) (k : string) : bool :=
  match get d k with
  | Some _ => true
  | None => false
  end.

(** [d[k] = v] *)
Fixpoint set (d : dict V) (k : string) (v : V) : dict V :=
  match d with
  | [] => [(k, v)]
  | (k', v') :: d' =>
      if String.eqb k k' then (k', v) :: d' else (k', v') :: set d' k v
  end.

Definition keys (d : dict V) : list string := map fst d.
Definition values (d : dict V) : list V := map snd d.

(** [{k: v for k in ks}] *)
Definition from_keys (ks : list string) (v : V) : dict V :=
  fold_left (fun d k => set d k v) ks [].

(** [dict(pairs)] *)
Definition of_pairs (ps : list (string * V)) : dict V :=
  fold_left (fun d p => set d (fst p) (snd p)) ps [].
End Ops.

End PyDict.

(** ** Python exceptions *)

Module PyExn.

(** The classes the two files name, and any other subclass of [Exception]
    by its name. *)
Inductive exn_class : Type :=
| Exception_
| AttributeError
| ValidationError
| NotImplementedError
| ValueError
| KeyError
| IndexError
| DBHandlerException
| OtherError (name : string).

(** [e.__class__.__name__] *)
Definition class_name (c : exn_class) : string :=
  match c with
  | Exception_ => "Exception"
  | AttributeError => "AttributeError"
  | ValidationError => "ValidationError"
  | NotImplementedError => "NotImplementedError"
  | ValueError => "ValueError"
  | KeyError => "KeyError"
  | IndexError => "IndexError"
  | DBHandlerException => "DBHandlerException"
  | OtherError name => name
  end.

(** An exception: its class and [str(e)]. *)
Record exn : Type := mk_exn { exn_cls : exn_class; exn_msg : string }.

Definition is_AttributeError (e : exn) : bool :=
  match exn_cls e with AttributeError => true | _ => false end.
Definition is_ValidationError (e : exn) : bool :=
  match exn_cls e with ValidationError => true | _ => false end.
Definition is_NotImplementedError (e : exn) : bool :=
  match exn_cls e with NotImplementedError => true | _ => false end.

(** The outcome of a call: it raises or it returns. *)
Inductive outcome (A : Type) : Type :=
| Raise (e : exn)
| Return (a : A).
Arguments Raise {A} e.
Arguments Return {A} a.

End PyExn.

(** ** Calendar dates

    A [datetime] is the number of microseconds since 1970-01-01T00:00:00 of
    a naive local timestamp, a [timedelta] a number of microseconds. *)

Module DateTime.
Import PyExn.

Definition datetime : Type := Z.
Definition timedelta : Type := Z.

Definition usec_per_day : Z := 86400 * 1000000.

(** Proleptic Gregorian date of a day number (days since 1970-01-01). *)
Definition civil_from_days (days : Z) : Z * Z * Z :=
  let z := days + 719468 in
  let era := z / 146097 in
  let doe := z - era * 146097 in
  let yoe := (doe - doe / 1460 + doe / 36524 - doe / 146096) / 365 in
  let doy := doe - (365 * yoe + yoe / 4 - yoe / 100) in
  let mp := (5 * doy + 2) / 153 in
  let d := doy - (153 * mp + 2) / 5 + 1 in
  let m := if mp <? 10 then mp + 3 else mp - 9 in
  let y := yoe + era * 400 in
  ((if m <=? 2 then y + 1 else y), m, d).

Definition days_from_civil (y m d : Z) : Z :=
  let y' := if m <=? 2 then y - 1 else y in
  let era := y' / 400 in
  let yoe := y' - era * 400 in
  let mp := if 2 <? m then m - 3 else m + 9 in
  let doy := (153 * mp + 2) / 5 + d - 1 in
  let doe := yoe * 365 + yoe / 4 - yoe / 100 + doy in
  era * 146097 + doe - 719468.

(** [t.strftime('%Y-%m-%d')]: the year is printed by the C library, which
    on Linux does not pad it; from the year 1000 on it has its four digits
    everywhere. *)
Definition strftime_ymd (t : datetime) : string :=
  let '(y, m, d) := civil_from_days (t / usec_per_day) in
  PyStr.of_Z y ++ "-" ++ PyStr.zero_pad 2 m ++ "-" ++ PyStr.zero_pad 2 d.

(** A [datetime] lies between the years 1 and 9999; adding or subtracting
    a [timedelta] raises [OverflowError] when the result does not. *)
Definition min_datetime : datetime := days_from_civil 1 1 1 * usec_per_day.

Definition max_datetime : datetime :=
  (days_from_civil 9999 12 31 + 1) * usec_per_day - 1.

Definition in_range (t : datetime) : bool :=
  (min_datetime <=? t) && (t <=? max_datetime).

Definition date_overflow : exn :=
  mk_exn (OtherError "OverflowError") "date value out of range".

Definition date_add (t : datetime) (d : timedelta) : outcome datetime :=
  if in_range (t + d) then Return (t + d) else Raise date_overflow.

Definition date_sub (t : datetime) (d : timedelta) : outcome datetime :=
  if in_range (t - d) then Return (t - d) else Raise date_overflow.

End DateTime.

(** ** Effects

    A method runs against a world [W] (whatever it can change outside its own
    locals) and either raises or returns. *)

Module PyMonad.
Import PyExn.

Definition M (W A : Type) : Type := W -> outcome A * W.

Section Ops.
Context {W : Type}.

Definition ret {A : Type} (a : A) : M W A := fun w => (Return a, w).

Definition raise {A : Type} (e : exn) : M W A := fun w => (Raise e, w).

Definition bind {A B : Type} (m : M W A) (k : A -> M W B) : M W B :=
  fun w =>
    match m w with
    | (Raise e, w') => (Raise e, w')
    | (Return a, w') => k a w'
    end.

(** [try: m  except Exception as e: h e] *)
Definition try_except {A : Type} (m : M W A) (h : exn -> M W A) : M W A :=
  fun w =>
    match m w with
    | (Raise e, w') => h e w'
    | (Return a, w') => (Return a, w')
    end.

(** A result computed without touching the world. *)
Definition lift {A : Type} (o : outcome A) : M W A := fun w => (o, w).

Definition modify (f : W -> W) : M W unit := fun w => (Return tt, f w).

End Ops.

Declare Scope py_scope.
Delimit Scope py_scope with py.
Notation "x <- m ;; k" := (bind m (fun x => k))
  (at level 100, m at next level, right associativity) : py_scope.
Notation "m ;;; k" := (bind m (fun _ => k))
  (at level 100, right associativity) : py_scope.

(** The same for code that raises but has no world. *)
Definition obind {A B : Type} (o : outcome A) (k : A -> outcome B) : outcome B :=
  match o with
  | Raise e => Raise e
  | Return a => k a
  end.

Fixpoint ofold {X A : Type} (body : A -> X -> outcome A) (l : list X) (acc : A)
  : outcome A :=
  match l with
  | [] => Return acc
  | x :: l' => obind (body acc x) (ofold body l')
  end.

(** [[f x for x in l]], where [f] may raise. *)
Fixpoint omap {X Y : Type} (f : X -> outcome Y) (l : list X) : outcome (list Y) :=
  match l with
  | [] => Return []
  | x :: l' =>
      obind (f x) (fun y => obind (omap f l') (fun ys => Return (y :: ys)))
  end.

(** [d[k]], which raises [KeyError] on a missing key. *)
Definition getitem {V : Type} (d : PyDict.dict V) (k : string) : outcome V :=
  match PyDict.get d k with
  | Some v => Return v
  | None => Raise (mk_exn KeyError ("'" ++ k ++ "'"))
  end.

End PyMonad.

(** ** integration_datanode.py *)

Module DataNode.
Import PyStr PyVal PyDict PyExn PyMonad.
Local Open Scope py_scope.

(** [RESPONSE_TYPE], the kind of a connector's response. *)
Inductive RESPONSE_TYPE : Type := TABLE | OK | ERROR.

(** *** Statements handed to the connector *)

Record Identifier : Type := mk_Identifier { parts : list string }.

(** The sqlalchemy types a created column can have. *)
Inductive sql_type : Type := Integer | Float | Text.

Record TableColumn : Type := mk_TableColumn
  { tc_name : string; tc_type : sql_type }.

Inductive statement : Type :=
| DropTables (tables : list Identifier) (if_exists : bool)
| CreateTable (name : Identifier) (columns : list TableColumn) (is_replace : bool)
| Insert (table : Identifier) (columns : list Identifier)
         (values : list (list value))
| Statement (text : string).

(** *** Result sets *)

(** The numpy dtypes, by kind. *)
Inductive np_dtype : Type :=
| dt_int | dt_uint | dt_float | dt_complex | dt_bool
| dt_datetime64 | dt_timedelta64 | dt_object | dt_str.

(** [pd_types.is_integer_dtype] and [pd_types.is_numeric_dtype] *)
Definition is_integer_dtype (d : np_dtype) : bool :=
  match d with dt_int | dt_uint => true | _ => false end.

Definition is_numeric_dtype (d : np_dtype) : bool :=
  match d with
  | dt_int | dt_uint | dt_float | dt_complex | dt_bool => true
  | _ => false
  end.

(** [col.type]: a numpy dtype or something else. *)
Inductive column_type : Type :=
| NpDtype (d : np_dtype)
| OtherType (name : string).

Record Column : Type := mk_Column { alias : string; col_type : column_type }.

(** A result set: its columns and what [get_records()] yields, one dict per
    row. *)
Record ResultSet : Type := mk_ResultSet
  { rs_columns : list Column; get_records : list (dict value) }.

Section Node.
(** The connector: its state and the dataframes it answers with. *)
Variable Conn : Type.
Variable DataFrame : Type.

Record Response : Type := mk_Response
  { resp_type : RESPONSE_TYPE;
    error_message : string;
    data_frame : DataFrame }.

(** [integration_handler]: each call may raise and may change the
    connector. *)
Record Handler : Type := mk_Handler
  { handler_class_name : string;
    handler_get_tables : Conn -> outcome Response * Conn;
    handler_query : statement -> Conn -> outcome Response * Conn;
    handler_native_query : option string -> Conn -> outcome Response * Conn }.

(** The operations [query] and [get_tables] use on what a response has
    as its [data_frame]: a frame, a series, or whatever else the connector
    put there ([None] included, on which every method raises
    [AttributeError]). *)
Record Pandas : Type := mk_Pandas
  { is_series : DataFrame -> bool;
    to_frame : DataFrame -> DataFrame;
    replace_nan : DataFrame -> outcome DataFrame;
    where_notnull : DataFrame -> outcome DataFrame;
    dtypes_items : DataFrame -> outcome (list (string * string));
    to_dict_split_data : DataFrame -> outcome (list (list value));
    to_dict_records : DataFrame -> outcome (list (dict value)) }.

(** What a call leaves behind: the connector's state, the statements
    dispatched to it, the metric observations and the logged errors. *)
Inductive event : Type :=
| Dispatched (s : statement)
| DispatchedNative (q : option string)
| TablesAsked
| Observed (handler_class : string) (t : RESPONSE_TYPE)
| LoggedError (msg : string).

Record World : Type := mk_World { conn : Conn; events : list event }.

Definition emit (ev : event) : M World unit :=
  modify (fun w => mk_World (conn w) (events w ++ [ev])%list).

(** A call into the connector. *)
Definition call_handler (ev : event) (f : Conn -> outcome Response * Conn)
  : M World Response :=
  fun w =>
    let '(r, c) := f (conn w) in
    (r, mk_World c (events w ++ [ev])%list).

Record IntegrationDataNode : Type := mk_IntegrationDataNode
  { integration_name : string;
    ds_type : string;
    integration_handler : Handler;
    pd : Pandas }.

(** The class [TablesRow] and its [from_dict], which the module imports. *)
Variable TablesRow : Type.
Variable from_dict : dict value -> outcome TablesRow.

Variable self : IntegrationDataNode.

Definition get_type : string := "integration".

Definition get_tables : M World (list TablesRow) :=
  response <- call_handler TablesAsked
                (handler_get_tables (integration_handler self)) ;;
  match resp_type response with
  | TABLE =>
      result_dict <- lift (to_dict_records (pd self) (data_frame response)) ;;
      lift (ofold (fun result row =>
                     obind (from_dict row) (fun r => Return (result ++ [r])%list))
                  result_dict [])
  | _ => raise (mk_exn Exception_
                  ("Can't get tables: " ++ error_message response))
  end.

Definition has_table (tableName : string) : M World bool := ret true.

Definition get_table_columns (tableName : string) : M World (list string) :=
  ret [].

(** The elapsed time is not modelled; the observation keeps its labels. *)
Definition _query (query : statement) : M World Response :=
  result <- call_handler (Dispatched query)
              (handler_query (integration_handler self) query) ;;
  emit (Observed (handler_class_name (integration_handler self))
                 (resp_type result)) ;;;
  ret result.

Definition _native_query (native_query : option string) : M World Response :=
  result <- call_handler (DispatchedNative native_query)
              (handler_native_query (integration_handler self) native_query) ;;
  emit (Observed (handler_class_name (integration_handler self))
                 (resp_type result)) ;;;
  ret result.

Definition raise_on_error (result : Response) : M World unit :=
  match resp_type result with
  | ERROR => raise (mk_exn Exception_ (error_message result))
  | _ => ret tt
  end.

Definition drop_table (name : Identifier) (if_exists : bool) : M World unit :=
  result <- _query (DropTables [name] if_exists) ;;
  raise_on_error result.

(** **** create_table *)

Definition infer_column_type (t : column_type) : sql_type :=
  match t with
  | NpDtype d =>
      if is_integer_dtype d then Integer
      else if is_numeric_dtype d then Float
      else Text
  | OtherType _ => Text
  end.

Definition table_columns_of (columns : list Column) : list TableColumn :=
  map (fun col => mk_TableColumn (alias col) (infer_column_type (col_type col)))
      columns.

Definition table_columns_meta_of (columns : list Column) : dict sql_type :=
  fold_left
    (fun meta col => PyDict.set meta (alias col) (infer_column_type (col_type col)))
    columns [].

Variable ft : float_text.

(** [int], [float] or [str], by the column's type. *)
Definition python_type (column_type : sql_type) : value -> option value :=
  match column_type with
  | Integer => py_int
  | Float => py_float ft
  | Text => py_str ft
  end.

(** [try: value = python_type(value) if value is not None else value
     except Exception: pass] *)
Definition coerce (column_type : sql_type) (v : value) : value :=
  match v with
  | VNone => v
  | _ => match python_type column_type v with
         | Some v' => v'
         | None => v
         end
  end.

(** The value a row gets under the alias [a]. *)
Definition cell (meta : dict sql_type) (rec : dict value) (a : string) : outcome value :=
  obind (getitem rec a) (fun v =>
  obind (getitem meta a) (fun column_type => Return (coerce column_type v))).

Definition format_row (columns : list Column) (meta : dict sql_type)
           (rec : dict value) : outcome (list value) :=
  ofold
    (fun new_row col =>
       obind (getitem rec (alias col)) (fun v =>
       obind (getitem meta (alias col)) (fun column_type =>
       Return (new_row ++ [coerce column_type v])%list)))
    columns [].

Definition format_data (result_set : ResultSet) : outcome (list (list value)) :=
  let meta := table_columns_meta_of (rs_columns result_set) in
  ofold
    (fun formatted_data rec =>
       obind (format_row (rs_columns result_set) meta rec) (fun new_row =>
       Return (formatted_data ++ [new_row])%list))
    (get_records result_set) [].

(** A value that is already an [int], a [float] or a [str], as the column's
    type asks. *)
Definition has_storage_type (column_type : sql_type) (v : value) : bool :=
  match column_type, v with
  | Integer, VInt _ => true
  | Float, VFloat _ => true
  | Text, VStr _ => true
  | _, _ => false
  end.

(** The formatted rows read back as records of the same columns. *)
Definition rows_as_records (columns : list Column) (rows : list (list value))
  : list (dict value) :=
  map (fun row => PyDict.of_pairs (combine (map alias columns) row)) rows.

(** Every record has a value under every column's alias. *)
Definition complete (result_set : ResultSet) : bool :=
  forallb
    (fun rec => forallb (fun col => has rec (alias col)) (rs_columns result_set))
    (get_records result_set).

Definition wrap_message (msg : string) : string :=
  "[" ++ ds_type self ++ "/" ++ integration_name self ++ "]: " ++ msg.

Definition create_table (table_name : Identifier) (result_set : ResultSet)
           (is_replace is_create : bool) : M World unit :=
  let table_columns := table_columns_of (rs_columns result_set) in
  is_create <-
    (if is_replace then
       result <- _query (DropTables [table_name] true) ;;
       raise_on_error result ;;;
       ret true
     else ret is_create) ;;
  (if is_create : bool then
     result <- _query (CreateTable table_name table_columns true) ;;
     raise_on_error result
   else ret tt) ;;;
  let insert_columns :=
    map (fun x => mk_Identifier [alias x]) (rs_columns result_set) in
  formatted_data <- lift (format_data result_set) ;;
  if (List.length formatted_data =? 0)%nat then ret tt
  else
    result <- try_except
                (_query (Insert table_name insert_columns formatted_data))
                (fun e => raise (mk_exn DBHandlerException
                                   (wrap_message (exn_msg e)))) ;;
    raise_on_error result.

(** **** query *)

(** The call [query] makes into the connector, and how it is recorded. *)
Definition connector_call (query : option statement) (native_query : option string)
  : Conn -> outcome Response * Conn :=
  match query with
  | Some q => handler_query (integration_handler self) q
  | None => handler_native_query (integration_handler self) native_query
  end.

Definition connector_event (query : option statement) (native_query : option string)
  : event :=
  match query with
  | Some q => Dispatched q
  | None => DispatchedNative native_query
  end.

Definition columns_info_of (df : DataFrame) : outcome (list (string * string)) :=
  dtypes_items (pd self) df.

Definition query (query : option statement) (native_query : option string)
  : M World (list (list value) * list (string * string)) :=
  result <- try_except
              (match query with
               | Some q => _query q
               | None => _native_query native_query
               end)
              (fun e =>
                 let msg := strip (exn_msg e) in
                 let msg := if String.eqb msg "" then class_name (exn_cls e)
                            else msg in
                 raise (mk_exn DBHandlerException (wrap_message msg))) ;;
  match resp_type result with
  | ERROR =>
      raise (mk_exn Exception_
               ("Error in " ++ integration_name self ++ ": "
                ++ error_message result))
  | OK => ret ([], [])
  | TABLE =>
      let df := data_frame result in
      let df := if is_series (pd self) df then to_frame (pd self) df else df in
      df <- match replace_nan (pd self) df with
            | Return df' => ret df'
            | Raise e =>
                emit (LoggedError
                        ("Issue with clearing DF from NaN values: " ++ exn_msg e)) ;;;
                ret df
            end ;;
      df <- match where_notnull (pd self) df with
            | Return df' => ret df'
            | Raise e =>
                emit (LoggedError
                        ("Issue with clearing DF from NaN values: " ++ exn_msg e)) ;;;
                ret df
            end ;;
      columns_info <- lift (columns_info_of df) ;;
      data <- lift (to_dict_split_data (pd self) df) ;;
      ret (data, columns_info)
  end.

End Node.

Arguments resp_type {DataFrame} _.
Arguments error_message {DataFrame} _.
Arguments data_frame {DataFrame} _.
Arguments conn {Conn} _.
Arguments events {Conn} _.
Arguments integration_name {Conn DataFrame} _.
Arguments ds_type {Conn DataFrame} _.
Arguments integration_handler {Conn DataFrame} _.
Arguments handler_class_name {Conn DataFrame} _.
Arguments has_table {Conn} tableName _.
Arguments get_table_columns {Conn} tableName _.
Arguments get_tables {Conn DataFrame TablesRow} from_dict self _.
Arguments drop_table {Conn DataFrame} self name if_exists _.
Arguments create_table {Conn DataFrame} self ft table_name result_set is_replace is_create _.
Arguments query {Conn DataFrame} self query native_query _.
Arguments connector_call {Conn DataFrame} self query native_query _.

End DataNode.

(** ** openbb_tables.py *)

Module OpenBB.
Import PyStr PyVal PyDict PyExn PyMonad DateTime.
Local Open Scope py_scope.

Definition nl : string := String (ascii_of_nat 10) EmptyString.

(** *** The query *)

(** A node of the [SELECT] list: [ast.Star], [ast.Identifier],
    [ast.Function], or a node of another class (a constant, a binary
    operation, a window function, ...), kept by its class name. *)
#[warnings="-register-all"]
Inductive target : Type :=
| Star
| Identifier (parts : list string)
| Function (op : string) (args : list target)
| OtherNode (node_class : string).

Definition node_class_name (t : target) : string :=
  match t with
  | Star => "Star"
  | Identifier _ => "Identifier"
  | Function _ _ => "Function"
  | OtherNode c => c
  end.

Record OrderBy : Type := mk_OrderBy { ob_field : string; ob_direction : string }.

(** One item of [extract_comparison_conditions]: a comparison
    [[op, column, literal]] or the disjunction marker [['or', None, None]]. *)
Inductive condition : Type :=
| Cmp (op arg1 : string) (arg2 : value)
| OrNone.

Definition filter_item : Type := (string * string * value)%type.

Section Table.
(** The filter tree of the parser, the dataframes of pandas and the state
    of the remote service. *)
Variable Where : Type.
Variable DataFrame : Type.
Variable Remote : Type.

(** [ast.Select]; [order_by] is empty where Python has [None] or [[]],
    [limit] holds [query.limit.value]. *)
Record Select : Type := mk_Select
  { targets : list target;
    from_table : list string;
    where_ : Where;
    order_by : list OrderBy;
    limit : option value }.

(** *** What [create_table_class] closes over *)

(** [field.annotation] of a parameter: a class, or a [Union] of classes. *)
Inductive annotation : Type :=
| Class (name : string)
| UnionOf (args : list string).

Record FieldInfo : Type := mk_FieldInfo
  { field_annotation : annotation;
    is_required : bool;
    description : string }.

(** [params_metadata['fields']], [response_metadata['fields']] (each
    response field with the annotation that is compared to ['datetime']),
    [func_docs] and [provider]. *)
Record Descriptor : Type := mk_Descriptor
  { params_fields : dict FieldInfo;
    response_fields : dict string;
    func_docs : string;
    provider : option string }.

(** The functions the class calls and does not define. *)
Record Externals : Type := mk_Externals
  { extract_comparison_conditions : Where -> list condition;
    parse_local_date : value -> outcome datetime;
    Timedelta : value -> outcome timedelta;
    (** the remote call followed by [to_df()] on what it returns *)
    obb_function : dict value -> Remote -> outcome (option DataFrame) * Remote;
    has_datetime_index : DataFrame -> bool;
    reset_index : DataFrame -> outcome DataFrame;
    sort_dataframe : DataFrame -> list OrderBy -> outcome DataFrame;
    head : DataFrame -> value -> outcome (option DataFrame);
    setitem : DataFrame -> string -> value -> outcome DataFrame;
    filter_dataframe : DataFrame -> list filter_item -> outcome (option DataFrame);
    df_columns : DataFrame -> list string;
    project_dataframe : DataFrame -> list target -> list string -> outcome DataFrame;
    to_string : Select -> string;
    (** [duckdb.query(query_str).to_df()], which reads the local [df] *)
    duckdb_query : string -> DataFrame -> outcome DataFrame }.

Variable D : Descriptor.
Variable X : Externals.

Definition mandatory_fields : list string :=
  map fst (filter (fun kv => is_required (snd kv)) (params_fields D)).

(** [response_columns] is one list object, created with the class and
    handed out by [get_columns]; its current contents are part of the
    world, next to the remote service and the calls made. *)
Definition initial_response_columns : list string := keys (response_fields D).

Inductive call : Type :=
| ObbCall (params : dict value)
| FilterCall (filters : list filter_item)
| ProjectCall (targets : list target) (columns : list string)
| DuckdbCall (query_str : string).

Record World : Type := mk_World
  { remote : Remote;
    response_columns : list string;
    calls : list call }.

Definition log (c : call) : M World unit :=
  modify (fun w => mk_World (remote w) (response_columns w) (calls w ++ [c])%list).

Definition get_columns : M World (list string) :=
  fun w => (Return (response_columns w), w).

Definition _get_params_from_conditions (conditions : list condition) : dict value :=
  fold_left
    (fun params c =>
       match c with
       | Cmp op arg1 arg2 => if String.eqb op "=" then PyDict.set params arg1 arg2
                             else params
       | OrNone => params
       end)
    conditions [].

Definition _select_dataframe (query : Select) (df : DataFrame) : M World DataFrame :=
  match rev (from_table query) with
  | [] => raise (mk_exn IndexError "list index out of range")
  | openbb_table :: _ =>
      let query := mk_Select (targets query) ["df"] (where_ query)
                             (order_by query) (limit query) in
      let query_str := to_string X query in
      let query_str := replace (openbb_table ++ ".") "" query_str in
      let query_str := replace "`" "" query_str in
      log (DuckdbCall query_str) ;;;
      lift (duckdb_query X query_str df)
  end.

(** **** The loop over the conditions *)

Record loop_state : Type := mk_loop_state
  { params : dict value;
    filters : list filter_item;
    mandatory_args_set : dict bool;
    columns_to_add : dict value }.

Definition or_error : exn := mk_exn NotImplementedError "OR is not supported".

(** Lines 91 to 108: the window parameters of a datetime field.  The
    literal is parsed first; the interval is made a [Timedelta] where the
    date is moved. *)
Definition time_range_params (arg_params : dict value) (op arg1 : string)
           (arg2 : value) (params : dict value) : outcome (dict value) :=
  obind (parse_local_date X arg2) (fun date =>
  let interval := get_default arg_params "interval" (VStr "1d") in
  if String.eqb op ">" then
    Return (PyDict.set params ("start_" ++ arg1) (VStr (strftime_ymd date)))
  else if String.eqb op "<" then
    Return (PyDict.set params ("end_" ++ arg1) (VStr (strftime_ymd date)))
  else if String.eqb op ">=" then
    obind (Timedelta X interval) (fun delta =>
    obind (date_sub date delta) (fun date =>
    Return (PyDict.set params ("start_" ++ arg1) (VStr (strftime_ymd date)))))
  else if String.eqb op "<=" then
    obind (Timedelta X interval) (fun delta =>
    obind (date_add date delta) (fun date =>
    Return (PyDict.set params ("end_" ++ arg1) (VStr (strftime_ymd date)))))
  else if String.eqb op "=" then
    obind (Timedelta X interval) (fun delta =>
    obind (date_sub date delta) (fun date =>
    let params := PyDict.set params ("start_" ++ arg1) (VStr (strftime_ymd date)) in
    obind (Timedelta X interval) (fun delta =>
    obind (date_add date delta) (fun date =>
    Return (PyDict.set params ("end_" ++ arg1) (VStr (strftime_ymd date)))))))
  else Return params).

(** One pass of the body of [for op, arg1, arg2 in conditions]. *)
Definition condition_step (columns : list string) (arg_params : dict value)
           (strict_filter : value) (st : loop_state) (c : condition)
  : outcome loop_state :=
  match c with
  | OrNone => Raise or_error
  | Cmp op arg1 arg2 =>
      if String.eqb op "or" then Raise or_error
      else
        let mandatory :=
          if mem arg1 mandatory_fields
          then PyDict.set (mandatory_args_set st) arg1 true
          else mandatory_args_set st in
        obind
          (if has (params_fields D) ("start_" ++ arg1) && mem arg1 columns
              && negb (is_none arg2)
           then
             obind (getitem (response_fields D) arg1) (fun ann =>
             if String.eqb ann "datetime"
             then obind (time_range_params arg_params op arg1 arg2 (params st))
                        (fun params => Return (params, columns_to_add st))
             else Return (params st, columns_to_add st))
           else if has (params_fields D) arg1 || negb (truthy strict_filter)
           then
             if String.eqb op "="
             then Return (PyDict.set (params st) arg1 arg2,
                          PyDict.set (columns_to_add st) arg1 arg2)
             else Return (params st, columns_to_add st)
           else Return (params st, columns_to_add st))
          (fun pc =>
             Return (mk_loop_state (fst pc)
                       (filters st ++ [(op, arg1, arg2)])%list
                       mandatory
                       (snd pc)))
  end.

Definition initial_params : dict value :=
  match provider D with
  | Some p => [("provider", VStr p)]
  | None => []
  end.

Definition initial_state : loop_state :=
  mk_loop_state initial_params [] (from_keys mandatory_fields false) [].

Definition condition_loop (columns : list string) (conditions : list condition)
  : outcome loop_state :=
  let arg_params := _get_params_from_conditions conditions in
  let strict_filter := get_default arg_params "strict_filter" (VBool false) in
  ofold (condition_step columns arg_params strict_filter) conditions initial_state.

(** **** The generated parameter reference *)

Definition annotation_text (a : annotation) : string :=
  match a with
  | UnionOf args => "Union[" ++ join ", " args ++ "]"
  | Class name => name
  end.

Definition param_entry (param : string) (field : FieldInfo) : string :=
  nl ++ "  * " ++ param ++ (if is_required field then "" else " (optional)")
     ++ ": " ++ annotation_text (field_annotation field)
     ++ nl ++ description field.

Definition param_entries : string :=
  String.concat "" (map (fun kv => param_entry (fst kv) (snd kv)) (params_fields D)).

(** The [text] built in each of the three handlers. *)
Definition docstring : string :=
  "Docstring:" ++ param_entries ++ nl ++ nl
    ++ "For more information check " ++ func_docs D.

Definition missing_args (mandatory : dict bool) : list string :=
  map fst (filter (fun kv => negb (snd kv)) mandatory).

(** The [text] of lines 118 to 131. *)
Definition missing_text (mandatory : dict bool) : string :=
  "You must specify the following arguments in the WHERE statement: "
    ++ join ", " (missing_args mandatory) ++ nl
    ++ nl ++ "Docstring:" ++ param_entries
    ++ nl ++ nl ++ "For more information check " ++ func_docs D.

Definition no_data_error : exn :=
  mk_exn Exception_ ("For more information check " ++ func_docs D ++ ".").

(** **** The handlers of lines 194 to 251 *)

Definition with_docstring (e : exn) : exn :=
  mk_exn Exception_ (exn_msg e ++ nl ++ nl ++ docstring ++ ".").

Definition table_not_found_text : string :=
  nl ++ nl ++ "Check if the method exists here: " ++ func_docs D ++ "."
    ++ nl ++ nl
    ++ "  -  If it doesn't you may need to look for the parent module to check whether there's a typo in the naming."
    ++ nl
    ++ "- If it does you may need to install a new extension to the OpenBB Platform, and you can see what is available at https://my.openbb.co/app/platform/extensions.".

Definition missing_credential_text : string :=
  nl ++ nl
    ++ "Go to https://my.openbb.co/app/platform/api-keys to set this API key, for free.".

Definition handle (e : exn) : exn :=
  if is_AttributeError e then with_docstring e
  else if is_ValidationError e then with_docstring e
  else if contains "Table not found" (exn_msg e)
  then mk_exn Exception_ (exn_msg e ++ table_not_found_text)
  else if contains "Missing credential" (exn_msg e)
  then mk_exn Exception_ (exn_msg e ++ missing_credential_text)
  else with_docstring e.

(** **** The body of the [try] *)

Definition call_obb (params : dict value) : M World (option DataFrame) :=
  fun w =>
    let '(r, s) := obb_function X params (remote w) in
    (r, mk_World s (response_columns w) (calls w ++ [ObbCall params])%list).

Definition require_data (r : option DataFrame) : M World DataFrame :=
  match r with
  | None => raise no_data_error
  | Some df => ret df
  end.

(** [columns += [col for col in result.columns if col not in columns]],
    on the list [get_columns] returned. *)
Definition extend_columns (result : DataFrame) : M World (list string) :=
  fun w =>
    let columns := response_columns w in
    let columns :=
      (columns ++ filter (fun col => negb (mem col columns)) (df_columns X result))%list in
    (Return columns, mk_World (remote w) columns (calls w)).

Definition last_part (parts : list string) : outcome string :=
  match rev parts with
  | [] => Raise (mk_exn IndexError "list index out of range")
  | p :: _ => Return p
  end.

Definition no_parts (t : target) : exn :=
  mk_exn AttributeError
    ("'" ++ node_class_name t ++ "' object has no attribute 'parts'").

(** The column a target is checked by: [None] for a star, which is
    skipped. *)
Inductive checked : Type :=
| Skip
| Column (name : string)
| Defer.

Definition target_column (full_target : target) : outcome checked :=
  match full_target with
  | Star => Return Skip
  | Identifier parts => obind (last_part parts) (fun p => Return (Column (lower p)))
  | Function _ args =>
      match args with
      | [] => Raise (mk_exn IndexError "list index out of range")
      | Identifier parts :: _ =>
          obind (last_part parts) (fun p => Return (Column (lower p)))
      | a :: _ => Raise (no_parts a)
      end
  | OtherNode _ => Return Defer
  end.

Definition unknown_column (target : string) : exn :=
  mk_exn ValueError ("Unknown column '" ++ target ++ "' in 'field list'").

(** [for full_target in query.targets]: [Some df] is the [return] inside
    the loop, [None] its normal end. *)
Fixpoint check_targets (query : Select) (result : DataFrame)
         (columns : list string) (ts : list target) : M World (option DataFrame) :=
  match ts with
  | [] => ret None
  | full_target :: ts' =>
      c <- lift (target_column full_target) ;;
      match c with
      | Skip => check_targets query result columns ts'
      | Defer => df <- _select_dataframe query result ;; ret (Some df)
      | Column target =>
          if mem target columns
          then check_targets query result columns ts'
          else raise (unknown_column target)
      end
  end.

Definition attach_columns (columns_to_add params : dict value) (result : DataFrame)
  : outcome DataFrame :=
  ofold
    (fun result key =>
       obind (getitem params key) (fun v => setitem X result key v))
    (keys columns_to_add) result.

(** Line 137: the limit goes to the remote call when it is a declared
    parameter. *)
Definition remote_params (query : Select) (st : loop_state) : dict value :=
  match limit query with
  | Some v => if has (params_fields D) "limit"
              then PyDict.set (params st) "limit" v
              else params st
  | None => params st
  end.

(** Lines 139 to 152: the remote call, its index and the ordering. *)
Definition fetch (query : Select) (params : dict value) : M World DataFrame :=
  result <- call_obb params ;;
  result <- require_data result ;;
  result <- (if has_datetime_index X result
             then lift (reset_index X result) else ret result) ;;
  match order_by query with
  | [] => ret result
  | _ => lift (sort_dataframe X result (order_by query))
  end.

(** Lines 154 to 158: the limit, applied again. *)
Definition limit_locally (query : Select) (result : DataFrame) : M World DataFrame :=
  match limit query with
  | Some v => result <- lift (head X result v) ;; require_data result
  | None => ret result
  end.

(** Lines 160 to 167: the constant columns and the filters. *)
Definition filter_locally (st : loop_state) (params : dict value) (result : DataFrame)
  : M World DataFrame :=
  result <- lift (attach_columns (columns_to_add st) params result) ;;
  log (FilterCall (filters st)) ;;;
  result <- lift (filter_dataframe X result (filters st)) ;;
  require_data result.

(** Lines 169 to 192: the targets are checked, then projected. *)
Definition project_targets (query : Select) (result : DataFrame) : M World DataFrame :=
  columns <- extend_columns result ;;
  early <- check_targets query result columns (targets query) ;;
  match early with
  | Some df => ret df
  | None =>
      log (ProjectCall (targets query) columns) ;;;
      try_except
        (lift (project_dataframe X result (targets query) columns))
        (fun e =>
           if is_NotImplementedError e
           then _select_dataframe query result
           else raise e)
  end.

Definition select_body (query : Select) (st : loop_state) : M World DataFrame :=
  let params := remote_params query st in
  result <- fetch query params ;;
  result <- limit_locally query result ;;
  result <- filter_locally st params result ;;
  project_targets query result.

(** **** select *)

(** [all(mandatory_args_set.values())] *)
Definition all_set (mandatory : dict bool) : bool :=
  forallb (fun b : bool => b) (values mandatory).

Definition missing_error (mandatory : dict bool) : exn :=
  mk_exn NotImplementedError (missing_text mandatory).

Definition select (query : Select) : M World DataFrame :=
  let conditions := extract_comparison_conditions X (where_ query) in
  columns <- get_columns ;;
  st <- lift (condition_loop columns conditions) ;;
  if negb (all_set (mandatory_args_set st))
  then raise (missing_error (mandatory_args_set st))
  else try_except (select_body query st) (fun e => raise (handle e)).

(** **** Vocabulary of the properties *)

(** A dict that holds one flag per key of a list. *)
Definition flags (ks : list string) (f : string -> bool) : dict bool :=
  map (fun k => (k, f k)) ks.

(** The disjunction marker, by its operator. *)
Definition is_or (c : condition) : bool :=
  match c with
  | OrNone => true
  | Cmp op _ _ => String.eqb op "or"
  end.

(** The conditions as the items the loop appends to [filters]. *)
Definition filter_items (conditions : list condition) : list filter_item :=
  flat_map (fun c => match c with
                     | Cmp op arg1 arg2 => [(op, arg1, arg2)]
                     | OrNone => []
                     end) conditions.

(** Some condition has [k] as its left operand. *)
Definition mentioned (conditions : list condition) (k : string) : bool :=
  existsb (fun c => match c with
                    | Cmp _ arg1 _ => String.eqb arg1 k
                    | OrNone => false
                    end) conditions.

(** Some condition is an equality on [k]. *)
Definition has_equality (conditions : list condition) (k : string) : bool :=
  existsb (fun c => match c with
                    | Cmp op arg1 _ => String.eqb op "=" && String.eqb arg1 k
                    | OrNone => false
                    end) conditions.

(** The loop over [before], the conditions that come first among
    [conditions]. *)
Definition conditions_read (columns : list string)
           (conditions before : list condition) : outcome loop_state :=
  let arg_params := _get_params_from_conditions conditions in
  let strict_filter := get_default arg_params "strict_filter" (VBool false) in
  ofold (condition_step columns arg_params strict_filter) before initial_state.

(** The columns a target is checked against: the list of [get_columns]
    extended by the columns of the result. *)
Definition checked_columns (columns : list string) (result : DataFrame) : list string :=
  (columns ++ filter (fun col => negb (mem col columns)) (df_columns X result))%list.

(** The world once the columns of the result have joined the list of
    [get_columns], and the world with one more call recorded. *)
Definition with_result_columns (w : World) (result : DataFrame) : World :=
  mk_World (remote w) (checked_columns (response_columns w) result) (calls w).

Definition logged (c : call) (w : World) : World :=
  mk_World (remote w) (response_columns w) (calls w ++ [c])%list.

(** A target passes the check of the loop over the targets. *)
Definition passes (columns : list string) (t : target) : bool :=
  match target_column t with
  | Return Skip => true
  | Return (Column name) => mem name columns
  | _ => false
  end.

(** Every filter call among [new] carries [fs]. *)
Definition only_filter (fs : list filter_item) (new : list call) : Prop :=
  forall fs', In (FilterCall fs') new -> fs' = fs.

(** Whether a text has the character [c]. *)
Fixpoint has_char (c : ascii) (s : string) : bool :=
  match s with
  | EmptyString => false
  | String c' s' => Ascii.eqb c c' || has_char c s'
  end.

(** The local filters as the specification words them: the conditions that
    neither the time-range pushdown (a) nor the direct parameter pushdown (b)
    consumed. *)
Definition consumed_by_time_range (columns : list string) (c : condition) : bool :=
  match c with
  | Cmp op arg1 arg2 =>
      has (params_fields D) ("start_" ++ arg1) && mem arg1 columns
      && negb (is_none arg2)
      && String.eqb (get_default (response_fields D) arg1 "") "datetime"
      && mem op [">"; "<"; ">="; "<="; "="]
  | OrNone => false
  end.

Definition consumed_by_parameter (strict_filter : value) (c : condition) : bool :=
  match c with
  | Cmp op arg1 _ =>
      String.eqb op "=" && (has (params_fields D) arg1 || negb (truthy strict_filter))
  | OrNone => false
  end.

Definition unconsumed_conditions (columns : list string) (conditions : list condition)
  : list filter_item :=
  let arg_params := _get_params_from_conditions conditions in
  let strict_filter := get_default arg_params "strict_filter" (VBool false) in
  filter_items
    (filter (fun c => negb (consumed_by_time_range columns c
                            || consumed_by_parameter strict_filter c))
            conditions).

End Table.

Arguments remote {Remote} _.
Arguments response_columns {Remote} _.
Arguments calls {Remote} _.
Arguments targets {Where} _.
Arguments from_table {Where} _.
Arguments where_ {Where} _.
Arguments order_by {Where} _.
Arguments limit {Where} _.
Arguments select {Where DataFrame Remote}.
Arguments select_body {Where DataFrame Remote}.
Arguments condition_loop {Where DataFrame Remote}.
Arguments condition_step {Where DataFrame Remote}.
Arguments conditions_read {Where DataFrame Remote}.
Arguments time_range_params {Where DataFrame Remote}.
Arguments project_targets {Where DataFrame Remote}.
Arguments check_targets {Where DataFrame Remote}.
Arguments _select_dataframe {Where DataFrame Remote}.
Arguments fetch {Where DataFrame Remote}.
Arguments limit_locally {Where DataFrame Remote}.
Arguments filter_locally {Where DataFrame Remote}.
Arguments remote_params {Where}.
Arguments extend_columns {Where DataFrame Remote}.
Arguments call_obb {Where DataFrame Remote}.
Arguments require_data {DataFrame Remote}.
Arguments attach_columns {Where DataFrame Remote}.
Arguments log {Remote}.
Arguments get_columns {Remote}.
Arguments checked_columns {Where DataFrame Remote}.
Arguments with_result_columns {Where DataFrame Remote}.
Arguments logged {Remote}.

End OpenBB.

(** ** A concrete environment

    Small stand-ins for the connector, pandas, the remote service and the
    descriptor of a table, on which the two classes can be run. *)

Module Demo.
Import PyStr PyVal PyDict PyExn PyMonad DateTime.

(** A dataframe: its column names and its rows. *)
Record frame : Type := mk_frame
  { f_columns : list string; f_rows : list (list value) }.

Definition empty_frame : frame := mk_frame [] [].

(** Doubles are not read from text here, and all print alike. *)
Definition demo_float_text : float_text :=
  mk_float_text (fun _ => None) (fun _ => "<float>").

(** *** The data node *)

Definition demo_pandas : DataNode.Pandas frame :=
  DataNode.mk_Pandas frame
    (fun _ => false) (fun df => df) (fun df => Return df) (fun df => Return df)
    (fun df => Return (map (fun c => (c, "object")) (f_columns df)))
    (fun df => Return (f_rows df))
    (fun df => Return (map (fun row => combine (f_columns df) row) (f_rows df))).

(** A connector that counts the calls it receives and answers each statement
    through [answer]. *)
Definition counting_handler (answer : DataNode.statement -> outcome (DataNode.Response frame))
  : DataNode.Handler nat frame :=
  DataNode.mk_Handler nat frame "DemoHandler"
    (fun n => (Return (DataNode.mk_Response frame DataNode.TABLE "" empty_frame), S n))
    (fun s n => (answer s, S n))
    (fun _ n => (Raise (mk_exn (OtherError "ConnectionError") "   "), S n)).

Definition demo_node (answer : DataNode.statement -> outcome (DataNode.Response frame))
  : DataNode.IntegrationDataNode nat frame :=
  DataNode.mk_IntegrationDataNode nat frame
    "demo_db" "postgres" (counting_handler answer) demo_pandas.

Definition answer_with (t : DataNode.RESPONSE_TYPE) (msg : string)
  : DataNode.statement -> outcome (DataNode.Response frame) :=
  fun _ => Return (DataNode.mk_Response frame t msg empty_frame).

Definition fresh : DataNode.World nat := DataNode.mk_World nat 0%nat [].

(** Three columns the data node types as Integer, Float and Text, and two
    records. *)
Definition demo_columns : list DataNode.Column :=
  [ DataNode.mk_Column "id" (DataNode.NpDtype DataNode.dt_int);
    DataNode.mk_Column "price" (DataNode.NpDtype DataNode.dt_float);
    DataNode.mk_Column "name" (DataNode.OtherType "str") ].

Definition demo_result_set : DataNode.ResultSet :=
  DataNode.mk_ResultSet demo_columns
    [ [("id", VStr "7"); ("price", VInt 3); ("name", VInt 12)];
      [("id", VStr "n/a"); ("price", VNone); ("name", VBool true)] ].

(** *** The table *)

(** ['YYYY-MM-DD'] read as a date; any other text is not a date. *)
Definition iso_date (v : value) : outcome datetime :=
  match v with
  | VStr s =>
      match int_of_string (substring 0 4 s),
            int_of_string (substring 5 2 s),
            int_of_string (substring 8 2 s) with
      | Some y, Some m, Some d =>
          if (String.length s =? 10)%nat && String.eqb (substring 4 1 s) "-"
             && String.eqb (substring 7 1 s) "-"
             && (1 <=? y) && (1 <=? m) && (m <=? 12) && (1 <=? d) && (d <=? 31)
          then Return (days_from_civil y m d * usec_per_day)
          else Raise (mk_exn ValueError ("Can't parse date: " ++ s))
      | _, _, _ => Raise (mk_exn ValueError ("Can't parse date: " ++ s))
      end
  | _ => Raise (mk_exn (OtherError "TypeError") "strptime() argument 1 must be str")
  end.

(** ['<n>d'] and ['<n>h'] read as days and hours; any other value is no
    interval. *)
Definition interval_of (v : value) : outcome timedelta :=
  match v with
  | VStr s =>
      let n := String.length s in
      match int_of_string (substring 0 (n - 1) s) with
      | Some k =>
          if String.eqb (substring (n - 1) 1 s) "d" then Return (k * usec_per_day)
          else if String.eqb (substring (n - 1) 1 s) "h" then Return (k * 3600 * 1000000)
          else Raise (mk_exn ValueError "invalid unit abbreviation")
      | None => Raise (mk_exn ValueError "unit abbreviation w/o a number")
      end
  | _ => Raise (mk_exn ValueError "Value must be Timedelta, string, integer, float, timedelta or convertible")
  end.

Definition is_simple_target (t : OpenBB.target) : bool :=
  match t with
  | OpenBB.Star | OpenBB.Identifier _ => true
  | _ => false
  end.

Definition add_column (df : frame) (key : string) (v : value) : frame :=
  if mem key (f_columns df) then df
  else mk_frame (f_columns df ++ [key])%list
                (map (fun row => row ++ [v])%list (f_rows df)).

(** [df.head(n)]: the first [n] rows, or all but the last [-n] for a
    negative [n]; always a frame, also when no row is left. *)
Definition take (df : frame) (v : value) : outcome (option frame) :=
  match v with
  | VInt n =>
      let rows := f_rows df in
      let kept := if 0 <=? n then Z.to_nat n
                  else (List.length rows - Z.to_nat (- n))%nat in
      Return (Some (mk_frame (f_columns df) (firstn kept rows)))
  | _ => Raise (mk_exn (OtherError "TypeError") "cannot do positional indexing")
  end.

Definition Query : Type := OpenBB.Select (list OpenBB.condition).

Definition render (q : Query) : string :=
  "SELECT * FROM `" ++ join "." (OpenBB.from_table q) ++ "` WHERE prices.close > 0".

(** The remote service counts its calls and answers [answer]; [hd] stands
    for [DataFrame.head]. *)
Definition demo_externals (answer : outcome (option frame))
           (hd : frame -> value -> outcome (option frame))
  : OpenBB.Externals (list OpenBB.condition) frame nat :=
  OpenBB.mk_Externals (list OpenBB.condition) frame nat
    (fun w => w)
    iso_date
    interval_of
    (fun _ n => (answer, S n))
    (fun _ => false)
    (fun df => Return df)
    (fun df _ => Return df)
    hd
    (fun df key v => Return (add_column df key v))
    (fun df _ => Return (Some df))
    f_columns
    (fun df ts _ => if forallb is_simple_target ts then Return df
                    else Raise (mk_exn NotImplementedError ""))
    render
    (fun query_str _ => Return (mk_frame ["duckdb"] [[VStr query_str]])).

Definition prices_frame : frame :=
  mk_frame ["date"; "close"]
    [ [VStr "2023-04-30"; VInt 10]; [VStr "2023-05-01"; VInt 11] ].

Definition X0 : OpenBB.Externals (list OpenBB.condition) frame nat :=
  demo_externals (Return (Some prices_frame)) take.

(** A table [prices]: [symbol] is required, [date] is a datetime field with
    [start_date] and [end_date] parameters. *)
Definition prices : OpenBB.Descriptor :=
  OpenBB.mk_Descriptor
    [ ("symbol", OpenBB.mk_FieldInfo (OpenBB.Class "str") true "Symbol to get data for.");
      ("start_date", OpenBB.mk_FieldInfo (OpenBB.UnionOf ["date"; "str"]) false
                       "Start date of the data.");
      ("end_date", OpenBB.mk_FieldInfo (OpenBB.UnionOf ["date"; "str"]) false
                     "End date of the data.");
      ("interval", OpenBB.mk_FieldInfo (OpenBB.Class "str") false "Time interval.") ]
    [ ("date", "datetime"); ("close", "float") ]
    "https://docs.openbb.co/platform/reference/equity/price/historical"
    None.

Definition new_world : OpenBB.World nat :=
  OpenBB.mk_World nat 0%nat (OpenBB.initial_response_columns prices) [].

Definition query_of (ts : list OpenBB.target) (conditions : list OpenBB.condition)
           (lim : option value) : Query :=
  OpenBB.mk_Select (list OpenBB.condition) ts ["prices"] conditions [] lim.

(** The state the loop over the conditions ends in. *)
Definition loop_state_of (conditions : list OpenBB.condition) : OpenBB.loop_state :=
  match OpenBB.condition_loop prices X0 (OpenBB.response_columns new_world) conditions with
  | Return st => st
  | Raise _ => OpenBB.initial_state prices
  end.

(** The same table over a remote function that answers a frame without
    rows, and over one that raises. *)
Definition X_empty : OpenBB.Externals (list OpenBB.condition) frame nat :=
  demo_externals (Return (Some (mk_frame ["date"; "close"] []))) take.

Definition X_raising (e : exn) : OpenBB.Externals (list OpenBB.condition) frame nat :=
  demo_externals (Raise e) take.

Definition symbol_is_ABC : OpenBB.condition := OpenBB.Cmp "=" "symbol" (VStr "ABC").

(** [SELECT close FROM prices WHERE date = '2023-05-01' AND symbol = 'ABC'] *)
Definition scenario_B : Query :=
  query_of [OpenBB.Identifier ["close"]]
    [ OpenBB.Cmp "=" "date" (VStr "2023-05-01");
      OpenBB.Cmp "=" "symbol" (VStr "ABC") ]
    None.

End Demo.

(** ** Further vocabulary

    Names for what the remaining properties of the two classes speak about. *)

Module DataNodeMore.
Import PyStr PyVal PyDict PyExn PyMonad DataNode.

(** The statements among the events, in the order they were dispatched. *)
Definition dispatched_of (evs : list event) : list statement :=
  flat_map (fun ev => match ev with
                      | Dispatched s => [s]
                      | _ => []
                      end) evs.

(** An event that records a call into the connector. *)
Definition is_connector_call (ev : event) : bool :=
  match ev with
  | Dispatched _ | DispatchedNative _ | TablesAsked => true
  | Observed _ _ | LoggedError _ => false
  end.

(** The statements a [create_table] that runs to its end dispatches: the
    drop when [is_replace], the creation when [is_replace] or [is_create],
    the insert when there are rows. *)
Definition create_table_plan (ft : float_text) (table_name : Identifier)
           (result_set : ResultSet) (is_replace is_create : bool) : list statement :=
  ((if is_replace then [DropTables [table_name] true] else [])
   ++ (if is_replace || is_create
       then [CreateTable table_name (table_columns_of (rs_columns result_set)) true]
       else [])
   ++ match format_data ft result_set with
      | Return (row :: rows) =>
          [Insert table_name
                  (map (fun x => mk_Identifier [alias x]) (rs_columns result_set))
                  (row :: rows)]
      | _ => []
      end)%list.

(** The statements of [create_table] that come before its creation, and
    the creation itself where there is one. *)
Definition drop_statements (table_name : Identifier) (is_replace : bool)
  : list statement :=
  if is_replace then [DropTables [table_name] true] else [].

Definition create_statements (table_name : Identifier) (result_set : ResultSet)
           (is_replace is_create : bool) : list statement :=
  if is_replace || is_create
  then [CreateTable table_name (table_columns_of (rs_columns result_set)) true]
  else [].

(** The connector answers the statements [stmts] one after the other,
    from the state [c], each with a response that is no [ERROR]: the state
    it is left in, and the events [_query] records on the way. *)
Fixpoint accepted {Conn DataFrame : Type} (h : Handler Conn DataFrame)
         (stmts : list statement) (c : Conn) : option (Conn * list event) :=
  match stmts with
  | [] => Some (c, [])
  | s :: stmts' =>
      match handler_query Conn DataFrame h s c with
      | (Return result, c1) =>
          match resp_type result with
          | ERROR => None
          | t =>
              match accepted h stmts' c1 with
              | Some (c2, evs) =>
                  Some (c2, Dispatched s :: Observed (handler_class_name h) t :: evs)
              | None => None
              end
          end
      | (Raise _, _) => None
      end
  end.

(** The last of the columns with the alias [a]. *)
Definition last_with_alias (columns : list Column) (a : string) : option Column :=
  find (fun col => String.eqb (alias col) a) (rev columns).

(** [stmts] is an initial part of [plan]. *)
Definition initial_part (stmts plan : list statement) : Prop :=
  exists rest, plan = (stmts ++ rest)%list.

End DataNodeMore.

Module OpenBBMore.
Import PyStr PyVal PyDict PyExn PyMonad OpenBB.

(** The literal of the last equality on [k] among the conditions. *)
Definition last_equality (conditions : list condition) (k : string) : option value :=
  fold_left
    (fun found c =>
       match c with
       | Cmp op arg1 arg2 =>
           if String.eqb op "=" && String.eqb arg1 k then Some arg2 else found
       | OrNone => found
       end)
    conditions None.

(** The calls by what is called. *)
Inductive call_kind : Type := Remote_ | Filter_ | Project_ | Duckdb_.

Definition kind_of (c : call) : call_kind :=
  match c with
  | ObbCall _ => Remote_
  | FilterCall _ => Filter_
  | ProjectCall _ _ => Project_
  | DuckdbCall _ => Duckdb_
  end.

(** A parameter name the descriptor accounts for: the fixed [provider], a
    declared parameter, or the [start_]/[end_] pair of a field whose
    [start_] parameter is declared. *)
Definition accounted (D : Descriptor) (k : string) : Prop :=
  k = "provider" \/
  has (params_fields D) k = true \/
  exists field,
    has (params_fields D) ("start_" ++ field) = true /\
    (k = "start_" ++ field \/ k = "end_" ++ field).

(** [e] is raised while the window of a time-range condition with the
    operator [op] and the literal [arg2] is computed: by the reading of the
    literal, or, where the date is moved, by the reading of the interval or
    by the date leaving the range of a [datetime]. *)
Definition raised_by_time_range {Where DataFrame Remote : Type}
           (X : Externals Where DataFrame Remote) (arg_params : dict value)
           (op : string) (arg2 : value) (e : exn) : Prop :=
  parse_local_date _ _ _ X arg2 = Raise e \/
  (mem op [">="; "<="; "="] = true /\
   (Timedelta _ _ _ X (get_default arg_params "interval" (VStr "1d")) = Raise e \/
    e = DateTime.date_overflow)).

(** [strict_filter] as [select] reads it off the conditions. *)
Definition strict_filter_of (conditions : list condition) : value :=
  get_default (_get_params_from_conditions conditions) "strict_filter" (VBool false).

End OpenBBMore.

(** ** tests/integration_tests/flows/common.py

    The helpers of the test flows that compute on their arguments alone. *)

Module FlowsCommon.
Import PyStr PyVal PyDict PyExn PyMonad.

(** The classes a field of a predictor is declared with. *)
Inductive field_type : Type :=
| type_int
| type_float
| type_str
| type_other (name : string).

(** [field_type in [int, float]] *)
Definition is_number_type (t : field_type) : bool :=
  match t with
  | type_int | type_float => true
  | _ => false
  end.

Definition get_all_pridict_fields (fields : dict field_type) : list string :=
  fold_left
    (fun fieldes item =>
       let field_name := fst item in
       let fieldes := app fieldes [field_name ++ "_confidence"] in
       let fieldes := app fieldes [field_name ++ "_explain"] in
       if is_number_type (snd item)
       then app (app fieldes [field_name ++ "_min"]) [field_name ++ "_max"]
       else fieldes)
    fields (keys fields).

(** One item of [condition_dict_to_str]: a string is quoted, [None] gives
    [is null], and a value of any other class is formatted as [str] does;
    [None] when that raises. *)
Definition condition_clause (ft : float_text) (name : string) (v : value)
  : option string :=
  match v with
  | VStr s => Some (name ++ "='" ++ s ++ "'")
  | VNone => Some (name ++ " is null")
  | _ => match py_str ft v with
         | Some (VStr s) => Some (name ++ "=" ++ s)
         | _ => None
         end
  end.

(** The list [s] after the loop over the items. *)
Fixpoint condition_clauses (ft : float_text) (s : list string) (items : dict value)
  : option (list string) :=
  match items with
  | [] => Some s
  | (name, v) :: items' =>
      match condition_clause ft name v with
      | Some clause => condition_clauses ft (s ++ [clause])%list items'
      | None => None
      end
  end.

Definition condition_dict_to_str (ft : float_text) (condition : dict value)
  : option string :=
  option_map (join " AND ") (condition_clauses ft [] condition).

(** [isinstance(v, (int, float))] and [isinstance(v, str)]; a [bool] is an
    [int], and the objects of other classes are taken to derive from none
    of the three. *)
Definition is_int_or_float (v : value) : bool :=
  match v with
  | VBool _ | VInt _ | VFloat _ => true
  | _ => false
  end.

Definition is_str (v : value) : bool :=
  match v with
  | VStr _ => true
  | _ => false
  end.

Definition assert_ (b : bool) : outcome unit :=
  if b then Return tt else Raise (mk_exn (OtherError "AssertionError") "").

(** The body of the loop of [check_prediction_values]; [greater] is [>] on
    numbers. *)
Definition check_field (greater : value -> value -> bool) (row : dict value)
           (item : string * field_type) : outcome unit :=
  let field_name := fst item in
  obind
    (match snd item with
     | type_int | type_float =>
         obind (getitem row field_name) (fun v =>
         obind (assert_ (is_int_or_float v)) (fun _ =>
         obind (getitem row (field_name ++ "_min")) (fun v =>
         obind (assert_ (is_int_or_float v)) (fun _ =>
         obind (getitem row (field_name ++ "_max")) (fun v =>
         obind (assert_ (is_int_or_float v)) (fun _ =>
         obind (getitem row (field_name ++ "_max")) (fun hi =>
         obind (getitem row (field_name ++ "_min")) (fun lo =>
         assert_ (greater hi lo)))))))))
     | type_str =>
         obind (getitem row field_name) (fun v => assert_ (is_str v))
     | type_other _ => assert_ false
     end)
    (fun _ =>
       obind (getitem row (field_name ++ "_confidence")) (fun v =>
       obind (assert_ (is_int_or_float v)) (fun _ =>
       obind (getitem row (field_name ++ "_explain")) (fun v =>
       assert_ (is_str v))))).

(** What [check_prediction_values] returns: [False] from the handler of
    the [try], [True] when the loop ends. *)
Definition check_prediction_values (greater : value -> value -> bool)
           (row : dict value) (to_predict : dict field_type) : value :=
  match ofold (fun _ item => check_field greater row item) to_predict tt with
  | Return _ => VBool true
  | Raise _ => VBool false
  end.

End FlowsCommon.

(** ** Further sample data *)

Module DemoMore.
Import PyStr PyVal PyDict PyExn PyMonad Demo.

(** The table [prices] created for one provider. *)
Definition prices_from (p : string) : OpenBB.Descriptor :=
  OpenBB.mk_Descriptor
    (OpenBB.params_fields prices) (OpenBB.response_fields prices)
    (OpenBB.func_docs prices) (Some p).

(** The state its loop over the conditions ends in. *)
Definition loop_state_from (p : string) (conditions : list OpenBB.condition)
  : OpenBB.loop_state :=
  match OpenBB.condition_loop (prices_from p) X0
          (OpenBB.response_columns new_world) conditions with
  | Return st => st
  | Raise _ => OpenBB.initial_state (prices_from p)
  end.

(** [WHERE strict_filter = true AND symbol = 'ABC' AND note = 'x'] *)
Definition strict_conditions : list OpenBB.condition :=
  [ OpenBB.Cmp "=" "strict_filter" (VBool true);
    symbol_is_ABC;
    OpenBB.Cmp "=" "note" (VStr "x") ].

(** [SELECT * FROM prices WHERE symbol = 'ABC' LIMIT 1] *)
Definition scenario_limit : Query :=
  query_of [OpenBB.Star] [symbol_is_ABC] (Some (VInt 1)).

(** A table [news] whose [published] comes back with the data without
    being a declared field, although [start_published] is a parameter. *)
Definition news : OpenBB.Descriptor :=
  OpenBB.mk_Descriptor
    [ ("start_published", OpenBB.mk_FieldInfo (OpenBB.Class "str") false "Start date.") ]
    [ ("title", "str") ]
    "https://docs.openbb.co/platform/reference/news/world"
    None.

Definition X_news : OpenBB.Externals (list OpenBB.condition) frame nat :=
  demo_externals
    (Return (Some (mk_frame ["title"; "published"]
                            [[VStr "Rates on hold"; VStr "2023-05-01"]])))
    take.

(** The table after a first [SELECT * FROM news]. *)
Definition news_after_select : OpenBB.World nat :=
  snd (OpenBB.select news X_news (query_of [OpenBB.Star] [] None)
         (OpenBB.mk_World nat 0%nat (OpenBB.initial_response_columns news) [])).

(** A connector that leaves a frame or [None] as [data_frame]; on [None]
    every method is missing. *)
Definition no_attribute (name : string) : exn :=
  mk_exn AttributeError ("'NoneType' object has no attribute '" ++ name ++ "'").

Definition maybe_pandas : DataNode.Pandas (option frame) :=
  DataNode.mk_Pandas (option frame)
    (fun _ => false) (fun df => df)
    (fun df => match df with
               | Some _ => Return df
               | None => Raise (no_attribute "replace")
               end)
    (fun df => match df with
               | Some _ => Return df
               | None => Raise (no_attribute "where")
               end)
    (fun df => match df with
               | Some f => Return (map (fun c => (c, "object")) (f_columns f))
               | None => Raise (no_attribute "dtypes")
               end)
    (fun df => match df with
               | Some f => Return (f_rows f)
               | None => Raise (no_attribute "to_dict")
               end)
    (fun df => match df with
               | Some f => Return (map (fun row => combine (f_columns f) row) (f_rows f))
               | None => Raise (no_attribute "to_dict")
               end).

Definition scripted_node (tables : outcome (DataNode.Response (option frame)))
           (answer : DataNode.statement -> outcome (DataNode.Response (option frame)))
  : DataNode.IntegrationDataNode nat (option frame) :=
  DataNode.mk_IntegrationDataNode nat (option frame)
    "demo_db" "postgres"
    (DataNode.mk_Handler nat (option frame) "DemoHandler"
       (fun n => (tables, S n))
       (fun s n => (answer s, S n))
       (fun _ n => (Raise (mk_exn (OtherError "ConnectionError") "   "), S n)))
    maybe_pandas.

(** A row of the table list, by its name. *)
Definition table_name_of (row : dict value) : outcome string :=
  match get row "TABLE_NAME" with
  | Some (VStr name) => Return name
  | Some _ => Raise (mk_exn (OtherError "TypeError") "TABLE_NAME must be str")
  | None => Raise (mk_exn (OtherError "TypeError") "missing TABLE_NAME")
  end.

(** A connector that accepts every statement but the insert. *)
Definition insert_refused (s : DataNode.statement)
  : outcome (DataNode.Response frame) :=
  match s with
  | DataNode.Insert _ _ _ =>
      Raise (mk_exn (OtherError "IntegrityError") " duplicate key ")
  | _ => Return (DataNode.mk_Response frame DataNode.OK "" empty_frame)
  end.

(** A predicted row of one field [price]. *)
Definition price_row : dict value :=
  [ ("price", VInt 10); ("price_min", VInt 8); ("price_max", VInt 12);
    ("price_confidence", VInt 1); ("price_explain", VStr "nearest neighbours") ].

(** A connector that accepts the drop and fails on the creation. *)
Definition create_refused (s : DataNode.statement)
  : outcome (DataNode.Response frame) :=
  match s with
  | DataNode.CreateTable _ _ _ =>
      Raise (mk_exn (OtherError "OperationalError") " gone ")
  | _ => Return (DataNode.mk_Response frame DataNode.OK "" empty_frame)
  end.

(** [>] on the whole numbers. *)
Definition int_greater (a b : value) : bool :=
  match a, b with
  | VInt x, VInt y => y <? x
  | _, _ => false
  end.

(** Two columns under one alias, the first of integers, the second of text. *)
Definition twin_result_set : DataNode.ResultSet :=
  DataNode.mk_ResultSet
    [ DataNode.mk_Column "x" (DataNode.NpDtype DataNode.dt_int);
      DataNode.mk_Column "x" (DataNode.OtherType "str") ]
    [ [("x", VInt 7)] ].

End DemoMore.

(* ================================================================== *)
(** * Part II.  Properties *)
(* ================================================================== *)

(** ** Dicts *)

Section DictFacts.
Import PyDict.
Context {V : Type}.
Implicit Types (d : dict V) (k : string) (v : V).

Lemma get_set_same d k v : get (set d k v) k = Some v.
Proof.
  induction d as [|[k' v'] d IH]; simpl.
  - now rewrite String.eqb_refl.
  - destruct (String.eqb k k') eqn:E; simpl; rewrite E; auto.
Qed.

Lemma get_set_other d k k' v : k' <> k -> get (set d k v) k' = get d k'.
Proof.
  intros Hne. induction d as [|[k0 v0] d IH]; simpl.
  - destruct (String.eqb k' k) eqn:E; auto.
    apply String.eqb_eq in E. contradiction.
  - destruct (String.eqb k k0) eqn:E; simpl.
    + apply String.eqb_eq in E. subst k0.
      destruct (String.eqb k' k) eqn:E'; auto.
      apply String.eqb_eq in E'. contradiction.
    + now rewrite IH.
Qed.

Lemma has_set d k k' v : has (set d k v) k' = String.eqb k' k || has d k'.
Proof.
  unfold has. destruct (String.eqb k' k) eqn:E.
  - apply String.eqb_eq in E. subst. now rewrite get_set_same.
  - apply String.eqb_neq in E. now rewrite get_set_other.
Qed.

(** A key of a dict built from pairs holds the value of its pairs, when they
    agree on it. *)
Lemma get_fold_set (ps : list (string * V)) k v :
  (forall v', In (k, v') ps -> v' = v) ->
  forall d,
    get d k = Some v \/ In (k, v) ps ->
    get (fold_left (fun d p => set d (fst p) (snd p)) ps d) k = Some v.
Proof.
  induction ps as [|[k1 v1] ps IH]; simpl; intros Hagree d Hd.
  - destruct Hd as [Hd|[]]. exact Hd.
  - apply IH.
    + intros v' Hin. apply Hagree. now right.
    + destruct (String.eqb k k1) eqn:E.
      * apply String.eqb_eq in E. subst k1. left.
        rewrite (Hagree v1) by now left. apply get_set_same.
      * apply String.eqb_neq in E.
        destruct Hd as [Hd|[Hd|Hd]].
        -- left. rewrite get_set_other by exact E. exact Hd.
        -- inversion Hd. congruence.
        -- now right.
Qed.

Lemma get_of_pairs (ps : list (string * V)) k v :
  In (k, v) ps -> (forall v', In (k, v') ps -> v' = v) ->
  get (of_pairs ps) k = Some v.
Proof.
  intros Hin Hagree. unfold of_pairs. apply get_fold_set; auto.
Qed.

End DictFacts.

(** ** Code that raises *)

Section OutcomeFacts.
Import PyExn PyMonad.
Context {X Y : Type}.

Lemma ofold_ext {A : Type} (f g : A -> X -> outcome A) (l : list X) (acc : A) :
  (forall a x, f a x = g a x) -> ofold f l acc = ofold g l acc.
Proof.
  intros Hfg. revert acc. induction l as [|x l IH]; simpl; intros acc; auto.
  rewrite Hfg. destruct (g acc x); simpl; auto.
Qed.

(** A loop that appends one item per pass is a comprehension. *)
Lemma ofold_snoc (f : X -> outcome Y) (l : list X) (acc : list Y) :
  ofold (fun acc x => obind (f x) (fun y => Return (acc ++ [y])%list)) l acc
  = obind (omap f l) (fun ys => Return (acc ++ ys)%list).
Proof.
  revert acc. induction l as [|x l IH]; simpl; intros acc.
  - now rewrite app_nil_r.
  - destruct (f x) as [e|y]; simpl; auto.
    rewrite IH. destruct (omap f l) as [e|ys]; simpl; auto.
    now rewrite <- app_assoc.
Qed.

Lemma omap_Return (f : X -> outcome Y) (l : list X) (ys : list Y) :
  omap f l = Return ys <-> Forall2 (fun x y => f x = Return y) l ys.
Proof.
  revert ys. induction l as [|x l IH]; simpl; intros ys.
  - split; intros H.
    + inversion H. constructor.
    + inversion H. reflexivity.
  - destruct (f x) as [e|y] eqn:Ex; simpl.
    + split; intros H; [discriminate|]. inversion H; subst. congruence.
    + destruct (omap f l) as [e|ys'] eqn:El; simpl.
      * split; intros H; [discriminate|]. inversion H; subst.
        match goal with H' : Forall2 _ l _ |- _ => apply IH in H'; discriminate end.
      * split; intros H.
        -- inversion H; subst. constructor; auto. now apply IH.
        -- inversion H; subst.
           match goal with H' : Forall2 _ l _ |- _ => apply IH in H'; inversion H' end.
           congruence.
Qed.

Lemma omap_total (f : X -> outcome Y) (g : X -> Y) (l : list X) :
  (forall x, In x l -> f x = Return (g x)) -> omap f l = Return (map g l).
Proof.
  induction l as [|x l IH]; simpl; intros H; auto.
  rewrite H by now left. simpl. rewrite IH by (intros; apply H; now right).
  reflexivity.
Qed.

Lemma omap_Raise (f : X -> outcome Y) (l : list X) (e : exn) :
  omap f l = Raise e -> exists x, In x l /\ f x = Raise e.
Proof.
  induction l as [|x l IH]; simpl; [discriminate|].
  destruct (f x) as [e'|y] eqn:Ex; simpl.
  - intros H. injection H as <-. exists x. auto.
  - destruct (omap f l) as [e'|ys]; simpl; [|discriminate].
    intros H. injection H as <-.
    destruct (IH eq_refl) as (x' & Hin & Hx'). exists x'. auto.
Qed.

End OutcomeFacts.

(** ** The data node *)

Section DataNodeFacts.
Import PyStr PyVal PyDict PyExn PyMonad DataNode.
Variables Conn DataFrame : Type.
Variable self : IntegrationDataNode Conn DataFrame.

(** C10.  For every table name [has_table] returns [True] and
    [get_table_columns] returns the empty list; neither reaches the
    connector: the connector's state and the record of dispatched statements
    are as before the call. *)
Theorem has_table_always_true (tableName : string) (w : World Conn) :
  has_table tableName w = (Return true, w) /\
  get_table_columns tableName w = (Return [], w).
Proof. split; reflexivity. Qed.

(** C8.  A dispatch through [query] whose connector call raises [e] raises
    a [DBHandlerException] with the message [[ds_type/integration_name]: m],
    [m] being the stripped message of [e], or the name of its class when
    that is empty; a response of kind [ERROR] raises an [Exception] that
    carries the response's error message; a response of kind [OK] returns
    empty rows and empty column metadata. *)
Theorem query_error_handling
        (q : option statement) (nq : option string) (w : World Conn) (c' : Conn) :
  (forall e,
      connector_call self q nq (conn w) = (Raise e, c') ->
      query self q nq w
      = (Raise (mk_exn DBHandlerException
                  ("[" ++ ds_type self ++ "/" ++ integration_name self ++ "]: "
                   ++ (if String.eqb (strip (exn_msg e)) ""
                       then class_name (exn_cls e)
                       else strip (exn_msg e)))),
         mk_World Conn c' (events w ++ [connector_event q nq])%list)) /\
  (forall result,
      connector_call self q nq (conn w) = (Return result, c') ->
      resp_type result = ERROR ->
      query self q nq w
      = (Raise (mk_exn Exception_
                  ("Error in " ++ integration_name self ++ ": "
                   ++ error_message result)),
         mk_World Conn c'
           (events w ++ [connector_event q nq;
                         Observed (handler_class_name (integration_handler self)) ERROR])%list)) /\
  (forall result,
      connector_call self q nq (conn w) = (Return result, c') ->
      resp_type result = OK ->
      query self q nq w
      = (Return ([], []),
         mk_World Conn c'
           (events w ++ [connector_event q nq;
                         Observed (handler_class_name (integration_handler self)) OK])%list)).
Proof.
  unfold connector_call, connector_event.
  repeat split; intros r Hcall; try intros Hkind;
    unfold query, try_except, bind, _query, _native_query, call_handler, bind,
      emit, modify, raise, ret, wrap_message;
    destruct q as [s|]; rewrite Hcall; cbn;
    try rewrite Hkind; cbn; try rewrite <- app_assoc; reflexivity.
Qed.

End DataNodeFacts.

(** *** Insert preparation *)

Section CoercionFacts.
Import PyStr PyVal PyDict PyExn PyMonad DataNode.
Variable ft : float_text.

Lemma python_type_storage t v v' :
  python_type ft t v = Some v' -> has_storage_type t v' = true.
Proof.
  destruct t, v; simpl; intros H;
    try discriminate;
    try (injection H as <-; reflexivity);
    match type of H with
    | option_map _ ?o = _ => destruct o; simpl in H; [injection H as <-; reflexivity|discriminate]
    end.
Qed.

Lemma coerce_typed t v : has_storage_type t v = true -> coerce ft t v = v.
Proof. destruct t, v; simpl; intros H; try discriminate; reflexivity. Qed.

Lemma coerce_failure t v : python_type ft t v = None -> coerce ft t v = v.
Proof. unfold coerce. intros ->. now destruct v. Qed.

Lemma coerce_idem t v : coerce ft t (coerce ft t v) = coerce ft t v.
Proof.
  destruct (python_type ft t v) as [v'|] eqn:E.
  - assert (Hc : coerce ft t v = v \/ coerce ft t v = v').
    { unfold coerce. rewrite E. destruct v; auto. }
    destruct Hc as [Hc|Hc]; rewrite Hc; [exact Hc|].
    apply coerce_typed. eapply python_type_storage; eauto.
  - now rewrite !(coerce_failure t v E).
Qed.

Lemma omap_map {X Y Z : Type} (g : X -> Y) (f : Y -> outcome Z) (l : list X) :
  omap (fun x => f (g x)) l = omap f (map g l).
Proof. induction l as [|x l IH]; simpl; auto. now rewrite IH. Qed.

Lemma format_row_cells columns meta rec :
  format_row ft columns meta rec = omap (cell ft meta rec) (map alias columns).
Proof.
  unfold format_row.
  rewrite (ofold_ext _
             (fun acc col =>
                obind (cell ft meta rec (alias col)) (fun y => Return (acc ++ [y])%list))).
  - rewrite ofold_snoc, <- omap_map.
    now destruct (omap _ columns).
  - intros acc col. unfold cell.
    destruct (getitem rec (alias col)); simpl; auto.
    destruct (getitem meta (alias col)); simpl; auto.
Qed.

Lemma format_data_rows result_set :
  format_data ft result_set
  = omap (format_row ft (rs_columns result_set)
            (table_columns_meta_of (rs_columns result_set)))
         (get_records result_set).
Proof.
  unfold format_data. rewrite ofold_snoc.
  now destruct (omap _ (get_records result_set)).
Qed.

Lemma cell_Return meta rec a v :
  cell ft meta rec a = Return v <->
  exists raw t, get rec a = Some raw /\ get meta a = Some t /\ v = coerce ft t raw.
Proof.
  unfold cell, getitem.
  destruct (get rec a) as [raw|]; simpl.
  - destruct (get meta a) as [t|]; simpl.
    + split.
      * intros H. injection H as <-. eauto.
      * intros (raw' & t' & H1 & H2 & ->). congruence.
    + split; [discriminate|]. intros (? & ? & _ & H & _). discriminate.
  - split; [discriminate|]. intros (? & ? & H & _). discriminate.
Qed.

Lemma Forall2_combine_impl {X Y : Type} (P Q : X -> Y -> Prop) (l : list X) (r : list Y) :
  Forall2 P l r ->
  (forall x y, In (x, y) (combine l r) -> P x y -> Q x y) ->
  Forall2 Q l r.
Proof.
  induction 1 as [|x y l r Hxy Hlr IH]; intros Himp; constructor.
  - apply Himp; [now left|exact Hxy].
  - apply IH. intros x' y' Hin. apply Himp. now right.
Qed.

Lemma Forall2_combine_In {X Y : Type} (P : X -> Y -> Prop) (l : list X) (r : list Y) :
  Forall2 P l r -> forall x y, In (x, y) (combine l r) -> P x y.
Proof.
  induction 1 as [|x y l r Hxy Hlr IH]; simpl; intros x' y' Hin; [contradiction|].
  destruct Hin as [Heq|Hin]; [injection Heq as <- <-; exact Hxy|now apply IH].
Qed.

(** Reading a formatted row back under the same aliases and formatting it
    again leaves it as it is. *)
Lemma format_row_reread columns meta rec row :
  format_row ft columns meta rec = Return row ->
  format_row ft columns meta (of_pairs (combine (map alias columns) row)) = Return row.
Proof.
  rewrite !format_row_cells. set (names := map alias columns).
  intros H. apply omap_Return in H. apply omap_Return.
  eapply Forall2_combine_impl; [exact H|].
  intros a v Hin Hcell.
  assert (Hget : get (of_pairs (combine names row)) a = Some v).
  { apply get_of_pairs; [exact Hin|].
    intros v' Hin'. apply (Forall2_combine_In _ _ _ H) in Hin'. congruence. }
  apply cell_Return in Hcell. destruct Hcell as (raw & t & _ & Hmeta & ->).
  apply cell_Return. exists (coerce ft t raw), t.
  repeat split; auto. now rewrite coerce_idem.
Qed.

Lemma has_meta_fold (columns : list Column) (a : string) :
  forall d : dict sql_type,
    has d a = true \/ In a (map alias columns) ->
    has (fold_left
           (fun meta col => set meta (alias col) (infer_column_type (col_type col)))
           columns d) a = true.
Proof.
  induction columns as [|col columns IH]; simpl; intros d Hd.
  - destruct Hd as [Hd|[]]. exact Hd.
  - apply IH. rewrite has_set.
    destruct Hd as [Hd|[Hd|Hd]].
    + left. rewrite Hd. apply orb_true_r.
    + left. subst a. now rewrite String.eqb_refl.
    + now right.
Qed.

Lemma format_row_complete columns (all_columns : list Column) rec :
  incl columns all_columns ->
  forallb (fun col => has rec (alias col)) columns = true ->
  exists row,
    format_row ft columns (table_columns_meta_of all_columns) rec = Return row /\
    List.length row = List.length columns.
Proof.
  intros Hincl Hrec. rewrite format_row_cells.
  rewrite forallb_forall in Hrec.
  exists (map (fun col =>
                 coerce ft (get_default (table_columns_meta_of all_columns) (alias col) Text)
                           (get_default rec (alias col) VNone)) columns).
  split; [|now rewrite length_map].
  rewrite <- omap_map. apply omap_total.
  intros col Hcol. unfold cell, getitem, get_default.
  pose proof (Hrec col Hcol) as Hr. unfold has in Hr.
  destruct (get rec (alias col)); [|discriminate]. simpl.
  assert (Hm : has (table_columns_meta_of all_columns) (alias col) = true).
  { apply has_meta_fold. right. apply in_map. now apply Hincl. }
  unfold has in Hm.
  destruct (get (table_columns_meta_of all_columns) (alias col)); [|discriminate].
  reflexivity.
Qed.

(** C9.  Insert preparation is idempotent: a value that already has the
    storage type of its column ([int] for Integer, [float] for Float, [str]
    otherwise) is left as it is, and formatting the rows of a result set a
    second time (the formatted rows read back under the same columns) gives
    the same rows; a conversion that raises keeps the raw value, and every
    record that has a value under each alias yields its row, whatever the
    conversions do. *)
Theorem coercion_idempotent :
  (forall t v, has_storage_type t v = true -> coerce ft t v = v) /\
  (forall result_set rows,
      format_data ft result_set = Return rows ->
      format_data ft
        (mk_ResultSet (rs_columns result_set)
                      (rows_as_records (rs_columns result_set) rows))
      = Return rows) /\
  (forall t v, python_type ft t v = None -> coerce ft t v = v) /\
  (forall result_set,
      complete result_set = true ->
      exists rows,
        format_data ft result_set = Return rows /\
        List.length rows = List.length (get_records result_set) /\
        Forall (fun row => List.length row = List.length (rs_columns result_set)) rows).
Proof.
  split; [exact coerce_typed|]. split; [|split; [exact coerce_failure|]].
  - intros [columns records] rows. rewrite !format_data_rows. simpl.
    intros H. apply omap_Return in H. unfold rows_as_records.
    rewrite <- omap_map. apply omap_Return.
    induction H as [|rec row records rows Hrow _ IH]; constructor; auto.
    now apply format_row_reread with (rec := rec).
  - intros [columns records]. unfold complete. simpl.
    rewrite format_data_rows. simpl. intros Hall.
    induction records as [|rec records IH]; simpl in *.
    + exists []. repeat split; constructor.
    + apply andb_true_iff in Hall. destruct Hall as [Hrec Hall].
      destruct (format_row_complete columns columns rec (incl_refl _) Hrec)
        as (row & -> & Hlen).
      destruct (IH Hall) as (rows & -> & Hlens & Hrows). simpl.
      exists (row :: rows). repeat split; simpl; auto.
Qed.

(** The rows [create_table] inserts are the formatted ones: with neither
    flag set and a result set that yields rows, one [Insert] is dispatched
    and it carries them. *)
Lemma create_table_inserts_formatted
      (Conn DataFrame : Type) (self : IntegrationDataNode Conn DataFrame)
      (table_name : Identifier) (result_set : ResultSet) (rows : list (list value))
      (w : World Conn) :
  format_data ft result_set = Return rows ->
  rows <> [] ->
  exists o c,
    create_table self ft table_name result_set false false w
    = (o, mk_World Conn c
            (events w
               ++ Dispatched
                    (Insert table_name
                       (map (fun x => mk_Identifier [alias x]) (rs_columns result_set))
                       rows)
               :: match handler_query Conn DataFrame (integration_handler self)
                          (Insert table_name
                             (map (fun x => mk_Identifier [alias x])
                                  (rs_columns result_set))
                             rows) (conn w) with
                  | (Return r, _) =>
                      [Observed (handler_class_name (integration_handler self))
                                (resp_type r)]
                  | (Raise _, _) => []
                  end)%list).
Proof.
  intros Hfmt Hne.
  unfold create_table, bind, ret, lift, try_except, _query, call_handler, bind,
    emit, modify, raise_on_error, raise, ret.
  rewrite Hfmt. cbn.
  destruct rows as [|row rows]; [contradiction|]. cbn.
  destruct (handler_query Conn DataFrame (integration_handler self) _ (conn w))
    as [[e|r] c]; cbn.
  - eexists _, c. reflexivity.
  - destruct (resp_type r); cbn; eexists _, c; rewrite <- app_assoc; reflexivity.
Qed.

End CoercionFacts.

(** *** The data node, run *)

Section DataNodeRuns.
Import PyVal PyExn DataNode Demo.

(** A connector that raises with a blank message, one that answers [ERROR]
    and one that answers [OK]. *)
Lemma query_error_handling_witness :
  query (demo_node (answer_with OK "")) None None fresh
  = (Raise (mk_exn DBHandlerException "[postgres/demo_db]: ConnectionError"),
     mk_World nat 1%nat [DispatchedNative None]) /\
  query (demo_node (answer_with ERROR "relation t does not exist"))
        (Some (Statement "SELECT * FROM t")) None fresh
  = (Raise (mk_exn Exception_ "Error in demo_db: relation t does not exist"),
     mk_World nat 1%nat [Dispatched (Statement "SELECT * FROM t");
                         Observed "DemoHandler" ERROR]) /\
  query (demo_node (answer_with OK "")) (Some (Statement "DELETE FROM t")) None fresh
  = (Return ([], []),
     mk_World nat 1%nat [Dispatched (Statement "DELETE FROM t");
                         Observed "DemoHandler" OK]).
Proof.
  split; [|split].
  - apply (proj1 (query_error_handling nat frame (demo_node (answer_with OK ""))
                    None None fresh 1%nat)
                 (mk_exn (OtherError "ConnectionError") "   ")).
    reflexivity.
  - apply (proj1 (proj2 (query_error_handling nat frame
                           (demo_node (answer_with ERROR "relation t does not exist"))
                           (Some (Statement "SELECT * FROM t")) None fresh 1%nat))
                 (mk_Response frame ERROR "relation t does not exist" empty_frame));
      reflexivity.
  - apply (proj2 (proj2 (query_error_handling nat frame
                           (demo_node (answer_with OK ""))
                           (Some (Statement "DELETE FROM t")) None fresh 1%nat))
                 (mk_Response frame OK "" empty_frame));
      reflexivity.
Defined.

(** ['7'] becomes [7] in an Integer column and ['n/a'] stays as it is; the
    rows formatted again are the same rows. *)
Lemma coercion_idempotent_witness :
  coerce demo_float_text Integer (VInt 7) = VInt 7 /\
  format_data demo_float_text
    (mk_ResultSet demo_columns
       (rows_as_records demo_columns
          [[VInt 7; VFloat 3; VStr "12"]; [VStr "n/a"; VNone; VStr "True"]]))
  = Return [[VInt 7; VFloat 3; VStr "12"]; [VStr "n/a"; VNone; VStr "True"]] /\
  coerce demo_float_text Integer (VStr "n/a") = VStr "n/a" /\
  exists rows,
    format_data demo_float_text demo_result_set = Return rows /\
    List.length rows = 2%nat /\
    Forall (fun row => List.length row = 3%nat) rows.
Proof.
  destruct (coercion_idempotent demo_float_text) as (Htyped & Hagain & Hraw & Htotal).
  split; [|split; [|split]].
  - apply Htyped. reflexivity.
  - apply (Hagain demo_result_set). reflexivity.
  - apply Hraw. reflexivity.
  - apply (Htotal demo_result_set). reflexivity.
Defined.

End DataNodeRuns.

(** ** The table: the loop over the conditions *)

Section LoopFacts.
Import PyStr PyVal PyDict PyExn PyMonad OpenBB.
Variables Where DataFrame Remote : Type.
Variable D : Descriptor.
Variable X : Externals Where DataFrame Remote.

Abbreviation step := (condition_step D X).

Lemma step_or columns arg_params strict st c :
  is_or c = true -> step columns arg_params strict st c = Raise or_error.
Proof.
  destruct c as [op arg1 arg2|]; simpl; [|reflexivity].
  now intros ->.
Qed.

(** What one pass does to [filters] and to [mandatory_args_set]. *)
Lemma step_Return columns arg_params strict st c st' :
  step columns arg_params strict st c = Return st' ->
  exists op arg1 arg2,
    c = Cmp op arg1 arg2 /\
    String.eqb op "or" = false /\
    filters st' = (filters st ++ [(op, arg1, arg2)])%list /\
    mandatory_args_set st'
    = (if mem arg1 (mandatory_fields D)
       then PyDict.set (mandatory_args_set st) arg1 true
       else mandatory_args_set st).
Proof.
  destruct c as [op arg1 arg2|]; simpl; [|discriminate].
  destruct (String.eqb op "or") eqn:Eor; [discriminate|].
  intros H. exists op, arg1, arg2.
  match type of H with
  | obind ?o _ = _ => destruct o as [e|pc]; simpl in H; [discriminate|]
  end.
  injection H as <-. simpl. auto.
Qed.

Lemma loop_or_raises columns arg_params strict conditions :
  existsb is_or conditions = true ->
  forall st, exists e,
    ofold (step columns arg_params strict) conditions st = Raise e.
Proof.
  induction conditions as [|c conditions IH]; simpl; [discriminate|].
  intros Hor st. destruct (is_or c) eqn:Ec.
  - rewrite step_or by exact Ec. simpl. eauto.
  - simpl in Hor. destruct (step columns arg_params strict st c) as [e|st']; simpl; eauto.
Qed.

Lemma ofold_app {A B : Type} (f : A -> B -> outcome A) (l1 l2 : list B) :
  forall acc, ofold f (l1 ++ l2)%list acc = obind (ofold f l1 acc) (ofold f l2).
Proof.
  induction l1 as [|x l1 IH]; intros acc; simpl; [reflexivity|].
  destruct (f acc x) as [e|acc']; simpl; [reflexivity|apply IH].
Qed.

(** A loop that meets the marker raises the error for OR, unless reading
    what comes before the marker has raised already. *)
Lemma loop_reaches_or columns arg_params strict before c rest st :
  is_or c = true ->
  ofold (step columns arg_params strict) (before ++ c :: rest)%list st
  = match ofold (step columns arg_params strict) before st with
    | Raise e => Raise e
    | Return _ => Raise or_error
    end.
Proof.
  intros Hc. rewrite ofold_app.
  destruct (ofold (step columns arg_params strict) before st) as [e|st']; simpl;
    [reflexivity|].
  now rewrite step_or by exact Hc.
Qed.

Lemma loop_filters columns arg_params strict conditions :
  forall st st',
    ofold (step columns arg_params strict) conditions st = Return st' ->
    filters st' = (filters st ++ filter_items conditions)%list.
Proof.
  induction conditions as [|c conditions IH]; simpl; intros st st' H.
  - injection H as <-. now rewrite app_nil_r.
  - destruct (step columns arg_params strict st c) as [e|st1] eqn:E; simpl in H;
      [discriminate|].
    apply step_Return in E. destruct E as (op & arg1 & arg2 & -> & _ & Hf & _).
    rewrite (IH _ _ H), Hf, <- app_assoc. reflexivity.
Qed.

(** Every condition read by a loop that ends is among the filters, in the
    order of the conditions. *)
Lemma condition_loop_filters columns conditions st :
  condition_loop D X columns conditions = Return st ->
  filters st = filter_items conditions.
Proof.
  unfold condition_loop. intros H. now rewrite (loop_filters _ _ _ _ _ _ H).
Qed.

End LoopFacts.

(** ** Strings *)

Section StringFacts.
Import PyStr.

Lemma string_app_nil_r (s : string) : s ++ "" = s.
Proof. induction s as [|c s IH]; simpl; congruence. Qed.

Lemma string_app_assoc (a b c : string) : (a ++ b) ++ c = a ++ (b ++ c).
Proof. induction a as [|x a IH]; simpl; congruence. Qed.

Lemma prefix_app (n rest : string) : prefix n (n ++ rest) = true.
Proof.
  induction n as [|c n IH]; simpl.
  - now destruct rest.
  - destruct (ascii_dec c c); [exact IH|contradiction].
Qed.

Lemma contains_here (needle hay : string) :
  prefix needle hay = true -> contains needle hay = true.
Proof. intros H. destruct hay; simpl; simpl in H; rewrite H; reflexivity. Qed.

Lemma contains_later (needle : string) (c : ascii) (hay : string) :
  contains needle hay = true -> contains needle (String c hay) = true.
Proof. intros H. cbn [contains]. rewrite H. apply orb_true_r. Qed.

(** A text contains each of its parts. *)
Lemma contains_part (needle before after : string) :
  contains needle (before ++ needle ++ after) = true.
Proof.
  induction before as [|c before IH]; simpl append.
  - apply contains_here, prefix_app.
  - apply contains_later, IH.
Qed.

Lemma concat_empty_cons (x : string) (l : list string) :
  String.concat "" (x :: l) = x ++ String.concat "" l.
Proof. destruct l; simpl; [now rewrite string_app_nil_r|reflexivity]. Qed.

Lemma concat_empty_app (l1 l2 : list string) :
  String.concat "" (l1 ++ l2) = String.concat "" l1 ++ String.concat "" l2.
Proof.
  induction l1 as [|x l1 IH]; [reflexivity|].
  rewrite <- app_comm_cons, !concat_empty_cons, IH.
  now rewrite string_app_assoc.
Qed.

End StringFacts.

(** ** The table: the required parameters *)

Section MandatoryFacts.
Import PyStr PyVal PyDict PyExn PyMonad OpenBB.

Lemma set_flags (ks : list string) (f : string -> bool) (a : string) :
  NoDup ks ->
  (if mem a ks then PyDict.set (flags ks f) a true else flags ks f)
  = flags ks (fun k => f k || String.eqb a k).
Proof.
  unfold flags. induction ks as [|k ks IH]; intros Hnd; [reflexivity|].
  inversion Hnd as [|? ? Hnotin Hnd']; subst.
  simpl. destruct (String.eqb a k) eqn:E; simpl.
  - apply String.eqb_eq in E. subst k. rewrite orb_true_r. f_equal.
    apply map_ext_in. intros k Hk.
    destruct (String.eqb a k) eqn:E'; [|now rewrite orb_false_r].
    apply String.eqb_eq in E'. subst. contradiction.
  - rewrite orb_false_r. specialize (IH Hnd').
    destruct (mem a ks) eqn:Em; simpl; f_equal; exact IH.
Qed.

Lemma set_fresh {V : Type} (d : dict V) (k : string) (v : V) :
  has d k = false -> PyDict.set d k v = (d ++ [(k, v)])%list.
Proof.
  unfold has. induction d as [|[k' v'] d IH]; simpl; [reflexivity|].
  destruct (String.eqb k k'); [discriminate|]. intros H. now rewrite IH.
Qed.

Lemma has_app_flags (d : dict bool) (k k' : string) (b : bool) :
  has (d ++ [(k, b)])%list k' = has d k' || String.eqb k' k.
Proof.
  unfold has. induction d as [|[k0 v0] d IH]; simpl.
  - now destruct (String.eqb k' k).
  - destruct (String.eqb k' k0); [reflexivity|exact IH].
Qed.

Lemma from_keys_flags (ks : list string) :
  NoDup ks -> from_keys ks false = flags ks (fun _ => false).
Proof.
  unfold from_keys, flags.
  enough (H : forall d : dict bool,
             NoDup ks -> (forall k, In k ks -> has d k = false) ->
             fold_left (fun d k => PyDict.set d k false) ks d
             = (d ++ map (fun k => (k, false)) ks)%list).
  { intros Hnd. now rewrite H. }
  induction ks as [|k ks IH]; simpl; intros d Hnd Hfresh.
  - now rewrite app_nil_r.
  - inversion Hnd as [|? ? Hnotin Hnd']; subst.
    rewrite set_fresh by (apply Hfresh; now left).
    rewrite IH; [now rewrite <- app_assoc|exact Hnd'|].
    intros k' Hk'. rewrite has_app_flags, Hfresh by now right.
    simpl. apply String.eqb_neq. intros ->. contradiction.
Qed.

Lemma all_set_flags (ks : list string) (f : string -> bool) :
  all_set (flags ks f) = forallb f ks.
Proof.
  unfold all_set, flags, values. rewrite map_map. simpl.
  induction ks as [|k ks IH]; simpl; [reflexivity|]. now rewrite IH.
Qed.

Lemma missing_args_flags (ks : list string) (f : string -> bool) :
  missing_args (flags ks f) = filter (fun k => negb (f k)) ks.
Proof.
  unfold missing_args, flags.
  induction ks as [|k ks IH]; simpl; [reflexivity|].
  destruct (f k); simpl; now rewrite IH.
Qed.

Lemma NoDup_keys_filter {V : Type} (p : string * V -> bool) (d : dict V) :
  NoDup (keys d) -> NoDup (keys (filter p d)).
Proof.
  unfold keys. induction d as [|[k v] d IH]; simpl; intros Hnd; [constructor|].
  inversion Hnd as [|? ? Hnotin Hnd']; subst.
  destruct (p (k, v)); simpl; auto.
  constructor; auto. intros Hin. apply Hnotin.
  apply in_map_iff in Hin. destruct Hin as (kv & Hk & Hkv).
  apply filter_In in Hkv. apply in_map_iff. exists kv. tauto.
Qed.

Variables Where DataFrame Remote : Type.
Variable D : Descriptor.
Variable X : Externals Where DataFrame Remote.
Hypothesis unique_parameters : NoDup (keys (params_fields D)).

Lemma mandatory_fields_NoDup : NoDup (mandatory_fields D).
Proof. unfold mandatory_fields. now apply (NoDup_keys_filter _ (params_fields D)). Qed.

Lemma loop_mandatory columns arg_params strict conditions :
  forall st st' f,
    ofold (condition_step D X columns arg_params strict) conditions st = Return st' ->
    mandatory_args_set st = flags (mandatory_fields D) f ->
    mandatory_args_set st'
    = flags (mandatory_fields D) (fun k => f k || mentioned conditions k).
Proof.
  induction conditions as [|c conditions IH]; simpl; intros st st' f H Hst.
  - injection H as <-. rewrite Hst. unfold flags. apply map_ext.
    intros k. now rewrite orb_false_r.
  - destruct (condition_step D X columns arg_params strict st c) as [e|st1] eqn:E;
      simpl in H; [discriminate|].
    apply (step_Return Where DataFrame Remote) in E.
    destruct E as (op & arg1 & arg2 & -> & _ & _ & Hm).
    rewrite Hst, (set_flags _ _ _ mandatory_fields_NoDup) in Hm.
    rewrite (IH _ _ _ H Hm). unfold flags. apply map_ext.
    intros k. now rewrite orb_assoc.
Qed.

(** After the loop a required parameter is marked exactly when some
    condition, of any operator, has it as its left operand. *)
Lemma condition_loop_mandatory columns conditions st :
  condition_loop D X columns conditions = Return st ->
  mandatory_args_set st = flags (mandatory_fields D) (mentioned conditions).
Proof.
  unfold condition_loop. intros H.
  apply (loop_mandatory _ _ _ _ _ _ (fun _ => false)) in H.
  - rewrite H. reflexivity.
  - simpl. apply from_keys_flags, mandatory_fields_NoDup.
Qed.

End MandatoryFacts.

(** ** The table: select *)

Section SelectFacts.
Import PyStr PyVal PyDict PyExn PyMonad OpenBB.
Variables Where DataFrame Remote : Type.
Variable D : Descriptor.
Variable X : Externals Where DataFrame Remote.
Implicit Types (query : Select Where) (w : World Remote).

Abbreviation conditions_of query := (extract_comparison_conditions _ _ _ X (where_ query)).

(** [select], unfolded along its three exits. *)
Lemma select_cases query w :
  select D X query w
  = match condition_loop D X (response_columns w) (conditions_of query) with
    | Raise e => (Raise e, w)
    | Return st =>
        if all_set (mandatory_args_set st)
        then match select_body D X query st w with
             | (Raise e, w') => (Raise (handle D e), w')
             | (Return df, w') => (Return df, w')
             end
        else (Raise (missing_error D (mandatory_args_set st)), w)
    end.
Proof.
  unfold select, bind, get_columns, lift, try_except, raise.
  destruct (condition_loop D X (response_columns w) (conditions_of query)) as [e|st];
    [reflexivity|].
  destruct (all_set (mandatory_args_set st)); reflexivity.
Qed.

Lemma select_reaches_or query w before c rest :
  conditions_of query = (before ++ c :: rest)%list ->
  is_or c = true ->
  select D X query w
  = match conditions_read D X (response_columns w) (conditions_of query) before with
    | Raise e => (Raise e, w)
    | Return _ => (Raise (mk_exn NotImplementedError "OR is not supported"), w)
    end.
Proof.
  intros Hconds Hc. rewrite select_cases. unfold condition_loop, conditions_read.
  rewrite Hconds at 3. rewrite (loop_reaches_or _ _ _ D X _ _ _ _ _ _ _ Hc).
  now destruct (ofold _ before (initial_state D)).
Qed.

(** C7, as the code has it.  When the extracted conditions contain the
    disjunction marker, [select] raises and leaves the world as it found
    it: the remote function is not invoked.  The error is
    [NotImplementedError('OR is not supported')] when the conditions before
    the marker are read without raising, as when the marker comes first;
    when reading one of them raises, that error is what [select] raises. *)
Theorem select_rejects_or query w before c rest :
  conditions_of query = (before ++ c :: rest)%list ->
  is_or c = true ->
  (exists e, select D X query w = (Raise e, w)) /\
  (forall st,
      conditions_read D X (response_columns w) (conditions_of query) before = Return st ->
      select D X query w
      = (Raise (mk_exn NotImplementedError "OR is not supported"), w)) /\
  (forall e,
      conditions_read D X (response_columns w) (conditions_of query) before = Raise e ->
      select D X query w = (Raise e, w)) /\
  (before = [] ->
   select D X query w
   = (Raise (mk_exn NotImplementedError "OR is not supported"), w)).
Proof.
  intros Hconds Hc. rewrite (select_reaches_or _ _ _ _ _ Hconds Hc).
  split; [|split; [|split]].
  - destruct (conditions_read D X (response_columns w) (conditions_of query) before);
      eauto.
  - now intros st ->.
  - now intros e ->.
  - now intros ->.
Qed.

(** The generated reference has an entry for every declared parameter. *)
Lemma param_entries_complete (p : string) (f : FieldInfo) :
  In (p, f) (params_fields D) ->
  exists before after, param_entries D = before ++ param_entry p f ++ after.
Proof.
  intros Hin. unfold param_entries.
  apply in_split in Hin. destruct Hin as (l1 & l2 & ->).
  rewrite map_app, concat_empty_app. simpl map. rewrite concat_empty_cons.
  eauto.
Qed.

Lemma docstring_complete (p : string) (f : FieldInfo) :
  In (p, f) (params_fields D) -> contains (param_entry p f) (docstring D) = true.
Proof.
  intros Hin. destruct (param_entries_complete p f Hin) as (before & after & E).
  unfold docstring. rewrite E.
  replace ("Docstring:" ++ (before ++ param_entry p f ++ after) ++ nl ++ nl
           ++ "For more information check " ++ func_docs D)
    with (("Docstring:" ++ before) ++ param_entry p f
          ++ (after ++ nl ++ nl ++ "For more information check " ++ func_docs D)).
  - apply contains_part.
  - now rewrite !string_app_assoc.
Qed.

Lemma missing_text_complete (mandatory : dict bool) (p : string) (f : FieldInfo) :
  In (p, f) (params_fields D) ->
  contains (param_entry p f) (missing_text D mandatory) = true.
Proof.
  intros Hin. destruct (param_entries_complete p f Hin) as (before & after & E).
  unfold missing_text. rewrite E.
  match goal with
  | |- contains _ (?a ++ ?b ++ ?c ++ ?d ++ ?e ++ (before ++ _ ++ after) ++ ?g) = true =>
      replace (a ++ b ++ c ++ d ++ e ++ (before ++ param_entry p f ++ after) ++ g)
        with ((a ++ b ++ c ++ d ++ e ++ before) ++ param_entry p f ++ (after ++ g))
  end.
  - apply contains_part.
  - now rewrite !string_app_assoc.
Qed.


End SelectFacts.

(** ** The table: the calls a select makes *)

Section CallFacts.
Import PyStr PyVal PyDict PyExn PyMonad OpenBB.
Variables Where DataFrame Remote : Type.
Variable D : Descriptor.
Variable X : Externals Where DataFrame Remote.
Implicit Types (query : Select Where) (w : World Remote) (result : DataFrame).

Abbreviation conditions_in query := (extract_comparison_conditions _ _ _ X (where_ query)).

(** Case analysis along the equation of a run. *)
Ltac run H :=
  repeat (simpl in H;
          match type of H with
          | context [match ?x with _ => _ end] =>
              lazymatch x with
              | context [match _ with _ => _ end] => fail
              | _ => destruct x eqn:?
              end
          end);
  simpl in H.

Lemma fetch_calls query (ps : dict value) w (r : outcome DataFrame) w' :
  fetch D X query ps w = (r, w') -> calls w' = (calls w ++ [ObbCall ps])%list.
Proof.
  unfold fetch, bind, call_obb, require_data, lift, ret, raise. intros H.
  run H; injection H as <- <-; reflexivity.
Qed.

Lemma limit_locally_calls query result w (r : outcome DataFrame) w' :
  limit_locally D X query result w = (r, w') -> calls w' = calls w.
Proof.
  unfold limit_locally, bind, require_data, lift, ret, raise. intros H.
  run H; injection H as <- <-; reflexivity.
Qed.

Lemma filter_locally_calls st (ps : dict value) result w (r : outcome DataFrame) w' :
  filter_locally D X st ps result w = (r, w') ->
  (calls w' = calls w /\ exists e, r = Raise e) \/
  calls w' = (calls w ++ [FilterCall (filters st)])%list.
Proof.
  unfold filter_locally, bind, require_data, lift, ret, raise, log, modify. intros H.
  run H; injection H as <- <-; simpl; eauto.
Qed.

Lemma select_dataframe_calls query result w (r : outcome DataFrame) w' :
  _select_dataframe X query result w = (r, w') ->
  calls w' = calls w \/ exists query_str, calls w' = (calls w ++ [DuckdbCall query_str])%list.
Proof.
  unfold _select_dataframe, bind, lift, raise, log, modify. intros H.
  run H; injection H as <- <-; simpl; eauto.
Qed.

Lemma check_targets_calls query result (columns : list string) (ts : list target) :
  forall w (r : outcome (option DataFrame)) w',
    check_targets X query result columns ts w = (r, w') ->
    calls w' = calls w \/
    exists query_str, calls w' = (calls w ++ [DuckdbCall query_str])%list.
Proof.
  induction ts as [|t ts IH]; simpl; intros w r w' H.
  - injection H as <- <-. now left.
  - unfold bind, lift in H.
    destruct (target_column t) as [e|[|name|]]; simpl in H.
    + injection H as <- <-. now left.
    + now apply IH in H.
    + destruct (mem name columns); [now apply IH in H|].
      injection H as <- <-. now left.
    + unfold ret in H.
      destruct (_select_dataframe X query result w) as [[e|df] w1] eqn:E;
        injection H as <- <-; now apply select_dataframe_calls in E.
Qed.

Lemma project_targets_calls query result w (r : outcome DataFrame) w' :
  project_targets X query result w = (r, w') ->
  exists new, calls w' = (calls w ++ new)%list /\
              forall fs, ~ In (FilterCall fs) new.
Proof.
  unfold project_targets, bind, extend_columns. intros H.
  set (w1 := mk_World Remote (remote w) _ (calls w)) in H.
  destruct (check_targets X query result (response_columns w1) (targets query) w1)
    as [[e|[df|]] w2] eqn:Echeck; simpl in Echeck; rewrite Echeck in H.
  - injection H as <- <-. apply check_targets_calls in Echeck. simpl in Echeck.
    destruct Echeck as [->|[qs ->]].
    + exists []. rewrite app_nil_r. split; [reflexivity|]. intros fs [].
    + exists [DuckdbCall qs]. split; [reflexivity|].
      intros fs [Hin|[]]. discriminate.
  - unfold ret in H. injection H as <- <-.
    apply check_targets_calls in Echeck. simpl in Echeck.
    destruct Echeck as [->|[qs ->]].
    + exists []. rewrite app_nil_r. split; [reflexivity|]. intros fs [].
    + exists [DuckdbCall qs]. split; [reflexivity|].
      intros fs [Hin|[]]. discriminate.
  - apply check_targets_calls in Echeck. simpl in Echeck.
    unfold log, modify, try_except, lift, raise in H. simpl in H.
    match type of H with
    | match ?x with _ => _ end = _ => destruct x as [e|df]
    end.
    + destruct (is_NotImplementedError e).
      * apply select_dataframe_calls in H. simpl in H.
        destruct Echeck as [E2|[qs E2]]; rewrite E2 in H;
          destruct H as [->|[qs' ->]]; rewrite <- ?app_assoc; simpl;
            eexists; (split; [reflexivity|]);
              intros fs Hin; simpl in Hin;
                repeat (destruct Hin as [Hin|Hin]; [discriminate|]); exact Hin.
      * injection H as <- <-. simpl.
        destruct Echeck as [->|[qs ->]]; rewrite <- ?app_assoc; simpl;
          eexists; (split; [reflexivity|]);
            intros fs Hin; simpl in Hin;
              repeat (destruct Hin as [Hin|Hin]; [discriminate|]); exact Hin.
    + injection H as <- <-. simpl.
      destruct Echeck as [->|[qs ->]]; rewrite <- ?app_assoc; simpl;
        eexists; (split; [reflexivity|]);
          intros fs Hin; simpl in Hin;
            repeat (destruct Hin as [Hin|Hin]; [discriminate|]); exact Hin.
Qed.

Lemma select_body_calls query st w (r : outcome DataFrame) w' :
  select_body D X query st w = (r, w') ->
  exists new, calls w' = (calls w ++ new)%list /\
              only_filter (filters st) new /\
              (forall df, r = Return df -> In (FilterCall (filters st)) new).
Proof.
  unfold select_body, bind. intros H.
  destruct (fetch D X query (remote_params D query st) w) as [[e|r1] w1] eqn:E1.
  { injection H as <- <-. apply fetch_calls in E1. eexists. split; [exact E1|].
    split; [|discriminate]. intros fs [Hin|[]]. discriminate. }
  apply fetch_calls in E1.
  destruct (limit_locally D X query r1 w1) as [[e|r2] w2] eqn:E2.
  { injection H as <- <-. apply limit_locally_calls in E2. rewrite E2.
    eexists. split; [exact E1|]. split; [|discriminate].
    intros fs [Hin|[]]. discriminate. }
  apply limit_locally_calls in E2.
  destruct (filter_locally D X st (remote_params D query st) r2 w2) as [[e|r3] w3] eqn:E3.
  { injection H as <- <-. apply filter_locally_calls in E3.
    destruct E3 as [[E3 _]|E3]; rewrite E3, E2, E1.
    - eexists. split; [reflexivity|]. split; [|discriminate].
      intros fs [Hin|[]]. discriminate.
    - rewrite <- app_assoc. eexists. split; [reflexivity|]. split; [|discriminate].
      intros fs [Hin|[Hin|[]]]; [discriminate|]. now injection Hin. }
  apply filter_locally_calls in E3.
  destruct E3 as [[_ [e He]]|E3]; [discriminate|].
  apply project_targets_calls in H. destruct H as (new & Hnew & Hnofilter).
  rewrite Hnew, E3, E2, E1, <- !app_assoc. simpl.
  eexists. split; [reflexivity|]. split.
  - intros fs [Hin|[Hin|Hin]]; [discriminate|now injection Hin|].
    now apply Hnofilter in Hin.
  - intros df _. right. now left.
Qed.

(** C2, as the code has it.  The filters handed to [filter_dataframe] after
    the remote call are all the extracted conditions, in their order,
    whether or not the pushdown used them: every filter call of a [select]
    carries exactly them, and a [select] that returns has made that call. *)
Theorem local_filters_are_all_conditions query w (r : outcome DataFrame) w' :
  select D X query w = (r, w') ->
  exists new,
    calls w' = (calls w ++ new)%list /\
    (forall fs, In (FilterCall fs) new -> fs = filter_items (conditions_in query)) /\
    (forall df, r = Return df -> In (FilterCall (filter_items (conditions_in query))) new).
Proof.
  rewrite select_cases.
  destruct (condition_loop D X (response_columns w) (conditions_in query)) as [e|st] eqn:Eloop.
  { intros H. injection H as <- <-. exists []. rewrite app_nil_r.
    split; [reflexivity|]. split; [intros fs []|discriminate]. }
  apply condition_loop_filters in Eloop.
  destruct (all_set (mandatory_args_set st)).
  - destruct (select_body D X query st w) as [[e|df] w1] eqn:Ebody; intros H;
      injection H as <- <-;
      apply select_body_calls in Ebody;
      destruct Ebody as (new & Hcalls & Honly & Hret);
      rewrite Eloop in *; exists new; split; auto; split; auto; discriminate.
  - intros H. injection H as <- <-. exists []. rewrite app_nil_r.
    split; [reflexivity|]. split; [intros fs []|discriminate].
Qed.

End CallFacts.

(** ** The table: errors *)

Section ErrorFacts.
Import PyStr PyVal PyDict PyExn PyMonad OpenBB.
Variables Where DataFrame Remote : Type.
Variable D : Descriptor.
Variable X : Externals Where DataFrame Remote.
Implicit Types (query : Select Where) (w : World Remote) (result : DataFrame).

Abbreviation conditions_at query := (extract_comparison_conditions _ _ _ X (where_ query)).

Lemma prefix_app_char (c : ascii) (needle : string) :
  has_char c needle = false ->
  forall s, prefix needle (s ++ String c "") = prefix needle s.
Proof.
  induction needle as [|a needle IH]; simpl; intros Hc s.
  - now destruct s.
  - apply orb_false_iff in Hc. destruct Hc as [Hca Hc].
    destruct s as [|b s]; simpl.
    + destruct (ascii_dec a c) as [->|]; [|reflexivity].
      now rewrite Ascii.eqb_refl in Hca.
    + destruct (ascii_dec a b); [now apply IH|reflexivity].
Qed.

Lemma contains_app_char (c : ascii) (needle : string) :
  has_char c needle = false ->
  contains needle (String c "") = false ->
  forall s, contains needle (s ++ String c "") = contains needle s.
Proof.
  intros Hc Hone. induction s as [|b s IH].
  - simpl append. rewrite Hone. destruct needle; [discriminate|reflexivity].
  - change (String b s ++ String c "") with (String b (s ++ String c "")).
    cbn [contains]. rewrite IH.
    change (String b (s ++ String c "")) with (String b s ++ String c "").
    now rewrite prefix_app_char.
Qed.

(** The diagnostic of an absent result has one of the two special phrases
    only if [func_docs] has it. *)
Lemma no_data_plain :
  contains "Table not found" (func_docs D) = false ->
  contains "Missing credential" (func_docs D) = false ->
  handle D (no_data_error D) = with_docstring D (no_data_error D).
Proof.
  intros Htable Hcred. unfold handle, no_data_error. cbn.
  rewrite (contains_app_char "." "Table not found") by reflexivity.
  rewrite (contains_app_char "." "Missing credential") by reflexivity.
  now rewrite Htable, Hcred.
Qed.

(** What the guard after [head] lets through: every frame, with rows or
    without. *)
Lemma limit_locally_frame query result w (v : value) (limited : DataFrame) :
  limit query = Some v ->
  head _ _ _ X result v = Return (Some limited) ->
  limit_locally D X query result w = (Return limited, w).
Proof.
  intros Hlimit Hhead. unfold limit_locally, bind, lift, require_data, ret.
  now rewrite Hlimit, Hhead.
Qed.

Lemma handle_Exception (e : exn) :
  handle D e = mk_exn Exception_ (exn_msg (handle D e)).
Proof.
  unfold handle.
  destruct (is_AttributeError e); [reflexivity|].
  destruct (is_ValidationError e); [reflexivity|].
  destruct (contains "Table not found" (exn_msg e)); [reflexivity|].
  destruct (contains "Missing credential" (exn_msg e)); reflexivity.
Qed.


End ErrorFacts.

(** ** The table: the targets *)

Section TargetFacts.
Import PyStr PyVal PyDict PyExn PyMonad OpenBB.
Variables Where DataFrame Remote : Type.
Variable X : Externals Where DataFrame Remote.
Implicit Types (query : Select Where) (w : World Remote) (result : DataFrame).

Lemma last_part_snoc (ps : list string) (p : string) :
  last_part (ps ++ [p]) = Return p.
Proof. unfold last_part. now rewrite rev_unit. Qed.

(** The targets that pass are skipped by the loop. *)
Lemma check_targets_passed query result (columns : list string) (pre ts : list target) w :
  forallb (passes columns) pre = true ->
  check_targets X query result columns (pre ++ ts) w
  = check_targets X query result columns ts w.
Proof.
  induction pre as [|t pre IH]; simpl; intros Hpre; [reflexivity|].
  apply andb_true_iff in Hpre. destruct Hpre as [Ht Hpre].
  unfold passes in Ht. unfold bind, lift.
  destruct (target_column t) as [e|[|name|]]; try discriminate.
  - now apply IH.
  - rewrite Ht. now apply IH.
Qed.

Lemma check_targets_all_passed query result (columns : list string) (ts : list target) w :
  forallb (passes columns) ts = true ->
  check_targets X query result columns ts w = (Return None, w).
Proof.
  intros H. rewrite <- (app_nil_r ts). now rewrite check_targets_passed.
Qed.

Lemma check_targets_unknown query result (columns : list string)
      (pre : list target) (t : target) (post : list target) (name : string) w :
  forallb (passes columns) pre = true ->
  target_column t = Return (Column name) ->
  mem name columns = false ->
  check_targets X query result columns (pre ++ t :: post) w
  = (Raise (unknown_column name), w).
Proof.
  intros Hpre Ht Hname. rewrite check_targets_passed by exact Hpre.
  simpl. unfold bind, lift. now rewrite Ht, Hname.
Qed.


End TargetFacts.

(** ** The table: the time range *)

Section TimeRangeFacts.
Import PyStr PyVal PyDict PyExn PyMonad DateTime OpenBB.
Variables Where DataFrame Remote : Type.
Variable D : Descriptor.
Variable X : Externals Where DataFrame Remote.

(** For the four inequalities the window parameter is the literal's date,
    moved by one interval where the bound is inclusive. *)
Lemma time_range_inequalities (arg_params : dict value) (field : string)
      (literal : value) (ps : dict value) (date : datetime) :
  parse_local_date _ _ _ X literal = Return date ->
  time_range_params X arg_params ">" field literal ps
  = Return (PyDict.set ps ("start_" ++ field) (VStr (strftime_ymd date))) /\
  time_range_params X arg_params "<" field literal ps
  = Return (PyDict.set ps ("end_" ++ field) (VStr (strftime_ymd date))) /\
  (forall interval,
      Timedelta _ _ _ X (get_default arg_params "interval" (VStr "1d")) = Return interval ->
      (in_range (date - interval) = true ->
       time_range_params X arg_params ">=" field literal ps
       = Return (PyDict.set ps ("start_" ++ field) (VStr (strftime_ymd (date - interval))))) /\
      (in_range (date + interval) = true ->
       time_range_params X arg_params "<=" field literal ps
       = Return (PyDict.set ps ("end_" ++ field) (VStr (strftime_ymd (date + interval)))))).
Proof.
  intros Hdate. unfold time_range_params. rewrite Hdate. cbn.
  split; [reflexivity|]. split; [reflexivity|].
  intros interval ->. unfold date_sub, date_add. cbn.
  split; intros ->; reflexivity.
Qed.

(** For an equality the lower bound is one interval before the literal's
    date and the upper bound is the literal's date itself: [date] was moved
    back before the interval is added to it. *)
Lemma time_range_equality (arg_params : dict value) (field : string)
      (literal : value) (ps : dict value) (date : datetime) (interval : timedelta) :
  parse_local_date _ _ _ X literal = Return date ->
  Timedelta _ _ _ X (get_default arg_params "interval" (VStr "1d")) = Return interval ->
  in_range (date - interval) = true ->
  in_range date = true ->
  time_range_params X arg_params "=" field literal ps
  = Return (PyDict.set
              (PyDict.set ps ("start_" ++ field) (VStr (strftime_ymd (date - interval))))
              ("end_" ++ field) (VStr (strftime_ymd date))).
Proof.
  intros Hdate Hinterval Hlow Hdate_range.
  unfold time_range_params. rewrite Hdate. cbn. rewrite Hinterval. cbn.
  unfold date_sub. rewrite Hlow. cbn. unfold date_add.
  replace (date - interval + interval) with date by lia.
  now rewrite Hdate_range.
Qed.

(** Whatever parameters the branch of the equality yields, they have this
    form. *)
Lemma time_range_equality_form (arg_params : dict value) (field : string)
      (literal : value) (ps ps' : dict value) :
  time_range_params X arg_params "=" field literal ps = Return ps' ->
  exists date interval,
    parse_local_date _ _ _ X literal = Return date /\
    Timedelta _ _ _ X (get_default arg_params "interval" (VStr "1d")) = Return interval /\
    ps' = PyDict.set
            (PyDict.set ps ("start_" ++ field) (VStr (strftime_ymd (date - interval))))
            ("end_" ++ field) (VStr (strftime_ymd date)).
Proof.
  unfold time_range_params.
  destruct (parse_local_date _ _ _ X literal) as [e|date]; [discriminate|]. cbn.
  destruct (Timedelta _ _ _ X (get_default arg_params "interval" (VStr "1d")))
    as [e|interval]; [discriminate|]. cbn.
  unfold date_sub. destruct (in_range (date - interval)); [|discriminate]. cbn.
  unfold date_add. replace (date - interval + interval) with date by lia.
  destruct (in_range date); [|discriminate]. cbn.
  intros H. injection H as <-. eauto.
Qed.

(** The pass over a condition on a datetime response field that has a
    [start_] parameter, with a literal that is not [None], sets the window
    parameters and nothing else among the parameters. *)
Lemma condition_step_time_range (columns : list string) (arg_params : dict value)
      (strict : value) (st : loop_state) (op field : string) (literal : value)
      (ps' : dict value) :
  String.eqb op "or" = false ->
  has (params_fields D) ("start_" ++ field) = true ->
  mem field columns = true ->
  get (response_fields D) field = Some "datetime" ->
  is_none literal = false ->
  time_range_params X arg_params op field literal (params st) = Return ps' ->
  exists st',
    condition_step D X columns arg_params strict st (Cmp op field literal) = Return st' /\
    params st' = ps'.
Proof.
  intros Hop Hstart Hmem Hann Hlit Hps. unfold condition_step, getitem.
  rewrite Hop, Hstart, Hmem, Hlit, Hann. cbn. rewrite Hps. cbn. eauto.
Qed.

End TimeRangeFacts.

(** ** The table, run *)

Section TableRuns.
Import PyStr PyVal PyDict PyExn PyMonad DateTime OpenBB Demo.

(** C1.  On the code, an equality on a datetime field sets [start_<field>]
    to the literal's date minus one interval and [end_<field>] to the
    literal's date itself, whatever the interval: so it is whenever the
    literal and the interval are read and the dates are in the range of a
    [datetime], and whatever parameters the branch yields have this form;
    the query [date = '2023-05-01' AND symbol = 'ABC'] reaches the remote
    function with [start_date='2023-04-30'] and [end_date='2023-05-01']. *)
Theorem equality_window_end_unshifted :
  (forall (Where DataFrame Remote : Type) (X : Externals Where DataFrame Remote)
          (arg_params : dict value) (field : string) (literal : value) (ps : dict value)
          (date : datetime) (interval : timedelta),
      parse_local_date _ _ _ X literal = Return date ->
      Timedelta _ _ _ X (get_default arg_params "interval" (VStr "1d")) = Return interval ->
      in_range (date - interval) = true ->
      in_range date = true ->
      time_range_params X arg_params "=" field literal ps
      = Return
          (PyDict.set
             (PyDict.set ps ("start_" ++ field) (VStr (strftime_ymd (date - interval))))
             ("end_" ++ field)
             (VStr (strftime_ymd date)))) /\
  (forall (Where DataFrame Remote : Type) (X : Externals Where DataFrame Remote)
          (arg_params : dict value) (field : string) (literal : value)
          (ps ps' : dict value),
      time_range_params X arg_params "=" field literal ps = Return ps' ->
      exists date interval,
        parse_local_date _ _ _ X literal = Return date /\
        Timedelta _ _ _ X (get_default arg_params "interval" (VStr "1d")) = Return interval /\
        ps' = PyDict.set
                (PyDict.set ps ("start_" ++ field)
                   (VStr (strftime_ymd (date - interval))))
                ("end_" ++ field)
                (VStr (strftime_ymd date))) /\
  calls (snd (select prices X0 scenario_B new_world))
  = [ ObbCall [ ("start_date", VStr "2023-04-30");
                ("end_date", VStr "2023-05-01");
                ("symbol", VStr "ABC") ];
      FilterCall [ ("=", "date", VStr "2023-05-01"); ("=", "symbol", VStr "ABC") ];
      ProjectCall [Identifier ["close"]] ["date"; "close"; "symbol"] ].
Proof.
  split; [|split].
  - intros. now apply time_range_equality.
  - intros. now apply time_range_equality_form.
  - vm_compute. reflexivity.
Qed.

(** The inclusive lower bound of the specification's example:
    [date >= '2023-01-01'] with the interval ['1d'] gives
    [start_date = '2022-12-31']. *)
Example lower_bound_example :
  time_range_params X0 [("interval", VStr "1d")] ">=" "date" (VStr "2023-01-01") []
  = Return [("start_date", VStr "2022-12-31")].
Proof. vm_compute. reflexivity. Qed.

(** The filters the code applies at scenario B are both conditions, where
    the specification's wording leaves none: the condition on [date] was
    turned into the window and the one on [symbol] into a parameter. *)
Lemma consumed_conditions_are_filtered :
  In (FilterCall [ ("=", "date", VStr "2023-05-01"); ("=", "symbol", VStr "ABC") ])
     (calls (snd (select prices X0 scenario_B new_world))) /\
  unconsumed_conditions prices (response_columns new_world) (where_ scenario_B) = [] /\
  ~ In (FilterCall (unconsumed_conditions prices (response_columns new_world)
                      (where_ scenario_B)))
       (calls (snd (select prices X0 scenario_B new_world))).
Proof.
  split; [|split].
  - vm_compute. right. left. reflexivity.
  - vm_compute. reflexivity.
  - vm_compute. intros [H|[H|[H|[]]]]; discriminate.
Qed.

(** Scenario B: the filter call carries both conditions. *)
Lemma local_filters_are_all_conditions_witness :
  exists new,
    calls (snd (select prices X0 scenario_B new_world)) = (calls new_world ++ new)%list /\
    (forall fs, In (FilterCall fs) new -> fs = filter_items (where_ scenario_B)) /\
    (forall df, fst (select prices X0 scenario_B new_world) = Return df ->
                In (FilterCall (filter_items (where_ scenario_B))) new).
Proof.
  exact (local_filters_are_all_conditions _ _ _ prices X0 scenario_B new_world
           (fst (select prices X0 scenario_B new_world))
           (snd (select prices X0 scenario_B new_world))
           (surjective_pairing _)).
Defined.





Lemma take_never_none (df : frame) (v : value) : take df v <> Return None.
Proof. destruct v; discriminate. Qed.

(** C5.  On the code, the guard after the limit is applied again tests
    that there is a frame, not that it has rows: whatever frame [head]
    yields is passed on, and [DataFrame.head] yields a frame for every
    frame, so that the diagnostic is not raised; with a remote answer
    without rows and [LIMIT 5], [select] returns the empty result. *)
Theorem limit_guard_misses_empty_frame :
  (forall (Where DataFrame Remote : Type) (D : Descriptor)
          (X : Externals Where DataFrame Remote) (query : Select Where)
          (result limited : DataFrame) (w : World Remote) (v : value),
      limit query = Some v ->
      head _ _ _ X result v = Return (Some limited) ->
      limit_locally D X query result w = (Return limited, w)) /\
  (forall (df : frame) (v : value), take df v <> Return None) /\
  take (mk_frame ["date"; "close"] []) (VInt 5)
  = Return (Some (mk_frame ["date"; "close"] [])) /\
  select prices X_empty (query_of [Star] [symbol_is_ABC] (Some (VInt 5))) new_world
  = (Return (mk_frame ["date"; "close"; "symbol"] []),
     mk_World nat 1%nat ["date"; "close"; "symbol"]
       [ ObbCall [("symbol", VStr "ABC")];
         FilterCall [("=", "symbol", VStr "ABC")];
         ProjectCall [Star] ["date"; "close"; "symbol"] ]).
Proof.
  split; [|split; [|split]].
  - intros. now apply limit_locally_frame with (v := v).
  - apply take_never_none.
  - vm_compute. reflexivity.
  - vm_compute. reflexivity.
Qed.


Lemma prices_parameters_unique : NoDup (keys (params_fields prices)).
Proof.
  repeat constructor; simpl; intuition discriminate.
Defined.


(** [symbol = 'ABC'] followed by the disjunction marker, on a new table. *)
Lemma select_rejects_or_witness :
  select prices X0 (query_of [Star] [symbol_is_ABC; OrNone] None) new_world
  = (Raise (mk_exn NotImplementedError "OR is not supported"), new_world).
Proof.
  apply (proj1 (proj2 (select_rejects_or _ _ _ prices X0
                         (query_of [Star] [symbol_is_ABC; OrNone] None) new_world
                         [symbol_is_ABC] OrNone [] eq_refl eq_refl))
               (loop_state_of [symbol_is_ABC])).
  reflexivity.
Defined.

(** [date > 'yesterday' OR ...] on a new table: the literal is read before
    the marker is met, and it is no date. *)
Lemma or_after_unreadable_date :
  existsb is_or [Cmp ">" "date" (VStr "yesterday"); OrNone] = true /\
  select prices X0
    (query_of [Star] [Cmp ">" "date" (VStr "yesterday"); OrNone] None) new_world
  = (Raise (mk_exn ValueError "Can't parse date: yesterday"), new_world).
Proof. split; vm_compute; reflexivity. Qed.

End TableRuns.

(** ** The data node: the remaining operations *)

Section DataNodeMoreFacts.
Import PyStr PyVal PyDict PyExn PyMonad DataNode DataNodeMore.
Variables Conn DataFrame : Type.
Variable self : IntegrationDataNode Conn DataFrame.
Variable ft : float_text.

(** Case analysis along the equation of a run, innermost test first. *)
Ltac unroll H :=
  repeat (cbn in H;
          match type of H with
          | context [match ?x with _ => _ end] =>
              lazymatch x with
              | context [match _ with _ => _ end] => fail
              | _ => destruct x eqn:?
              end
          end);
  cbn in H.

Lemma dispatched_of_app (a b : list event) :
  dispatched_of (a ++ b) = (dispatched_of a ++ dispatched_of b)%list.
Proof. unfold dispatched_of. apply flat_map_app. Qed.

Ltac close_plan :=
  try match goal with
      | E : (List.length ?l =? 0)%nat = _ |- _ =>
          destruct l; cbn in E; try discriminate E
      end;
  match goal with
  | H : (_, _) = (_, _) |- _ => injection H as <- <-
  end;
  cbn [events conn];
  rewrite <- ?app_assoc;
  eexists; split; [reflexivity|];
  unfold create_table_plan, initial_part;
  repeat match goal with
         | E : format_data _ _ = _ |- _ => rewrite E
         end;
  cbn;
  repeat split;
  try (intros; discriminate);
  try (eexists; reflexivity);
  try reflexivity.

Ltac close_plan_unchanged :=
  try match goal with
      | E : (List.length ?l =? 0)%nat = _ |- _ =>
          destruct l; cbn in E; try discriminate E
      end;
  match goal with
  | H : (_, _) = (_, _) |- _ => injection H as <- <-
  end;
  exists []; rewrite app_nil_r;
  unfold create_table_plan, initial_part;
  repeat match goal with
         | E : format_data _ _ = _ |- _ => rewrite E
         end;
  cbn; repeat split; try (intros; discriminate); try (eexists; reflexivity).

(** The statements of a [create_table] follow its plan: the drop (with
    [if_exists]) when [is_replace], the creation (with [is_replace=True])
    when [is_replace] or [is_create], one insert of all formatted rows when
    there are rows.  Whatever the outcome, what was dispatched is an initial
    part of the plan; a call that returns has dispatched all of it; and with
    an empty plan the world is left as it was. *)
Theorem create_table_follows_plan
        (table_name : Identifier) (result_set : ResultSet)
        (is_replace is_create : bool) (w : World Conn)
        (r : outcome unit) (w' : World Conn) :
  create_table self ft table_name result_set is_replace is_create w = (r, w') ->
  exists new,
    events w' = (events w ++ new)%list /\
    initial_part (dispatched_of new)
      (create_table_plan ft table_name result_set is_replace is_create) /\
    (r = Return tt ->
     dispatched_of new = create_table_plan ft table_name result_set is_replace is_create) /\
    (create_table_plan ft table_name result_set is_replace is_create = [] -> w' = w).
Proof.
  unfold create_table, bind, ret, lift, try_except, _query, call_handler, bind,
    emit, modify, raise_on_error, raise, ret.
  intros H.
  destruct is_replace, is_create; unroll H.
  all: try close_plan.
  all: close_plan_unchanged.
Qed.

(** Of the three statements of [create_table] only the insert has its
    connector failure wrapped, as [DBHandlerException] with the message
    [[ds_type/integration_name]: ] followed by the message as it is (not
    stripped, no class name for an empty one), whether or not a drop and a
    creation came before it; a failure of the drop or of the creation
    leaves [create_table] as the connector raised it.  In each case the
    statements before the failing one were accepted, and the failing one is
    the last event. *)
Theorem create_table_failures
        (table_name : Identifier) (result_set : ResultSet)
        (is_replace is_create : bool) (w : World Conn)
        (e : exn) (c1 c' : Conn) (evs : list event) :
  (forall rows,
      accepted (integration_handler self)
        (drop_statements table_name is_replace
         ++ create_statements table_name result_set is_replace is_create)%list
        (conn w) = Some (c1, evs) ->
      format_data ft result_set = Return rows ->
      rows <> [] ->
      handler_query Conn DataFrame (integration_handler self)
        (Insert table_name
                (map (fun x => mk_Identifier [alias x]) (rs_columns result_set)) rows)
        c1 = (Raise e, c') ->
      create_table self ft table_name result_set is_replace is_create w
      = (Raise (mk_exn DBHandlerException
                  ("[" ++ ds_type self ++ "/" ++ integration_name self ++ "]: "
                   ++ exn_msg e)),
         mk_World Conn c'
           (events w ++ evs
            ++ [Dispatched
                  (Insert table_name
                     (map (fun x => mk_Identifier [alias x]) (rs_columns result_set))
                     rows)])%list)) /\
  (is_replace || is_create = true ->
   accepted (integration_handler self) (drop_statements table_name is_replace)
     (conn w) = Some (c1, evs) ->
   handler_query Conn DataFrame (integration_handler self)
     (CreateTable table_name (table_columns_of (rs_columns result_set)) true)
     c1 = (Raise e, c') ->
   create_table self ft table_name result_set is_replace is_create w
   = (Raise e,
      mk_World Conn c'
        (events w ++ evs
         ++ [Dispatched
               (CreateTable table_name
                  (table_columns_of (rs_columns result_set)) true)])%list)) /\
  (is_replace = true ->
   handler_query Conn DataFrame (integration_handler self)
     (DropTables [table_name] true) (conn w) = (Raise e, c') ->
   create_table self ft table_name result_set is_replace is_create w
   = (Raise e,
      mk_World Conn c' (events w ++ [Dispatched (DropTables [table_name] true)])%list)).
Proof.
  unfold create_table, bind, ret, lift, try_except, _query, call_handler, bind,
    emit, modify, raise_on_error, raise, ret, wrap_message,
    drop_statements, create_statements.
  split; [|split].
  - intros rows Hacc Hrows Hne Hinsert.
    destruct rows as [|row rows]; [contradiction|].
    destruct is_replace, is_create; cbn in Hacc; unroll Hacc;
      try discriminate Hacc; injection Hacc as <- <-; cbn in Hinsert;
      repeat (cbn; match goal with
                   | E : handler_query _ _ _ _ _ = _ |- _ => rewrite E
                   | E : resp_type _ = _ |- _ => rewrite E
                   | E : format_data _ _ = _ |- _ => rewrite E
                   end);
      cbn; rewrite <- ?app_assoc; reflexivity.
  - intros Hflags Hacc Hcreate.
    destruct is_replace, is_create; try discriminate Hflags;
      cbn in Hacc; unroll Hacc; try discriminate Hacc;
      injection Hacc as <- <-; cbn in Hcreate;
      repeat (cbn; match goal with
                   | E : handler_query _ _ _ _ _ = _ |- _ => rewrite E
                   | E : resp_type _ = _ |- _ => rewrite E
                   end);
      cbn; rewrite <- ?app_assoc; rewrite ?app_nil_r; reflexivity.
  - intros -> Hdrop. cbn. cbn in Hdrop. rewrite Hdrop. reflexivity.
Qed.

(** [drop_table] dispatches the one statement [DropTables [name]
    if_exists]; a connector failure leaves it as it was raised, an [ERROR]
    response raises an [Exception] with the response's message alone, and
    any other response returns. *)
Theorem drop_table_outcomes (name : Identifier) (if_exists : bool)
        (w : World Conn) (c' : Conn) :
  (forall e,
      handler_query Conn DataFrame (integration_handler self)
        (DropTables [name] if_exists) (conn w) = (Raise e, c') ->
      drop_table self name if_exists w
      = (Raise e,
         mk_World Conn c' (events w ++ [Dispatched (DropTables [name] if_exists)])%list)) /\
  (forall result,
      handler_query Conn DataFrame (integration_handler self)
        (DropTables [name] if_exists) (conn w) = (Return result, c') ->
      drop_table self name if_exists w
      = ((match resp_type result with
          | ERROR => Raise (mk_exn Exception_ (error_message result))
          | _ => Return tt
          end),
         mk_World Conn c'
           (events w ++ [Dispatched (DropTables [name] if_exists);
                         Observed (handler_class_name (integration_handler self))
                                  (resp_type result)])%list)).
Proof.
  unfold drop_table, bind, _query, call_handler, bind, emit, modify,
    raise_on_error, raise, ret.
  split; intros x Hcall; cbn; cbn in Hcall; rewrite Hcall; cbn.
  - reflexivity.
  - rewrite <- app_assoc. now destruct (resp_type x).
Qed.

(** The frame [query] works on: a series is first made a frame. *)
Lemma query_events_assoc (a : list event) (x y : event) (l : list event) :
  (((a ++ [x]) ++ [y]) ++ l)%list = (a ++ x :: y :: l)%list.
Proof. now rewrite <- !app_assoc. Qed.


(** Every [query] calls the connector once, with the statement when there
    is one (the raw text is then ignored) and with the raw text otherwise;
    what follows in the events is no further call: nothing when the
    connector raised (no duration is observed for a failure), the observation
    and logged errors when it returned. *)
Theorem query_dispatches_once
        (q : option statement) (nq : option string) (w : World Conn)
        (r : outcome (list (list value) * list (string * string))) (w' : World Conn) :
  query self q nq w = (r, w') ->
  (exists rest,
      events w' = (events w ++ connector_event q nq :: rest)%list /\
      forallb (fun ev => negb (is_connector_call ev)) rest = true /\
      ((exists e c', connector_call self q nq (conn w) = (Raise e, c')) -> rest = [])) /\
  (forall s nq', query self (Some s) nq' w = query self (Some s) None w).
Proof.
  intros H. split; [|reflexivity].
  unfold query, try_except, bind, _query, _native_query, call_handler, bind,
    emit, modify, raise, ret, columns_info_of in H.
  unfold connector_call, connector_event.
  destruct q as [s|]; unroll H; injection H as <- <-; cbn [events];
    rewrite ?query_events_assoc; rewrite <- ?app_assoc; cbn;
    eexists; (split; [reflexivity|]); (split; [reflexivity|]);
    intros (e' & c'' & Hc); congruence.
Qed.

End DataNodeMoreFacts.

(** *** The list of tables *)

Section TablesFacts.
Import PyStr PyVal PyDict PyExn PyMonad DataNode.
Variables Conn DataFrame TablesRow : Type.
Variable from_dict : dict value -> outcome TablesRow.
Variable self : IntegrationDataNode Conn DataFrame.

(** [get_tables] asks the connector once.  A failure of the connector is
    raised as it is; a response of any kind but [TABLE], [OK] included,
    raises [Exception("Can't get tables: ...")] with the response's
    message; for a [TABLE] response the records of its frame are turned
    into rows by [TablesRow.from_dict], one row for each record and in
    their order, and what the reading of the records or [from_dict] raises
    is raised as it is. *)
Theorem get_tables_outcomes (w : World Conn) (c' : Conn) :
  (forall e,
      handler_get_tables Conn DataFrame (integration_handler self) (conn w)
      = (Raise e, c') ->
      get_tables from_dict self w
      = (Raise e, mk_World Conn c' (events w ++ [TablesAsked])%list)) /\
  (forall response,
      handler_get_tables Conn DataFrame (integration_handler self) (conn w)
      = (Return response, c') ->
      snd (get_tables from_dict self w)
      = mk_World Conn c' (events w ++ [TablesAsked])%list /\
      (resp_type response <> TABLE ->
       fst (get_tables from_dict self w)
       = Raise (mk_exn Exception_ ("Can't get tables: " ++ error_message response))) /\
      (resp_type response = TABLE ->
       (forall e,
           to_dict_records DataFrame (pd Conn DataFrame self) (data_frame response)
           = Raise e ->
           fst (get_tables from_dict self w) = Raise e) /\
       (forall records,
           to_dict_records DataFrame (pd Conn DataFrame self) (data_frame response)
           = Return records ->
           (forall rows,
               fst (get_tables from_dict self w) = Return rows <->
               Forall2 (fun record row => from_dict record = Return row) records rows) /\
           (forall e,
               fst (get_tables from_dict self w) = Raise e ->
               exists record, In record records /\ from_dict record = Raise e)))).
Proof.
  unfold get_tables, bind, call_handler, raise, ret, lift.
  split; intros x Hcall; cbn; cbn in Hcall; rewrite Hcall; cbn; [reflexivity|].
  split; [|split].
  - destruct (resp_type x); [|reflexivity|reflexivity].
    now destruct (to_dict_records DataFrame (pd Conn DataFrame self) (data_frame x)).
  - intros Hkind. destruct (resp_type x); [now elim Hkind|reflexivity|reflexivity].
  - intros ->. split.
    + now intros e ->.
    + intros records ->. cbn. rewrite ofold_snoc.
      destruct (omap from_dict records) as [e|rows] eqn:E; cbn.
      * split.
        -- intros rows. split; [discriminate|].
           intros H. apply omap_Return in H. congruence.
        -- intros e' H. injection H as <-. now apply omap_Raise.
      * split; [|discriminate].
        intros rows'. rewrite <- omap_Return, E. split; congruence.
Qed.

End TablesFacts.

(** *** Insert preparation: nulls and missing keys *)

Section CoercionMoreFacts.
Import PyStr PyVal PyDict PyExn PyMonad DataNode.
Variable ft : float_text.

(** A [None] stays [None], and no other value is turned into [None]. *)
Theorem coerce_keeps_nulls (t : sql_type) (v : value) :
  coerce ft t v = VNone <-> v = VNone.
Proof.
  split; [|now intros ->].
  intros H. destruct (python_type ft t v) as [v'|] eqn:E.
  - assert (Hs := python_type_storage ft t v v' E).
    unfold coerce in H. rewrite E in H.
    destruct v; try reflexivity; subst v'; destruct t; discriminate.
  - now rewrite (coerce_failure ft t v E) in H.
Qed.

(** Formatting returns exactly when every record has a value under every
    alias, with one row per record and one value per column; otherwise it
    raises the [KeyError] of an alias that a record lacks. *)
Theorem format_data_shape_or_key_error (result_set : ResultSet) :
  (forall rows,
      format_data ft result_set = Return rows ->
      complete result_set = true /\
      List.length rows = List.length (get_records result_set) /\
      Forall (fun row => List.length row = List.length (rs_columns result_set)) rows) /\
  (forall e,
      format_data ft result_set = Raise e ->
      complete result_set = false /\
      exists rec col,
        In rec (get_records result_set) /\
        In col (rs_columns result_set) /\
        has rec (alias col) = false /\
        e = mk_exn KeyError ("'" ++ alias col ++ "'")).
Proof.
  destruct result_set as [columns records]. unfold complete. simpl.
  rewrite format_data_rows. simpl. split.
  - intros rows H. apply omap_Return in H.
    split; [|split].
    + apply forallb_forall. intros rec Hrec.
      apply forallb_forall. intros col Hcol.
      clear - H Hrec Hcol.
      induction H as [|rec' row records rows Hrow _ IH]; [contradiction|].
      destruct Hrec as [->|Hrec]; [|now apply IH].
      rewrite format_row_cells in Hrow. apply omap_Return in Hrow.
      assert (Hcell : exists v, cell ft (table_columns_meta_of columns) rec (alias col)
                                = Return v).
      { clear - Hrow Hcol.
        assert (Ha : In (alias col) (map alias columns)) by now apply in_map.
        revert Ha. generalize (alias col). intros a Ha.
        induction Hrow as [|a' v l r Hav _ IH]; [contradiction|].
        destruct Ha as [->|Ha]; eauto. }
      destruct Hcell as [v Hv]. apply cell_Return in Hv.
      destruct Hv as (raw & t & Hraw & _). unfold has. now rewrite Hraw.
    + symmetry. eapply Forall2_length; eauto.
    + clear - H. induction H as [|rec row records rows Hrow _ IH]; constructor; auto.
      rewrite format_row_cells in Hrow. apply omap_Return in Hrow.
      apply Forall2_length in Hrow. now rewrite length_map in Hrow.
  - intros e H. apply omap_Raise in H. destruct H as (rec & Hrec & Hrow).
    rewrite format_row_cells in Hrow. apply omap_Raise in Hrow.
    destruct Hrow as (a & Ha & Hcell).
    apply in_map_iff in Ha. destruct Ha as (col & <- & Hcol).
    assert (Hmeta : has (table_columns_meta_of columns) (alias col) = true).
    { apply has_meta_fold. right. now apply in_map. }
    unfold cell, getitem in Hcell. unfold has in Hmeta.
    destruct (get rec (alias col)) as [raw|] eqn:Eraw; simpl in Hcell.
    + destruct (get (table_columns_meta_of columns) (alias col)); discriminate.
    + injection Hcell as <-.
      assert (Hhas : has rec (alias col) = false) by (unfold has; now rewrite Eraw).
      split.
      * apply not_true_is_false. intros Hall.
        rewrite forallb_forall in Hall. specialize (Hall rec Hrec).
        rewrite forallb_forall in Hall. rewrite (Hall col Hcol) in Hhas. discriminate.
      * exists rec, col. auto.
Qed.

End CoercionMoreFacts.

(** ** The table: the parameters of the remote call *)

Section ParamFacts.
Import PyStr PyVal PyDict PyExn PyMonad DateTime OpenBB OpenBBMore.
Variables Where DataFrame Remote : Type.
Variable D : Descriptor.
Variable X : Externals Where DataFrame Remote.
Implicit Types (query : Select Where) (w : World Remote) (st : loop_state).

Lemma get_params_fold (k : string) (conditions : list condition) :
  forall (d : dict value) (found : option value),
    get d k = found ->
    get (fold_left
           (fun ps c =>
              match c with
              | Cmp op arg1 arg2 => if String.eqb op "=" then PyDict.set ps arg1 arg2 else ps
              | OrNone => ps
              end) conditions d) k
    = fold_left
        (fun found c =>
           match c with
           | Cmp op arg1 arg2 =>
               if String.eqb op "=" && String.eqb arg1 k then Some arg2 else found
           | OrNone => found
           end) conditions found.
Proof.
  induction conditions as [|c conditions IH]; simpl; intros d found Hd; [exact Hd|].
  apply IH. destruct c as [op arg1 arg2|]; [|exact Hd].
  destruct (String.eqb op "="); simpl; [|exact Hd].
  destruct (String.eqb arg1 k) eqn:E.
  - apply String.eqb_eq in E. subst. apply get_set_same.
  - apply String.eqb_neq in E. rewrite get_set_other; auto.
Qed.

Lemma last_equality_none (conditions : list condition) (k : string) :
  has_equality conditions k = false ->
  forall found,
    fold_left
      (fun found c =>
         match c with
         | Cmp op arg1 arg2 =>
             if String.eqb op "=" && String.eqb arg1 k then Some arg2 else found
         | OrNone => found
         end) conditions found = found.
Proof.
  induction conditions as [|c conditions IH]; simpl; intros H found; [reflexivity|].
  apply orb_false_iff in H. destruct H as [Hc H].
  rewrite IH by exact H. destruct c as [op arg1 arg2|]; [|reflexivity].
  now rewrite Hc.
Qed.

(** The auxiliary parameters read off the conditions: under a name is the
    literal of the last equality on it; a name on which there is no equality
    is absent, whatever other comparisons mention it. *)
Theorem get_params_last_equality (conditions : list condition) (k : string) :
  get (_get_params_from_conditions conditions) k = last_equality conditions k /\
  (has_equality conditions k = false ->
   get (_get_params_from_conditions conditions) k = None) /\
  (forall before v,
      conditions = (before ++ [Cmp "=" k v])%list ->
      get (_get_params_from_conditions conditions) k = Some v).
Proof.
  assert (Hget : get (_get_params_from_conditions conditions) k
                 = last_equality conditions k).
  { unfold _get_params_from_conditions, last_equality. now apply get_params_fold. }
  split; [exact Hget|]. split.
  - intros H. rewrite Hget. unfold last_equality. now apply last_equality_none.
  - intros before v ->. rewrite Hget. unfold last_equality.
    rewrite fold_left_app. simpl. now rewrite String.eqb_refl.
Qed.

(** *** What one pass does to the parameters *)

Lemma step_params (columns : list string) (arg_params : dict value) (strict : value)
      st (op arg1 : string) (arg2 : value) st' :
  condition_step D X columns arg_params strict st (Cmp op arg1 arg2) = Return st' ->
  (has (params_fields D) ("start_" ++ arg1) = true /\
   time_range_params X arg_params op arg1 arg2 (params st) = Return (params st') /\
   columns_to_add st' = columns_to_add st) \/
  (params st' = params st /\ columns_to_add st' = columns_to_add st) \/
  (String.eqb op "=" = true /\
   has (params_fields D) arg1 || negb (truthy strict) = true /\
   params st' = PyDict.set (params st) arg1 arg2 /\
   columns_to_add st' = PyDict.set (columns_to_add st) arg1 arg2).
Proof.
  unfold condition_step.
  destruct (String.eqb op "or"); [discriminate|].
  destruct (has (params_fields D) ("start_" ++ arg1)) eqn:Estart; simpl.
  - destruct (mem arg1 columns && negb (is_none arg2)); simpl.
    + destruct (getitem (response_fields D) arg1) as [e|ann]; simpl; [discriminate|].
      destruct (String.eqb ann "datetime"); simpl.
      * destruct (time_range_params X arg_params op arg1 arg2 (params st)) as [e|ps'];
          simpl; [discriminate|].
        intros H; injection H as <-; simpl; auto.
      * intros H; injection H as <-; simpl; auto.
    + destruct (has (params_fields D) arg1 || negb (truthy strict)) eqn:Edirect;
        [destruct (String.eqb op "=") eqn:Eop|];
        simpl; intros H; injection H as <-; simpl; auto 10.
  - destruct (has (params_fields D) arg1 || negb (truthy strict)) eqn:Edirect;
      [destruct (String.eqb op "=") eqn:Eop|];
      simpl; intros H; injection H as <-; simpl; auto 10.
Qed.

(** A property that every pass keeps holds when the loop ends. *)
Lemma loop_keeps (P : loop_state -> Prop) (columns : list string)
      (arg_params : dict value) (strict : value) (conditions : list condition) :
  (forall st c st',
      In c conditions -> P st ->
      condition_step D X columns arg_params strict st c = Return st' -> P st') ->
  forall st st',
    P st ->
    ofold (condition_step D X columns arg_params strict) conditions st = Return st' ->
    P st'.
Proof.
  induction conditions as [|c conditions IH]; simpl; intros Hstep st st' HP H.
  - now injection H as <-.
  - destruct (condition_step D X columns arg_params strict st c) as [e|st1] eqn:E;
      simpl in H; [discriminate|].
    apply (IH (fun st c' st' Hin => Hstep st c' st' (or_intror Hin)) st1 st');
      [|exact H].
    apply (Hstep st c st1); [now left|exact HP|exact E].
Qed.

(** The parameters a time range yields are those it was given, with one
    or both of the window parameters set. *)
Lemma time_range_params_form (arg_params : dict value) (op arg1 : string)
      (arg2 : value) (ps ps' : dict value) :
  time_range_params X arg_params op arg1 arg2 ps = Return ps' ->
  ps' = ps \/
  (exists v, ps' = PyDict.set ps ("start_" ++ arg1) v) \/
  (exists v, ps' = PyDict.set ps ("end_" ++ arg1) v) \/
  (exists v v', ps' = PyDict.set (PyDict.set ps ("start_" ++ arg1) v) ("end_" ++ arg1) v').
Proof.
  unfold time_range_params, obind.
  intros H.
  repeat match type of H with
         | context [match ?x with _ => _ end] =>
             lazymatch x with
             | context [match _ with _ => _ end] => fail
             | _ => destruct x
             end
         end;
    try discriminate; injection H as <-; eauto 6.
Qed.

Lemma time_range_params_keys (arg_params : dict value) (op arg1 : string)
      (arg2 : value) (ps ps' : dict value) (k : string) :
  time_range_params X arg_params op arg1 arg2 ps = Return ps' ->
  has ps' k = true ->
  has ps k = true \/ k = "start_" ++ arg1 \/ k = "end_" ++ arg1.
Proof.
  intros Hps. apply time_range_params_form in Hps.
  destruct Hps as [->|[[v ->]|[[v ->]|(v & v' & ->)]]];
    rewrite ?has_set; intros H;
    repeat match type of H with
           | _ || _ = true => apply orb_true_iff in H; destruct H as [H|H]
           end;
    try (apply String.eqb_eq in H); auto.
Qed.

Lemma time_range_params_keeps (arg_params : dict value) (op arg1 : string)
      (arg2 : value) (ps ps' : dict value) (k : string) :
  time_range_params X arg_params op arg1 arg2 ps = Return ps' ->
  has ps k = true -> has ps' k = true.
Proof.
  intros Hps H. apply time_range_params_form in Hps.
  destruct Hps as [->|[[v ->]|[[v ->]|(v & v' & ->)]]];
    rewrite ?has_set, H, ?orb_true_r; reflexivity.
Qed.

Lemma time_range_params_other (arg_params : dict value) (op arg1 : string)
      (arg2 : value) (ps ps' : dict value) (k : string) :
  time_range_params X arg_params op arg1 arg2 ps = Return ps' ->
  k <> "start_" ++ arg1 -> k <> "end_" ++ arg1 ->
  get ps' k = get ps k.
Proof.
  intros Hps Hs He. apply time_range_params_form in Hps.
  destruct Hps as [->|[[v ->]|[[v ->]|(v & v' & ->)]]];
    rewrite ?get_set_other; auto.
Qed.

Lemma remote_params_keeps query st (k : string) :
  has (params st) k = true -> has (remote_params D query st) k = true.
Proof.
  intros H. unfold remote_params.
  destruct (limit query); [|exact H].
  destruct (has (params_fields D) "limit"); [|exact H].
  rewrite has_set, H. apply orb_true_r.
Qed.

Lemma has_keys {V : Type} (d : dict V) (k : string) :
  In k (keys d) -> has d k = true.
Proof.
  unfold has, keys. induction d as [|[k' v] d IH]; simpl; [contradiction|].
  intros [->|Hin].
  - now rewrite String.eqb_refl.
  - destruct (String.eqb k k'); [reflexivity|]. now apply IH.
Qed.

(** The constant columns that are attached again all have their parameter:
    [result[key] = params[key]] finds every key, so that attaching can fail
    only where [result[key] = ...] itself does. *)
Theorem attached_columns_have_params query (columns : list string) st (result : DataFrame) :
  condition_loop D X columns (extract_comparison_conditions _ _ _ X (where_ query))
  = Return st ->
  (forall key, In key (keys (columns_to_add st)) ->
               has (remote_params D query st) key = true) /\
  ((forall df key v, exists df', setitem _ _ _ X df key v = Return df') ->
   exists result',
     attach_columns X (columns_to_add st) (remote_params D query st) result
     = Return result').
Proof.
  intros Hloop.
  assert (Hinv : forall k, has (columns_to_add st) k = true -> has (params st) k = true).
  { unfold condition_loop in Hloop.
    refine (loop_keeps
              (fun st => forall k, has (columns_to_add st) k = true -> has (params st) k = true)
              _ _ _ _ _ _ _ _ Hloop).
    - intros st0 c st1 _ HP Hstep k.
      destruct c as [op arg1 arg2|]; [|discriminate].
      apply step_params in Hstep.
      destruct Hstep as [(_ & Hps & ->)|[(-> & ->)|(_ & _ & -> & ->)]].
      + intros Hk. eapply time_range_params_keeps; [exact Hps|]. auto.
      + auto.
      + rewrite !has_set. intros Hk. apply orb_true_iff in Hk.
        destruct Hk as [->|Hk]; [reflexivity|]. rewrite (HP k Hk). apply orb_true_r.
    - intros k Hk. discriminate. }
  assert (Hkeys : forall key, In key (keys (columns_to_add st)) ->
                              has (remote_params D query st) key = true).
  { intros key Hin. apply remote_params_keeps, Hinv. now apply has_keys. }
  split; [exact Hkeys|].
  intros Hset. unfold attach_columns. revert result.
  induction (keys (columns_to_add st)) as [|key ks IH]; simpl; intros result; eauto.
  pose proof (Hkeys key (or_introl eq_refl)) as Hk. unfold has in Hk. unfold getitem.
  destruct (get (remote_params D query st) key) as [v|]; [|discriminate]. simpl.
  destruct (Hset result key v) as [df' ->]. simpl.
  apply IH. intros key' Hin. apply Hkeys. now right.
Qed.

Lemma not_mentioned (conditions : list condition) (k op arg1 : string) (arg2 : value) :
  mentioned conditions k = false -> In (Cmp op arg1 arg2) conditions -> arg1 <> k.
Proof.
  unfold mentioned. intros H Hin ->.
  assert (Hex : existsb (fun c => match c with
                                  | Cmp _ a _ => String.eqb a k
                                  | OrNone => false
                                  end) conditions = true).
  { apply existsb_exists. exists (Cmp op k arg2). split; [exact Hin|apply String.eqb_refl]. }
  rewrite Hex in H. discriminate.
Qed.

(** The fixed [provider] reaches the remote call whenever no condition has
    [provider] as its left operand; the window parameters and the limit
    cannot displace it. *)
Theorem provider_reaches_remote query (columns : list string) st (p : string) :
  provider D = Some p ->
  condition_loop D X columns (extract_comparison_conditions _ _ _ X (where_ query))
  = Return st ->
  mentioned (extract_comparison_conditions _ _ _ X (where_ query)) "provider" = false ->
  get (remote_params D query st) "provider" = Some (VStr p).
Proof.
  intros Hp Hloop Hno.
  assert (Hinv : get (params st) "provider" = Some (VStr p)).
  { unfold condition_loop in Hloop.
    refine (loop_keeps (fun st => get (params st) "provider" = Some (VStr p))
              _ _ _ _ _ _ _ _ Hloop).
    - intros st0 c st1 Hin HP Hstep.
      destruct c as [op arg1 arg2|]; [|discriminate].
      pose proof (not_mentioned _ _ _ _ _ Hno Hin) as Hne.
      apply step_params in Hstep.
      destruct Hstep as [(_ & Hps & _)|[(-> & _)|(_ & _ & -> & _)]].
      + rewrite (time_range_params_other _ _ _ _ _ _ _ Hps); [exact HP|discriminate|discriminate].
      + exact HP.
      + rewrite get_set_other; [exact HP|]. intros Heq. now apply Hne.
    - unfold initial_state, initial_params. simpl. now rewrite Hp. }
  unfold remote_params.
  destruct (limit query); [|exact Hinv].
  destruct (has (params_fields D) "limit"); [|exact Hinv].
  rewrite get_set_other; [exact Hinv|discriminate].
Qed.

(** Under a truthy [strict_filter] every parameter of the remote call is
    accounted for by the descriptor: it is the fixed [provider], a declared
    parameter, or the [start_]/[end_] bound of a field with a declared
    [start_] parameter; an equality on any other name stays a local filter. *)
Theorem strict_filter_params query (columns : list string) st (k : string) :
  truthy (strict_filter_of (extract_comparison_conditions _ _ _ X (where_ query))) = true ->
  condition_loop D X columns (extract_comparison_conditions _ _ _ X (where_ query))
  = Return st ->
  has (remote_params D query st) k = true ->
  accounted D k.
Proof.
  intros Hstrict Hloop.
  assert (Hinv : forall k, has (params st) k = true -> accounted D k).
  { unfold condition_loop in Hloop. fold (strict_filter_of
      (extract_comparison_conditions _ _ _ X (where_ query))) in Hloop.
    refine (loop_keeps (fun st => forall k, has (params st) k = true -> accounted D k)
              _ _ _ _ _ _ _ _ Hloop).
    - intros st0 c st1 _ HP Hstep k0.
      destruct c as [op arg1 arg2|]; [|discriminate].
      apply step_params in Hstep.
      destruct Hstep as [(Hstart & Hps & _)|[(-> & _)|(_ & Hdirect & -> & _)]].
      + intros Hk. apply (time_range_params_keys _ _ _ _ _ _ _ Hps) in Hk.
        destruct Hk as [Hk|Hk]; [now apply HP|].
        right. right. exists arg1. auto.
      + apply HP.
      + rewrite has_set. intros Hk. apply orb_true_iff in Hk.
        destruct Hk as [Hk|Hk]; [|now apply HP].
        apply String.eqb_eq in Hk. subst k0.
        rewrite Hstrict in Hdirect. simpl in Hdirect. rewrite orb_false_r in Hdirect.
        right. now left.
    - unfold initial_state, initial_params. simpl.
      intros k0. destruct (provider D); unfold has; simpl; [|discriminate].
      destruct (String.eqb k0 "provider") eqn:E; [|discriminate].
      apply String.eqb_eq in E. intros _. now left. }
  unfold remote_params.
  destruct (limit query) as [v|]; [|apply Hinv].
  destruct (has (params_fields D) "limit") eqn:Elimit; [|apply Hinv].
  rewrite has_set. intros Hk. apply orb_true_iff in Hk.
  destruct Hk as [Hk|Hk]; [|now apply Hinv].
  apply String.eqb_eq in Hk. subst k. right. now left.
Qed.

End ParamFacts.

(** ** The table: the order of the calls and the list of columns *)

Section OrderFacts.
Import PyStr PyVal PyDict PyExn PyMonad OpenBB OpenBBMore.
Variables Where DataFrame Remote : Type.
Variable D : Descriptor.
Variable X : Externals Where DataFrame Remote.
Implicit Types (query : Select Where) (w : World Remote) (result : DataFrame).

Abbreviation conditions_for query := (extract_comparison_conditions _ _ _ X (where_ query)).

Ltac unroll H :=
  repeat (simpl in H;
          match type of H with
          | context [match ?x with _ => _ end] =>
              lazymatch x with
              | context [match _ with _ => _ end] => fail
              | _ => destruct x eqn:?
              end
          end);
  simpl in H.

(** **** Removing a character *)

Lemma prefix_empty (s : string) : prefix "" s = true.
Proof. now destruct s. Qed.

Lemma replace_char_gone (c : ascii) (s : string) :
  has_char c (replace (String c "") "" s) = false.
Proof.
  unfold replace. induction s as [|x s IH]; [reflexivity|].
  cbn [replace_from String.length Nat.pred prefix].
  destruct (ascii_dec c x) as [->|Hne].
  - rewrite prefix_empty. exact IH.
  - cbn [has_char]. rewrite IH, orb_false_r.
    apply Ascii.eqb_neq. exact Hne.
Qed.

(** The fallback: without a table name nothing is asked of DuckDB and an
    [IndexError] is raised; otherwise DuckDB is asked once, its answer is
    the answer, and the text it gets has no backtick left. *)
Theorem select_dataframe_text query result w :
  (from_table query = [] ->
   _select_dataframe X query result w
   = (Raise (mk_exn IndexError "list index out of range"), w)) /\
  (from_table query <> [] ->
   exists query_str,
     _select_dataframe X query result w
     = (duckdb_query _ _ _ X query_str result, logged (DuckdbCall query_str) w) /\
     has_char "`" query_str = false).
Proof.
  unfold _select_dataframe. split.
  - now intros ->.
  - intros Hne. destruct (rev (from_table query)) as [|table tables] eqn:E.
    + destruct (from_table query); [contradiction|].
      apply (f_equal (@List.length string)) in E. rewrite length_rev in E. discriminate.
    + eexists. split; [reflexivity|]. apply replace_char_gone.
Qed.

(** **** The calls of the stages *)

Lemma select_dataframe_kinds query result w (r : outcome DataFrame) w' :
  _select_dataframe X query result w = (r, w') ->
  response_columns w' = response_columns w /\
  ((calls w' = calls w /\ exists e, r = Raise e) \/
   exists query_str, calls w' = (calls w ++ [DuckdbCall query_str])%list).
Proof.
  unfold _select_dataframe, bind, lift, raise, log, modify. intros H.
  unroll H; injection H as <- <-; simpl; eauto.
Qed.

Lemma check_targets_kinds query result (columns : list string) (ts : list target) :
  forall w (r : outcome (option DataFrame)) w',
    check_targets X query result columns ts w = (r, w') ->
    response_columns w' = response_columns w /\
    ((calls w' = calls w /\ forall df, r <> Return (Some df)) \/
     (exists query_str, calls w' = (calls w ++ [DuckdbCall query_str])%list) /\
     r <> Return None).
Proof.
  induction ts as [|t ts IH]; simpl; intros w r w' H.
  - injection H as <- <-. split; [reflexivity|]. left. split; [reflexivity|discriminate].
  - unfold bind, lift in H.
    destruct (target_column t) as [e|[|name|]]; simpl in H.
    + injection H as <- <-. split; [reflexivity|]. left. split; [reflexivity|discriminate].
    + now apply IH in H.
    + destruct (mem name columns); [now apply IH in H|].
      injection H as <- <-. split; [reflexivity|]. left. split; [reflexivity|discriminate].
    + unfold ret in H.
      destruct (_select_dataframe X query result w) as [[e|df] w1] eqn:E;
        injection H as <- <-; apply select_dataframe_kinds in E;
        destruct E as (Hcols & [[Hcalls [e' He']]|Hcalls]); split; auto;
        try discriminate.
      * left. split; [exact Hcalls|discriminate].
      * right. split; [exact Hcalls|discriminate].
      * right. split; [exact Hcalls|discriminate].
Qed.

Lemma project_targets_kinds query result w (r : outcome DataFrame) w' :
  project_targets X query result w = (r, w') ->
  response_columns w' = checked_columns X (response_columns w) result /\
  exists new,
    calls w' = (calls w ++ new)%list /\
    In (map kind_of new) [[]; [Duckdb_]; [Project_]; [Project_; Duckdb_]] /\
    (forall df, r = Return df -> new <> []).
Proof.
  unfold project_targets, bind, extend_columns. intros H.
  fold (checked_columns X (response_columns w) result) in H.
  set (w1 := mk_World Remote (remote w) _ (calls w)) in H.
  destruct (check_targets X query result (checked_columns X (response_columns w) result)
              (targets query) w1) as [[e|[df|]] w2] eqn:Echeck;
    apply check_targets_kinds in Echeck; simpl in Echeck;
    destruct Echeck as (Hcols & Hcalls).
  - injection H as <- <-. split; [exact Hcols|].
    destruct Hcalls as [[-> _]|[[qs ->] _]].
    + exists []. rewrite app_nil_r. simpl. split; [reflexivity|]. split; [auto|discriminate].
    + exists [DuckdbCall qs]. simpl. split; [reflexivity|]. split; [auto|discriminate].
  - unfold ret in H. injection H as <- <-. split; [exact Hcols|].
    destruct Hcalls as [[_ Hno]|[[qs ->] _]]; [now elim (Hno df)|].
    exists [DuckdbCall qs]. simpl. split; [reflexivity|]. split; [auto|discriminate].
  - destruct Hcalls as [[Hcalls _]|[_ Hno]]; [|now elim Hno].
    unfold log, modify, try_except, lift, raise in H. simpl in H.
    match type of H with
    | match ?x with _ => _ end = _ => destruct x as [e|df]
    end.
    + destruct (is_NotImplementedError e).
      * apply select_dataframe_kinds in H. simpl in H.
        destruct H as (Hcols' & Hshape). split; [congruence|].
        rewrite Hcalls in Hshape.
        destruct Hshape as [[-> [e' ->]]|[qs ->]].
        -- eexists [ProjectCall _ _]. simpl. split; [reflexivity|].
           split; [auto|discriminate].
        -- rewrite <- app_assoc. eexists [ProjectCall _ _; DuckdbCall qs]. simpl.
           split; [reflexivity|]. split; [auto 6|discriminate].
      * injection H as <- <-. simpl. split; [exact Hcols|]. rewrite Hcalls.
        eexists [ProjectCall _ _]. simpl. split; [reflexivity|].
        split; [auto|discriminate].
    + injection H as <- <-. simpl. split; [exact Hcols|]. rewrite Hcalls.
      eexists [ProjectCall _ _]. simpl. split; [reflexivity|].
      split; [auto|discriminate].
Qed.

Lemma fetch_columns query (ps : dict value) w (r : outcome DataFrame) w' :
  fetch D X query ps w = (r, w') -> response_columns w' = response_columns w.
Proof.
  unfold fetch, bind, call_obb, require_data, lift, ret, raise. intros H.
  unroll H; injection H as <- <-; reflexivity.
Qed.

Lemma limit_locally_world query result w (r : outcome DataFrame) w' :
  limit_locally D X query result w = (r, w') -> w' = w.
Proof.
  unfold limit_locally, bind, require_data, lift, ret, raise. intros H.
  unroll H; injection H as <- <-; reflexivity.
Qed.

Lemma filter_locally_columns st (ps : dict value) result w (r : outcome DataFrame) w' :
  filter_locally D X st ps result w = (r, w') ->
  response_columns w' = response_columns w.
Proof.
  unfold filter_locally, bind, require_data, lift, ret, raise, log, modify. intros H.
  unroll H; injection H as <- <-; reflexivity.
Qed.

(** The calls and the columns of the body of the [try]. *)
Lemma select_body_kinds query st w (r : outcome DataFrame) w' :
  select_body D X query st w = (r, w') ->
  exists rest,
    calls w' = (calls w ++ ObbCall (remote_params D query st) :: rest)%list /\
    In (map kind_of rest)
       [[]; [Filter_]; [Filter_; Duckdb_]; [Filter_; Project_];
        [Filter_; Project_; Duckdb_]] /\
    (forall df, r = Return df ->
                In (map kind_of rest)
                   [[Filter_; Duckdb_]; [Filter_; Project_];
                    [Filter_; Project_; Duckdb_]]) /\
    (response_columns w' = response_columns w \/
     exists result, response_columns w' = checked_columns X (response_columns w) result) /\
    (forall df, r = Return df ->
                exists result,
                  response_columns w' = checked_columns X (response_columns w) result).
Proof.
  unfold select_body, bind. intros H.
  destruct (fetch D X query (remote_params D query st) w) as [[e|r1] w1] eqn:E1;
    pose proof (fetch_calls _ _ _ D X _ _ _ _ _ E1) as C1;
    pose proof (fetch_columns _ _ _ _ _ E1) as R1.
  { injection H as <- <-. exists []. rewrite C1, R1. simpl.
    repeat split; auto; discriminate. }
  destruct (limit_locally D X query r1 w1) as [[e|r2] w2] eqn:E2;
    apply limit_locally_world in E2; subst w2.
  { injection H as <- <-. exists []. rewrite C1, R1. simpl.
    repeat split; auto; discriminate. }
  destruct (filter_locally D X st (remote_params D query st) r2 w1) as [[e|r3] w3] eqn:E3;
    pose proof (filter_locally_calls _ _ _ D X _ _ _ _ _ _ E3) as C3;
    pose proof (filter_locally_columns _ _ _ _ _ _ E3) as R3.
  { injection H as <- <-. rewrite R3, R1.
    destruct C3 as [[C3 _]|C3]; rewrite C3, C1.
    - exists []. simpl. repeat split; auto; discriminate.
    - rewrite <- app_assoc. exists [FilterCall (filters st)]. simpl.
      repeat split; auto; discriminate. }
  destruct C3 as [[_ [e He]]|C3]; [discriminate|].
  apply project_targets_kinds in H.
  destruct H as (R4 & new & C4 & Hkinds & Hret).
  rewrite R3, R1 in R4. rewrite C4, C3, C1, <- !app_assoc. simpl.
  exists (FilterCall (filters st) :: new). simpl.
  split; [reflexivity|].
  simpl in Hkinds.
  split; [|split; [|split]].
  - destruct Hkinds as [<-|[<-|[<-|[<-|[]]]]]; auto 8.
  - intros df Hdf. specialize (Hret df Hdf).
    destruct Hkinds as [Hk|[<-|[<-|[<-|[]]]]]; auto 8.
    destruct new; [contradiction|discriminate].
  - right. eauto.
  - intros df _. eauto.
Qed.


(** **** The list of [get_columns] *)

Lemma mem_In (x : string) (l : list string) : mem x l = true <-> In x l.
Proof.
  unfold mem. rewrite existsb_exists. split.
  - intros (y & Hin & Heq). apply String.eqb_eq in Heq. now subst.
  - intros Hin. exists x. split; [exact Hin|apply String.eqb_refl].
Qed.

Lemma checked_columns_again (columns : list string) result :
  checked_columns X (checked_columns X columns result) result
  = checked_columns X columns result.
Proof.
  unfold checked_columns at 1.
  replace (filter _ (df_columns Where DataFrame Remote X result)) with (@nil string);
    [apply app_nil_r|].
  symmetry.
  destruct (filter (fun col => negb (mem col (checked_columns X columns result)))
              (df_columns Where DataFrame Remote X result)) as [|col rest] eqn:E;
    [reflexivity|].
  exfalso. assert (Hcol : In col (col :: rest)) by now left.
  rewrite <- E in Hcol. apply filter_In in Hcol. destruct Hcol as [Hcol Hnot].
  assert (Hin : In col (checked_columns X columns result)).
  { unfold checked_columns. apply in_or_app.
    destruct (mem col columns) eqn:Ec.
    - left. now apply mem_In.
    - right. apply filter_In. split; [exact Hcol|]. now rewrite Ec. }
  apply mem_In in Hin. rewrite Hin in Hnot. discriminate.
Qed.

(** [select] changes the list that [get_columns] hands out: the list only
    grows, by columns of the filtered result that it did not have yet; it
    has grown in this way whenever [select] returns, and may have when
    [select] raises after the filters; adding the columns of the same result
    a second time adds nothing. *)
Theorem select_extends_columns query w (r : outcome DataFrame) w' :
  select D X query w = (r, w') ->
  (exists extra,
      response_columns w' = (response_columns w ++ extra)%list /\
      forall c, In c extra -> ~ In c (response_columns w)) /\
  (forall df, r = Return df ->
              exists result,
                response_columns w' = checked_columns X (response_columns w) result) /\
  (forall columns result,
      checked_columns X (checked_columns X columns result) result
      = checked_columns X columns result).
Proof.
  intros H. split; [|split; [|intros; apply checked_columns_again]].
  - assert (Hcases : response_columns w' = response_columns w \/
                     exists result,
                       response_columns w' = checked_columns X (response_columns w) result).
    { rewrite select_cases in H.
      destruct (condition_loop D X (response_columns w) (conditions_for query)) as [e|st];
        [injection H as <- <-; now left|].
      destruct (all_set (mandatory_args_set st)); [|injection H as <- <-; now left].
      destruct (select_body D X query st w) as [[e|df] w1] eqn:Ebody;
        injection H as <- <-; apply select_body_kinds in Ebody;
        destruct Ebody as (_ & _ & _ & _ & Hcols & _); exact Hcols. }
    destruct Hcases as [->|[result ->]].
    + exists []. rewrite app_nil_r. split; [reflexivity|contradiction].
    + unfold checked_columns. eexists. split; [reflexivity|].
      intros c Hc. apply filter_In in Hc. destruct Hc as [_ Hc].
      intros Hin. apply mem_In in Hin. rewrite Hin in Hc. discriminate.
  - intros df ->. rewrite select_cases in H.
    destruct (condition_loop D X (response_columns w) (conditions_for query)) as [e|st];
      [discriminate|].
    destruct (all_set (mandatory_args_set st)); [|discriminate].
    destruct (select_body D X query st w) as [[e|df'] w1] eqn:Ebody; [discriminate|].
    injection H as <- <-. apply select_body_kinds in Ebody.
    destruct Ebody as (_ & _ & _ & _ & _ & Hret). now apply (Hret df').
Qed.

(** The remote function is called exactly when the loop over the
    conditions ends and every required parameter is the left operand of
    some condition. *)
Theorem remote_call_iff query w :
  NoDup (keys (params_fields D)) ->
  (exists ps rest,
      calls (snd (select D X query w)) = (calls w ++ ObbCall ps :: rest)%list) <->
  (exists st,
      condition_loop D X (response_columns w) (conditions_for query) = Return st /\
      forallb (mentioned (conditions_for query)) (mandatory_fields D) = true).
Proof.
  intros Hnd. rewrite select_cases.
  destruct (condition_loop D X (response_columns w) (conditions_for query)) as [e|st] eqn:Eloop.
  { simpl. split.
    - intros (ps & rest & Hcalls).
      rewrite <- (app_nil_r (calls w)) in Hcalls at 1.
      apply app_inv_head in Hcalls. discriminate.
    - intros (st & Hst & _). discriminate. }
  pose proof (condition_loop_mandatory _ _ _ D X Hnd _ _ _ Eloop) as Hm.
  rewrite Hm, all_set_flags.
  destruct (forallb (mentioned (conditions_for query)) (mandatory_fields D)) eqn:Eall.
  - split; [eauto|]. intros _.
    destruct (select_body D X query st w) as [[e|df] w1] eqn:Ebody;
      apply select_body_kinds in Ebody; destruct Ebody as (rest & Hcalls & _);
      simpl; eauto.
  - simpl. split.
    + intros (ps & rest & Hcalls).
      rewrite <- (app_nil_r (calls w)) in Hcalls at 1.
      apply app_inv_head in Hcalls. discriminate.
    + intros (st' & Hst & Hall). discriminate.
Qed.

End OrderFacts.

(** ** The helpers of the test flows *)

Section FlowsFacts.
Import PyStr PyVal PyDict PyExn PyMonad FlowsCommon.
Variable ft : float_text.

Lemma pridict_fields_fold (fields : dict field_type) (fieldes : list string) :
  fold_left
    (fun fieldes item =>
       let field_name := fst item in
       let fieldes := app fieldes [field_name ++ "_confidence"] in
       let fieldes := app fieldes [field_name ++ "_explain"] in
       if is_number_type (snd item)
       then app (app fieldes [field_name ++ "_min"]) [field_name ++ "_max"]
       else fieldes)
    fields fieldes
  = app fieldes
        (flat_map (fun item =>
                     app [fst item ++ "_confidence"; fst item ++ "_explain"]
                         (if is_number_type (snd item)
                          then [fst item ++ "_min"; fst item ++ "_max"]
                          else []))
                  fields).
Proof.
  revert fieldes. induction fields as [|[name t] fields IH]; intros fieldes; simpl.
  - now rewrite app_nil_r.
  - rewrite IH. destruct (is_number_type t); simpl; rewrite <- !app_assoc; reflexivity.
Qed.

(** [get_all_pridict_fields] lists the field names first, in the order of
    the dict, and after them nothing but [_confidence] and [_explain] of
    every field and [_min] and [_max] of the fields declared [int] or
    [float]: three names for each field and two more for each numeric
    one. *)
Theorem pridict_fields_layout (fields : dict field_type) :
  firstn (List.length fields) (get_all_pridict_fields fields) = keys fields /\
  List.length (get_all_pridict_fields fields)
  = (3 * List.length fields
     + 2 * List.length (filter (fun item => is_number_type (snd item)) fields))%nat /\
  (forall name t,
      In (name, t) fields ->
      In (name ++ "_confidence") (skipn (List.length fields) (get_all_pridict_fields fields)) /\
      In (name ++ "_explain") (skipn (List.length fields) (get_all_pridict_fields fields)) /\
      (is_number_type t = true ->
       In (name ++ "_min") (skipn (List.length fields) (get_all_pridict_fields fields)) /\
       In (name ++ "_max") (skipn (List.length fields) (get_all_pridict_fields fields)))) /\
  (forall x,
      In x (skipn (List.length fields) (get_all_pridict_fields fields)) ->
      exists name t,
        In (name, t) fields /\
        (x = name ++ "_confidence" \/ x = name ++ "_explain" \/
         (is_number_type t = true /\ (x = name ++ "_min" \/ x = name ++ "_max")))).
Proof.
  unfold get_all_pridict_fields. rewrite pridict_fields_fold.
  assert (Hlen : List.length (keys fields) = List.length fields)
    by apply length_map.
  split; [|split; [|split]].
  - rewrite <- Hlen, firstn_app, Nat.sub_diag, firstn_all. simpl. apply app_nil_r.
  - rewrite length_app, Hlen. clear Hlen.
    induction fields as [|[name t] fields IH]; [reflexivity|].
    simpl in *. destruct (is_number_type t); simpl; lia.
  - intros name t Hin. rewrite <- Hlen, skipn_app, Nat.sub_diag, skipn_all. simpl.
    split; [|split; [|intros Hnum; split]];
      apply in_flat_map; exists (name, t);
      (split; [exact Hin|]); simpl; try rewrite Hnum; simpl; auto.
  - intros x Hx. rewrite <- Hlen, skipn_app, Nat.sub_diag, skipn_all in Hx. simpl in Hx.
    apply in_flat_map in Hx. destruct Hx as ([name t] & Hin & Hx).
    exists name, t. split; [exact Hin|]. simpl in Hx.
    destruct Hx as [<-|[<-|Hx]]; auto.
    destruct (is_number_type t); simpl in Hx; [|contradiction].
    destruct Hx as [<-|[<-|[]]]; auto.
Qed.

(** **** The WHERE text *)

Lemma condition_clause_not_empty (name : string) (v : value) (clause : string) :
  condition_clause ft name v = Some clause -> clause <> "".
Proof.
  unfold condition_clause. intros H Hempty. subst clause.
  assert (Hlen : forall a b : string,
             String.length (a ++ b) = (String.length a + String.length b)%nat).
  { intros a b. induction a; simpl; auto. }
  destruct v; unfold py_str in H;
    repeat match type of H with
           | context [match ?x with _ => _ end] =>
               lazymatch x with
               | context [match _ with _ => _ end] => fail
               | _ => destruct x
               end
           end;
    try discriminate;
    injection H as H; apply (f_equal String.length) in H;
    rewrite !Hlen in H; simpl in H; lia.
Qed.

Lemma condition_clauses_acc (items : dict value) :
  forall s,
    condition_clauses ft s items
    = option_map (app s) (condition_clauses ft [] items).
Proof.
  induction items as [|[name v] items IH]; intros s; simpl.
  - now rewrite app_nil_r.
  - destruct (condition_clause ft name v) as [clause|]; [|reflexivity].
    rewrite IH, (IH [clause]).
    destruct (condition_clauses ft [] items); simpl; [|reflexivity].
    now rewrite <- app_assoc.
Qed.

Lemma condition_clauses_length (items : dict value) (clauses : list string) :
  condition_clauses ft [] items = Some clauses ->
  List.length clauses = List.length items /\ Forall (fun c => c <> "") clauses.
Proof.
  revert clauses. induction items as [|[name v] items IH]; intros clauses; simpl.
  - intros H. injection H as <-. split; [reflexivity|constructor].
  - destruct (condition_clause ft name v) as [clause|] eqn:E; [|discriminate].
    rewrite condition_clauses_acc.
    destruct (condition_clauses ft [] items) as [rest|]; [|discriminate].
    simpl. intros H. injection H as <-.
    destruct (IH rest eq_refl) as [Hlen Hall]. split; [simpl; congruence|].
    constructor; [exact (condition_clause_not_empty _ _ _ E)|exact Hall].
Qed.

(** A value whose formatting raises: an object whose [__str__] raises, or
    an [int] of more digits than the conversion allows. *)
Lemma condition_clause_none (name : string) (v : value) :
  condition_clause ft name v = None <->
  (exists o, v = VObj o /\ obj_str o = None) \/
  (exists z, v = VInt z /\
             (int_max_str_digits < String.length (PyStr.of_Z (Z.abs z)))%nat).
Proof.
  split.
  - destruct v as [| |z| | |o]; simpl; try discriminate.
    + unfold int_text.
      destruct (int_max_str_digits <? String.length (of_Z (Z.abs z)))%nat eqn:E;
        [|discriminate].
      intros _. right. exists z. split; [reflexivity|]. now apply Nat.ltb_lt.
    + intros H. left. exists o. split; [reflexivity|].
      destruct (obj_str o); [discriminate|reflexivity].
  - intros [(o & -> & Ho)|(z & -> & Hz)]; unfold condition_clause, py_str.
    + now rewrite Ho.
    + unfold int_text. apply Nat.ltb_lt in Hz. now rewrite Hz.
Qed.

Lemma condition_clauses_none (items : dict value) :
  condition_clauses ft [] items = None <->
  exists name v, In (name, v) items /\ condition_clause ft name v = None.
Proof.
  induction items as [|[name v] items IH]; simpl.
  - split; [discriminate|]. now intros (name & v & [] & _).
  - destruct (condition_clause ft name v) as [clause|] eqn:E.
    + rewrite condition_clauses_acc.
      destruct (condition_clauses ft [] items) as [rest|] eqn:Erest; simpl.
      * split; [discriminate|]. intros (n & v' & [Heq|Hin] & Hnone).
        -- injection Heq as -> ->. congruence.
        -- destruct IH as [_ IH].
           assert (Hex : exists name v,
                      In (name, v) items /\ condition_clause ft name v = None)
             by eauto.
           apply IH in Hex. discriminate.
      * split; [|reflexivity]. intros _.
        destruct (proj1 IH eq_refl) as (n & v' & Hin & Hnone). exists n, v'. auto.
    + split; [|reflexivity]. intros _. exists name, v. auto.
Qed.

Lemma concat_not_empty (sep : string) (clauses : list string) :
  clauses <> [] -> Forall (fun c => c <> "") clauses ->
  String.concat sep clauses <> "".
Proof.
  destruct clauses as [|c [|c' rest]]; [contradiction| |]; intros _ Hall;
    inversion Hall as [|? ? Hc _]; subst; simpl.
  - exact Hc.
  - destruct c; [contradiction|discriminate].
Qed.

(** [condition_dict_to_str] fails only through a value whose formatting
    raises: an object whose [__str__] raises, or an [int] of more than
    [int_max_str_digits] digits.  It joins one clause for each item, none
    of them empty, so that the text it returns is empty for the empty dict
    and for no other. *)
Theorem condition_dict_to_str_outcomes (condition : dict value) :
  (condition_dict_to_str ft condition = None <->
   exists name v,
     In (name, v) condition /\
     ((exists o, v = VObj o /\ obj_str o = None) \/
      (exists z, v = VInt z /\
                 (int_max_str_digits < String.length (PyStr.of_Z (Z.abs z)))%nat))) /\
  (condition_dict_to_str ft condition = Some EmptyString <-> condition = []).
Proof.
  unfold condition_dict_to_str. split.
  - assert (Hnone : condition_clauses ft [] condition = None <->
                    exists name v,
                      In (name, v) condition /\
                      ((exists o, v = VObj o /\ obj_str o = None) \/
                       (exists z, v = VInt z /\
                                  (int_max_str_digits
                                   < String.length (PyStr.of_Z (Z.abs z)))%nat))).
    { rewrite condition_clauses_none. split.
      - intros (name & v & Hin & H). exists name, v. split; [exact Hin|].
        now apply (condition_clause_none name).
      - intros (name & v & Hin & H). exists name, v. split; [exact Hin|].
        now apply condition_clause_none. }
    rewrite <- Hnone.
    destruct (condition_clauses ft [] condition); simpl; split; congruence.
  - split.
    + destruct (condition_clauses ft [] condition) as [clauses|] eqn:E; [|discriminate].
      simpl. intros H. injection H as H.
      destruct (condition_clauses_length _ _ E) as [Hlen Hall].
      destruct condition as [|item condition]; [reflexivity|].
      exfalso. apply (concat_not_empty " AND " clauses); [|exact Hall|exact H].
      intros ->. discriminate.
    + intros ->. reflexivity.
Qed.

End FlowsFacts.

(** ** Further runs of the sample node and table *)

Section DataNodeMoreRuns.
Import PyStr PyVal PyDict PyExn PyMonad DataNode DataNodeMore Demo DemoMore.

Abbreviation sample_table := (mk_Identifier ["t"]).

Abbreviation replace_run :=
  (create_table (demo_node (answer_with OK "")) demo_float_text
                sample_table demo_result_set true false fresh).

Lemma create_table_follows_plan_witness :
  exists new,
    events (snd replace_run) = (events fresh ++ new)%list /\
    initial_part (dispatched_of new)
      (create_table_plan demo_float_text sample_table demo_result_set true false) /\
    (fst replace_run = Return tt ->
     dispatched_of new
     = create_table_plan demo_float_text sample_table demo_result_set true false) /\
    (create_table_plan demo_float_text sample_table demo_result_set true false = [] ->
     snd replace_run = fresh).
Proof.
  exact (create_table_follows_plan nat frame (demo_node (answer_with OK ""))
           demo_float_text sample_table demo_result_set true false fresh
           (fst replace_run) (snd replace_run) (surjective_pairing _)).
Defined.

(** A table is replaced: the drop and the creation are accepted and the
    insert is refused; and the drop is accepted and the creation fails. *)
Lemma create_table_failures_witness :
  create_table (demo_node insert_refused) demo_float_text
    sample_table demo_result_set true false fresh
  = (Raise (mk_exn DBHandlerException "[postgres/demo_db]:  duplicate key "),
     mk_World nat 3%nat
       [ Dispatched (DropTables [sample_table] true);
         Observed "DemoHandler" OK;
         Dispatched (CreateTable sample_table (table_columns_of demo_columns) true);
         Observed "DemoHandler" OK;
         Dispatched
           (Insert sample_table
              [mk_Identifier ["id"]; mk_Identifier ["price"]; mk_Identifier ["name"]]
              [[VInt 7; VFloat 3; VStr "12"]; [VStr "n/a"; VNone; VStr "True"]]) ]) /\
  create_table (demo_node create_refused) demo_float_text
    sample_table demo_result_set true false fresh
  = (Raise (mk_exn (OtherError "OperationalError") " gone "),
     mk_World nat 2%nat
       [ Dispatched (DropTables [sample_table] true);
         Observed "DemoHandler" OK;
         Dispatched (CreateTable sample_table (table_columns_of demo_columns) true) ]).
Proof.
  split.
  - apply (proj1 (create_table_failures nat frame (demo_node insert_refused)
                    demo_float_text sample_table demo_result_set true false fresh
                    (mk_exn (OtherError "IntegrityError") " duplicate key ")
                    2%nat 3%nat
                    [ Dispatched (DropTables [sample_table] true);
                      Observed "DemoHandler" OK;
                      Dispatched
                        (CreateTable sample_table (table_columns_of demo_columns) true);
                      Observed "DemoHandler" OK ])
                 [[VInt 7; VFloat 3; VStr "12"]; [VStr "n/a"; VNone; VStr "True"]]).
    + reflexivity.
    + reflexivity.
    + discriminate.
    + reflexivity.
  - apply (proj1 (proj2 (create_table_failures nat frame (demo_node create_refused)
                           demo_float_text sample_table demo_result_set true false fresh
                           (mk_exn (OtherError "OperationalError") " gone ")
                           1%nat 2%nat
                           [ Dispatched (DropTables [sample_table] true);
                             Observed "DemoHandler" OK ]))).
    + reflexivity.
    + reflexivity.
    + reflexivity.
Defined.

Lemma drop_table_outcomes_witness :
  drop_table (demo_node (answer_with ERROR "no such table")) sample_table false fresh
  = (Raise (mk_exn Exception_ "no such table"),
     mk_World nat 1%nat [Dispatched (DropTables [sample_table] false);
                         Observed "DemoHandler" ERROR]).
Proof.
  apply (proj2 (drop_table_outcomes nat frame
                  (demo_node (answer_with ERROR "no such table"))
                  sample_table false fresh 1%nat)
               (mk_Response frame ERROR "no such table" empty_frame)).
  reflexivity.
Defined.

(** A connector that answers the list of tables with an [ERROR], and one
    that answers with a frame of one table. *)
Lemma get_tables_outcomes_witness :
  fst (get_tables table_name_of
         (scripted_node
            (Return (mk_Response (option frame) ERROR "access denied" None))
            (fun _ => Raise (mk_exn Exception_ "")))
         fresh)
  = Raise (mk_exn Exception_ "Can't get tables: access denied") /\
  (forall rows,
      fst (get_tables table_name_of
             (scripted_node
                (Return (mk_Response (option frame) TABLE ""
                           (Some (mk_frame ["TABLE_NAME"] [[VStr "t"]]))))
                (fun _ => Raise (mk_exn Exception_ "")))
             fresh)
      = Return rows <->
      Forall2 (fun record row => table_name_of record = Return row)
              [[("TABLE_NAME", VStr "t")]] rows).
Proof.
  split.
  - apply (proj1 (proj2 (proj2 (get_tables_outcomes nat (option frame) string
                                  table_name_of
                                  (scripted_node
                                     (Return (mk_Response (option frame) ERROR
                                                "access denied" None))
                                     (fun _ => Raise (mk_exn Exception_ "")))
                                  fresh 1%nat)
                               (mk_Response (option frame) ERROR "access denied" None)
                               eq_refl))).
    discriminate.
  - apply (proj2 (proj2 (proj2 (proj2 (get_tables_outcomes nat (option frame) string
                                         table_name_of
                                         (scripted_node
                                            (Return (mk_Response (option frame) TABLE ""
                                                       (Some (mk_frame ["TABLE_NAME"]
                                                                [[VStr "t"]]))))
                                            (fun _ => Raise (mk_exn Exception_ "")))
                                         fresh 1%nat)
                                      (mk_Response (option frame) TABLE ""
                                         (Some (mk_frame ["TABLE_NAME"] [[VStr "t"]])))
                                      eq_refl))
                        eq_refl)
                 [[("TABLE_NAME", VStr "t")]] eq_refl).
Defined.

(** A [TABLE] response that has [None] as its frame: both clearing steps
    are logged, and reading the column types raises. *)
Abbreviation empty_answer := (mk_Response (option frame) TABLE "" None).


(** The same run, evaluated: the [AttributeError] is raised as it is. *)
Example query_without_frame :
  query (scripted_node (Raise (mk_exn Exception_ "")) (fun _ => Return empty_answer))
        (Some (Statement "SELECT 1 AS n")) None fresh
  = (Raise (mk_exn AttributeError "'NoneType' object has no attribute 'dtypes'"),
     mk_World nat 1%nat
       [ Dispatched (Statement "SELECT 1 AS n");
         Observed "DemoHandler" TABLE;
         LoggedError
           "Issue with clearing DF from NaN values: 'NoneType' object has no attribute 'replace'";
         LoggedError
           "Issue with clearing DF from NaN values: 'NoneType' object has no attribute 'where'" ]).
Proof. vm_compute. reflexivity. Qed.

Abbreviation native_run :=
  (query (demo_node (answer_with OK "")) None (Some "SHOW TABLES") fresh).

Lemma query_dispatches_once_witness :
  (exists rest,
      events (snd native_run)
      = (events fresh ++ DispatchedNative (Some "SHOW TABLES") :: rest)%list /\
      forallb (fun ev => negb (is_connector_call ev)) rest = true /\
      ((exists e c', connector_call (demo_node (answer_with OK "")) None
                       (Some "SHOW TABLES") (conn fresh) = (Raise e, c')) ->
       rest = [])) /\
  (forall s nq', query (demo_node (answer_with OK "")) (Some s) nq' fresh
                 = query (demo_node (answer_with OK "")) (Some s) None fresh).
Proof.
  exact (query_dispatches_once nat frame (demo_node (answer_with OK ""))
           None (Some "SHOW TABLES") fresh (fst native_run) (snd native_run)
           (surjective_pairing _)).
Defined.

End DataNodeMoreRuns.

Section TableMoreRuns.
Import PyStr PyVal PyDict PyExn PyMonad OpenBB OpenBBMore Demo DemoMore.

Lemma attached_columns_have_params_witness :
  (forall key,
      In key (keys (columns_to_add (loop_state_of [symbol_is_ABC]))) ->
      has (remote_params prices (query_of [Star] [symbol_is_ABC] None)
                         (loop_state_of [symbol_is_ABC])) key = true) /\
  ((forall df key v, exists df', setitem _ _ _ X0 df key v = Return df') ->
   exists result',
     attach_columns X0 (columns_to_add (loop_state_of [symbol_is_ABC]))
       (remote_params prices (query_of [Star] [symbol_is_ABC] None)
                      (loop_state_of [symbol_is_ABC]))
       prices_frame = Return result').
Proof.
  apply (attached_columns_have_params _ _ _ prices X0
           (query_of [Star] [symbol_is_ABC] None)
           (response_columns new_world) (loop_state_of [symbol_is_ABC]) prices_frame).
  reflexivity.
Defined.

Lemma provider_reaches_remote_witness :
  get (remote_params (prices_from "yfinance") (query_of [Star] [symbol_is_ABC] None)
                     (loop_state_from "yfinance" [symbol_is_ABC]))
      "provider"
  = Some (VStr "yfinance").
Proof.
  apply (provider_reaches_remote _ _ _ (prices_from "yfinance") X0
           (query_of [Star] [symbol_is_ABC] None)
           (response_columns new_world) (loop_state_from "yfinance" [symbol_is_ABC])
           "yfinance").
  - reflexivity.
  - reflexivity.
  - reflexivity.
Defined.

Lemma strict_filter_params_witness :
  accounted prices "symbol".
Proof.
  apply (strict_filter_params _ _ _ prices X0
           (query_of [Star] strict_conditions None)
           (response_columns new_world) (loop_state_of strict_conditions) "symbol").
  - reflexivity.
  - reflexivity.
  - reflexivity.
Defined.

Lemma select_dataframe_text_witness :
  exists query_str,
    _select_dataframe X0 scenario_B prices_frame new_world
    = (duckdb_query _ _ _ X0 query_str prices_frame,
       logged (DuckdbCall query_str) new_world) /\
    has_char "`" query_str = false.
Proof.
  apply (proj2 (select_dataframe_text _ _ _ X0 scenario_B prices_frame new_world)).
  discriminate.
Defined.

Abbreviation limit_run := (select prices X0 scenario_limit new_world).


Lemma select_extends_columns_witness :
  (exists extra,
      response_columns (snd limit_run) = (response_columns new_world ++ extra)%list /\
      forall c, In c extra -> ~ In c (response_columns new_world)) /\
  (forall df, fst limit_run = Return df ->
              exists result,
                response_columns (snd limit_run)
                = checked_columns X0 (response_columns new_world) result) /\
  (forall columns result,
      checked_columns X0 (checked_columns X0 columns result) result
      = checked_columns X0 columns result).
Proof.
  exact (select_extends_columns _ _ _ prices X0 scenario_limit new_world
           (fst limit_run) (snd limit_run) (surjective_pairing _)).
Defined.

Lemma remote_call_iff_witness :
  (exists ps rest,
      calls (snd limit_run) = (calls new_world ++ ObbCall ps :: rest)%list) <->
  (exists st,
      condition_loop prices X0 (response_columns new_world)
        (extract_comparison_conditions _ _ _ X0 (where_ scenario_limit)) = Return st /\
      forallb (mentioned (extract_comparison_conditions _ _ _ X0 (where_ scenario_limit)))
              (mandatory_fields prices) = true).
Proof.
  apply (remote_call_iff _ _ _ prices X0 scenario_limit new_world).
  exact prices_parameters_unique.
Defined.

End TableMoreRuns.

(** ** Columns that share an alias *)

Section AliasFacts.
Import PyStr PyVal PyDict PyExn PyMonad DataNode DataNodeMore.
Variable ft : float_text.

Lemma find_snoc {X : Type} (p : X -> bool) (l : list X) (x : X) :
  find p (l ++ [x])%list
  = match find p l with
    | Some y => Some y
    | None => if p x then Some x else None
    end.
Proof.
  induction l as [|y l IH]; simpl; [reflexivity|].
  destruct (p y); [reflexivity|exact IH].
Qed.

Lemma meta_fold_last (columns : list Column) (a : string) :
  forall d : dict sql_type,
    get (fold_left
           (fun meta col => set meta (alias col) (infer_column_type (col_type col)))
           columns d) a
    = match last_with_alias columns a with
      | Some col => Some (infer_column_type (col_type col))
      | None => get d a
      end.
Proof.
  unfold last_with_alias.
  induction columns as [|c columns IH]; intros d; simpl; [reflexivity|].
  rewrite IH, find_snoc.
  destruct (find _ (rev columns)); [reflexivity|].
  destruct (String.eqb (alias c) a) eqn:E.
  - apply String.eqb_eq in E. subst a. apply get_set_same.
  - apply get_set_other. intros ->. now rewrite String.eqb_refl in E.
Qed.

(** The type by which a value is converted is looked up by alias, in a
    dict that the columns fill in their order: for columns that share an
    alias it is the type of the last of them, for each of them, while the
    [CREATE TABLE] statement declares every column with its own type. *)
Theorem shared_alias_takes_last_type (result_set : ResultSet) :
  (forall a,
      get (table_columns_meta_of (rs_columns result_set)) a
      = option_map (fun col => infer_column_type (col_type col))
                   (last_with_alias (rs_columns result_set) a)) /\
  (forall rows,
      format_data ft result_set = Return rows ->
      Forall2
        (fun rec row =>
           Forall2
             (fun col v =>
                exists raw last,
                  get rec (alias col) = Some raw /\
                  last_with_alias (rs_columns result_set) (alias col) = Some last /\
                  v = coerce ft (infer_column_type (col_type last)) raw)
             (rs_columns result_set) row)
        (get_records result_set) rows) /\
  map tc_type (table_columns_of (rs_columns result_set))
  = map (fun col => infer_column_type (col_type col)) (rs_columns result_set).
Proof.
  assert (Hmeta : forall a,
             get (table_columns_meta_of (rs_columns result_set)) a
             = option_map (fun col => infer_column_type (col_type col))
                          (last_with_alias (rs_columns result_set) a)).
  { intros a. unfold table_columns_meta_of. rewrite meta_fold_last.
    now destruct (last_with_alias (rs_columns result_set) a). }
  split; [exact Hmeta|split].
  - intros rows Hrows. rewrite format_data_rows in Hrows.
    apply omap_Return in Hrows.
    eapply Forall2_impl; [|exact Hrows].
    intros rec row Hrow. simpl in Hrow. rewrite format_row_cells in Hrow.
    rewrite <- omap_map in Hrow. apply omap_Return in Hrow.
    eapply Forall2_impl; [|exact Hrow].
    intros col v Hcell. simpl in Hcell. apply cell_Return in Hcell.
    destruct Hcell as (raw & t & Hraw & Ht & ->).
    rewrite Hmeta in Ht.
    destruct (last_with_alias (rs_columns result_set) (alias col)) as [last|];
      [|discriminate].
    injection Ht as <-. exists raw, last. auto.
  - unfold table_columns_of. rewrite map_map. reflexivity.
Qed.

End AliasFacts.

(** ** The check of a predicted row *)

Section PredictionFacts.
Import PyStr PyVal PyDict PyExn PyMonad FlowsCommon.
Variable greater : value -> value -> bool.
Variable row : dict value.

Ltac unroll H :=
  unfold obind in H;
  repeat (cbn beta iota delta [fst snd] in H;
          match type of H with
          | context [match ?x with _ => _ end] =>
              lazymatch x with
              | context [match _ with _ => _ end] => fail
              | _ => destruct x eqn:?
              end
          end);
  cbn beta iota in H.

Lemma getitem_has (k : string) (v : value) :
  getitem row k = Return v -> has row k = true.
Proof.
  unfold getitem, has. destruct (get row k); [reflexivity|discriminate].
Qed.

Lemma check_field_Return (name : string) (t : field_type) (u : unit) :
  check_field greater row (name, t) = Return u ->
  has row name = true /\
  has row (name ++ "_confidence") = true /\
  has row (name ++ "_explain") = true /\
  (is_number_type t = true ->
   exists lo hi,
     get row (name ++ "_min") = Some lo /\
     get row (name ++ "_max") = Some hi /\
     greater hi lo = true) /\
  (forall other, t <> type_other other).
Proof.
  unfold check_field, assert_. intros H.
  destruct t as [| | |other]; unroll H; try discriminate;
    repeat match goal with
           | E : getitem row _ = Return _ |- _ =>
               let G := fresh "G" in
               pose proof (getitem_has _ _ E) as G;
               unfold getitem in E;
               match type of E with
               | match ?x with _ => _ end = _ =>
                   destruct x eqn:?; [injection E as ->|discriminate E]
               end
           end;
    repeat split; auto; try (intros; discriminate); intros _; eauto.
Qed.

Lemma check_loop_Return (to_predict : dict field_type) :
  forall u u',
    ofold (fun _ item => check_field greater row item) to_predict u = Return u' ->
    forall item, In item to_predict -> exists u0, check_field greater row item = Return u0.
Proof.
  induction to_predict as [|item0 to_predict IH]; intros u u' H item Hin;
    [contradiction|].
  simpl in H. destruct (check_field greater row item0) as [e|u0] eqn:E; [discriminate|].
  simpl in H. destruct Hin as [<-|Hin]; [eauto|]. exact (IH _ _ H item Hin).
Qed.

(** [check_prediction_values] returns [True] or [False].  It is [False] as
    soon as a field is declared with a class other than [int], [float] and
    [str]; a row for which it is [True] has every name of
    [get_all_pridict_fields] as a key, and for every numeric field a
    maximum that is greater than the minimum. *)
Theorem prediction_check_outcomes (to_predict : dict field_type) :
  (check_prediction_values greater row to_predict = VBool true \/
   check_prediction_values greater row to_predict = VBool false) /\
  (forall name other,
      In (name, type_other other) to_predict ->
      check_prediction_values greater row to_predict = VBool false) /\
  (check_prediction_values greater row to_predict = VBool true ->
   (forall x, In x (get_all_pridict_fields to_predict) -> has row x = true) /\
   (forall name t,
       In (name, t) to_predict -> is_number_type t = true ->
       exists lo hi,
         get row (name ++ "_min") = Some lo /\
         get row (name ++ "_max") = Some hi /\
         greater hi lo = true)).
Proof.
  unfold check_prediction_values.
  destruct (ofold (fun _ item => check_field greater row item) to_predict tt)
    as [e|u] eqn:E.
  - split; [now right|]. split; [reflexivity|discriminate].
  - split; [now left|]. split.
    + intros name other Hin.
      destruct (check_loop_Return _ _ _ E _ Hin) as [u0 Hu0].
      apply check_field_Return in Hu0. destruct Hu0 as (_ & _ & _ & _ & Hno).
      now elim (Hno other).
    + intros _. split.
      * intros x Hx. unfold get_all_pridict_fields in Hx.
        rewrite pridict_fields_fold in Hx. apply in_app_or in Hx.
        destruct Hx as [Hx|Hx].
        -- unfold keys in Hx. apply in_map_iff in Hx.
           destruct Hx as ([name t] & <- & Hin).
           destruct (check_loop_Return _ _ _ E _ Hin) as [u0 Hu0].
           now apply check_field_Return in Hu0.
        -- apply in_flat_map in Hx. destruct Hx as ([name t] & Hin & Hx).
           destruct (check_loop_Return _ _ _ E _ Hin) as [u0 Hu0].
           apply check_field_Return in Hu0.
           destruct Hu0 as (_ & Hconf & Hexp & Hnum & _).
           simpl in Hx. destruct Hx as [<-|[<-|Hx]]; [assumption|assumption|].
           destruct (is_number_type t); [|contradiction].
           destruct (Hnum eq_refl) as (lo & hi & Hlo & Hhi & _).
           simpl in Hx. destruct Hx as [<-|[<-|[]]]; unfold has;
             [now rewrite Hlo|now rewrite Hhi].
      * intros name t Hin Hnum.
        destruct (check_loop_Return _ _ _ E _ Hin) as [u0 Hu0].
        apply check_field_Return in Hu0.
        destruct Hu0 as (_ & _ & _ & Hbounds & _). now apply Hbounds.
Qed.

End PredictionFacts.

(** ** What the loop over the conditions can raise *)

Section LoopErrorFacts.
Import PyStr PyVal PyDict PyExn PyMonad DateTime OpenBB OpenBBMore.
Variables Where DataFrame Remote : Type.
Variable D : Descriptor.
Variable X : Externals Where DataFrame Remote.

Lemma time_range_Raise (arg_params : dict value) (op arg1 : string) (arg2 : value)
      (ps : dict value) (e : exn) :
  time_range_params X arg_params op arg1 arg2 ps = Raise e ->
  raised_by_time_range X arg_params op arg2 e.
Proof.
  unfold time_range_params, raised_by_time_range.
  destruct (parse_local_date _ _ _ X arg2) as [e0|date]; cbn;
    [intros H; injection H as <-; now left|].
  destruct (String.eqb op ">"); [discriminate|].
  destruct (String.eqb op "<"); [discriminate|].
  destruct (String.eqb op ">=") eqn:Ege;
    [|destruct (String.eqb op "<=") eqn:Ele;
        [|destruct (String.eqb op "=") eqn:Eeq; [|discriminate]]].
  all: destruct (Timedelta _ _ _ X (get_default arg_params "interval" (VStr "1d")))
    as [e1|delta]; cbn [obind];
    [intros H; injection H as <-; right;
     split; [unfold mem; cbn; rewrite ?Ege, ?Ele, ?Eeq; reflexivity|now left]|].
  all: unfold date_sub, date_add;
    repeat match goal with
           | |- context [in_range ?t] => destruct (in_range t); cbn [obind]
           end;
    try discriminate;
    intros H; injection H as <-; right;
    (split; [unfold mem; cbn; rewrite ?Ege, ?Ele, ?Eeq; reflexivity|now right]).
Qed.

Lemma step_Raise (columns : list string) (arg_params : dict value) (strict : value)
      (st : loop_state) (c : condition) (e : exn) :
  condition_step D X columns arg_params strict st c = Raise e ->
  (e = or_error /\ is_or c = true) \/
  (exists op arg1 arg2,
      c = Cmp op arg1 arg2 /\
      has (params_fields D) ("start_" ++ arg1) = true /\
      mem arg1 columns = true /\
      is_none arg2 = false /\
      ((has (response_fields D) arg1 = false /\
        e = mk_exn KeyError ("'" ++ arg1 ++ "'")) \/
       (get (response_fields D) arg1 = Some "datetime" /\
        raised_by_time_range X arg_params op arg2 e))).
Proof.
  destruct c as [op arg1 arg2|]; unfold condition_step.
  - destruct (String.eqb op "or") eqn:Eor;
      [intros H; injection H as <-; left; split; [reflexivity|exact Eor]|].
    destruct (has (params_fields D) ("start_" ++ arg1) && mem arg1 columns
              && negb (is_none arg2)) eqn:Etime.
    + apply andb_true_iff in Etime. destruct Etime as [Etime Hnone].
      apply andb_true_iff in Etime. destruct Etime as [Hstart Hmem].
      apply negb_true_iff in Hnone.
      unfold getitem.
      destruct (get (response_fields D) arg1) as [ann|] eqn:Eann.
      * cbn [obind]. destruct (String.eqb ann "datetime") eqn:Edt; [|discriminate].
        apply String.eqb_eq in Edt. subst ann.
        destruct (time_range_params X arg_params op arg1 arg2 (params st))
          as [e0|ps'] eqn:Eps; cbn [obind]; [|discriminate].
        intros H. injection H as <-. right. exists op, arg1, arg2.
        apply time_range_Raise in Eps. auto 10.
      * cbn [obind]. intros H. injection H as <-. right. exists op, arg1, arg2.
        assert (Hno : has (response_fields D) arg1 = false)
          by (unfold has; now rewrite Eann).
        auto 10.
    + destruct (has (params_fields D) arg1 || negb (truthy strict));
        [destruct (String.eqb op "=")|]; discriminate.
  - intros H. injection H as <-. now left.
Qed.

Lemma loop_Raise (columns : list string) (arg_params : dict value) (strict : value)
      (conditions : list condition) (e : exn) :
  forall st,
    ofold (condition_step D X columns arg_params strict) conditions st = Raise e ->
    exists c, In c conditions /\
              exists st', condition_step D X columns arg_params strict st' c = Raise e.
Proof.
  induction conditions as [|c conditions IH]; intros st H; [discriminate|].
  simpl in H.
  destruct (condition_step D X columns arg_params strict st c) as [e'|st1] eqn:E.
  - injection H as <-. exists c. split; [now left|eauto].
  - simpl in H. destruct (IH _ H) as (c' & Hin & Hc'). exists c'. split; [now right|assumption].
Qed.

(** The loop over the conditions raises nothing but: the error for OR;
    for a condition on a column that is in the list of columns without
    being a declared field, while its [start_] parameter is declared, the
    [KeyError] of the look-up of its annotation; and, for a time-range
    condition on a datetime field, what the reading of its literal or of
    the interval raises, or the [OverflowError] of a date moved out of
    range.  With the list of columns as the class was created with, the
    [KeyError] is not among them. *)
Theorem condition_loop_errors (columns : list string) (conditions : list condition)
        (e : exn) :
  condition_loop D X columns conditions = Raise e ->
  ((e = mk_exn NotImplementedError "OR is not supported" /\
    existsb is_or conditions = true) \/
   (exists op arg1 arg2,
       In (Cmp op arg1 arg2) conditions /\
       has (params_fields D) ("start_" ++ arg1) = true /\
       mem arg1 columns = true /\
       is_none arg2 = false /\
       ((has (response_fields D) arg1 = false /\
         e = mk_exn KeyError ("'" ++ arg1 ++ "'")) \/
        (get (response_fields D) arg1 = Some "datetime" /\
         raised_by_time_range X (_get_params_from_conditions conditions) op arg2 e)))) /\
  (columns = initial_response_columns D ->
   (e = mk_exn NotImplementedError "OR is not supported" /\
    existsb is_or conditions = true) \/
   (exists op arg1 arg2,
       In (Cmp op arg1 arg2) conditions /\
       has (params_fields D) ("start_" ++ arg1) = true /\
       is_none arg2 = false /\
       get (response_fields D) arg1 = Some "datetime" /\
       raised_by_time_range X (_get_params_from_conditions conditions) op arg2 e)).
Proof.
  unfold condition_loop. intros H. apply loop_Raise in H.
  destruct H as (c & Hin & st' & Hstep). apply step_Raise in Hstep.
  destruct Hstep as [[-> Hor]|(op & arg1 & arg2 & -> & Hstart & Hmem & Hnone & Hcases)].
  - assert (Hex : existsb is_or conditions = true) by (apply existsb_exists; eauto).
    split; [now left|]. intros _. now left.
  - split.
    + right. exists op, arg1, arg2. auto 10.
    + intros ->. right. exists op, arg1, arg2.
      destruct Hcases as [[Hno _]|[Hann Hraised]]; [|auto 10].
      exfalso. unfold mem in Hmem. apply existsb_exists in Hmem.
      destruct Hmem as (col & Hcol & Heq). apply String.eqb_eq in Heq. subst col.
      apply has_keys in Hcol. congruence.
Qed.

End LoopErrorFacts.

(** ** Runs of the further sample data *)

Section FurtherRuns.
Import PyStr PyVal PyDict PyExn PyMonad Demo DemoMore.

(** After a first [select] has added [published] to the list of columns,
    a condition on it raises the [KeyError]. *)
Lemma condition_loop_errors_witness :
  (mk_exn KeyError "'published'" = mk_exn NotImplementedError "OR is not supported" /\
   existsb OpenBB.is_or [OpenBB.Cmp ">" "published" (VStr "2023-01-01")] = true) \/
  (exists op arg1 arg2,
      In (OpenBB.Cmp op arg1 arg2) [OpenBB.Cmp ">" "published" (VStr "2023-01-01")] /\
      has (OpenBB.params_fields news) ("start_" ++ arg1) = true /\
      mem arg1 (OpenBB.response_columns news_after_select) = true /\
      is_none arg2 = false /\
      ((has (OpenBB.response_fields news) arg1 = false /\
        mk_exn KeyError "'published'" = mk_exn KeyError ("'" ++ arg1 ++ "'")) \/
       (get (OpenBB.response_fields news) arg1 = Some "datetime" /\
        OpenBBMore.raised_by_time_range X_news
          (OpenBB._get_params_from_conditions
             [OpenBB.Cmp ">" "published" (VStr "2023-01-01")])
          op arg2 (mk_exn KeyError "'published'")))).
Proof.
  apply (proj1 (condition_loop_errors _ _ _ news X_news
                  (OpenBB.response_columns news_after_select)
                  [OpenBB.Cmp ">" "published" (VStr "2023-01-01")]
                  (mk_exn KeyError "'published'") eq_refl)).
Defined.

Lemma shared_alias_takes_last_type_witness :
  Forall2
    (fun rec row =>
       Forall2
         (fun col v =>
            exists raw last,
              get rec (DataNode.alias col) = Some raw /\
              DataNodeMore.last_with_alias (DataNode.rs_columns twin_result_set)
                (DataNode.alias col) = Some last /\
              v = DataNode.coerce demo_float_text
                    (DataNode.infer_column_type (DataNode.col_type last)) raw)
         (DataNode.rs_columns twin_result_set) row)
    (DataNode.get_records twin_result_set) [[VStr "7"; VStr "7"]].
Proof.
  apply (proj1 (proj2 (shared_alias_takes_last_type demo_float_text twin_result_set))).
  reflexivity.
Defined.

Lemma prediction_check_outcomes_witness :
  FlowsCommon.check_prediction_values int_greater
    [("sold", VBool true); ("sold_confidence", VInt 1); ("sold_explain", VStr "")]
    [("sold", FlowsCommon.type_other "bool")]
  = VBool false /\
  exists lo hi,
    get price_row "price_min" = Some lo /\
    get price_row "price_max" = Some hi /\
    int_greater hi lo = true.
Proof.
  split.
  - apply (proj1 (proj2 (prediction_check_outcomes int_greater
                           [("sold", VBool true); ("sold_confidence", VInt 1);
                            ("sold_explain", VStr "")]
                           [("sold", FlowsCommon.type_other "bool")]))
                 "sold" "bool").
    simpl. now left.
  - apply (proj2 (proj2 (proj2 (prediction_check_outcomes int_greater price_row
                                  [("price", FlowsCommon.type_int)]))
                        eq_refl)
                 "price" FlowsCommon.type_int).
    + simpl. now left.
    + reflexivity.
Defined.

End FurtherRuns.
